(** * OpenPGP card command processing (Gnuk, [src/openpgp.c])

    A shallow embedding of the APDU command handlers of [openpgp.c] and the
    properties of the card protocol they implement.

    Bytes and C [int]s are integers of [Z]; where the source stores a value
    into a [uint8_t] or [uint16_t] the wrap-around is written out.  The
    globals of the firmware are the fields of a record that is threaded
    through the handlers by a small state monad.  The functions that
    [openpgp.c] calls but that live in other files of the firmware
    ([ac.c], [openpgp-do.c], [call-rsa.c], the SHA-1 code) are the fields of
    the interface [Collaborators]. *)

From Stdlib Require Import ZArith List Bool Lia.
Import ListNotations.
Local Open Scope Z_scope.

(** ** Buffers *)

(** [buf[i]] for a byte array: the list holds the contents of the array from
    its start, bytes past the end of the list read as zero. *)
Definition peek (buf : list Z) (i : Z) : Z := nth (Z.to_nat i) buf 0.

(** [buf[i] = v]; the list grows (zero filled) when [i] is past its end, the
    arrays of the firmware being larger than any list used here. *)
Fixpoint poke_nat (buf : list Z) (i : nat) (v : Z) : list Z :=
  match i, buf with
  | O, [] => [v]
  | O, _ :: t => v :: t
  | S n, [] => 0 :: poke_nat [] n v
  | S n, h :: t => h :: poke_nat t n v
  end.

Definition poke (buf : list Z) (i : Z) (v : Z) : list Z :=
  poke_nat buf (Z.to_nat i) v.

(** [p + n] for a pointer [p] into a byte array, the array being seen from
    [p] on. *)
Definition ptr_add (p : list Z) (n : Z) : list Z := skipn (Z.to_nat n) p.

(** [memcpy (dst + off, src, n)]. *)
Fixpoint memcpy_nat (dst : list Z) (off : nat) (src : list Z) (n : nat)
  : list Z :=
  match n with
  | O => dst
  | S k => poke_nat (memcpy_nat dst off src k) (off + k) (nth k src 0)
  end.

Definition memcpy (dst : list Z) (off : Z) (src : list Z) (n : Z) : list Z :=
  memcpy_nat dst (Z.to_nat off) src (Z.to_nat n).

(** Conversions to the unsigned types of the source. *)
Definition u8 (x : Z) : Z := x mod 256.
Definition u16 (x : Z) : Z := x mod 65536.

(** ** Identifiers of the missing header [gnuk.h] *)

(** Modelled from the spec: the capabilities of the authentication state
    (section 3), whose numeric encoding is in the missing [gnuk.h]. *)
Inductive ac_flag : Type :=
| AC_PSO_CDS_AUTHORIZED
| AC_PSO_OTHER_AUTHORIZED
| AC_ADMIN_AUTHORIZED.

(** Modelled from the spec: the three error counters (section 3). *)
Inductive pw_err : Type :=
| PW_ERR_PW1
| PW_ERR_RC
| PW_ERR_PW3.

(** Modelled from the spec: the three private key slots (section 3). *)
Inductive kind_of_key : Type :=
| GPG_KEY_FOR_SIGNING
| GPG_KEY_FOR_DECRYPTION
| GPG_KEY_FOR_AUTHENTICATION.

(** Modelled from the spec: the keystring records of the data object store
    that [gpg_do_read_simple] and [gpg_do_write_simple] address. *)
Inductive nr_do : Type :=
| NR_DO_KEYSTRING_PW1
| NR_DO_KEYSTRING_RC
| NR_DO_KEYSTRING_PW3.

Definition ac_flag_eqb (a b : ac_flag) : bool :=
  match a, b with
  | AC_PSO_CDS_AUTHORIZED, AC_PSO_CDS_AUTHORIZED
  | AC_PSO_OTHER_AUTHORIZED, AC_PSO_OTHER_AUTHORIZED
  | AC_ADMIN_AUTHORIZED, AC_ADMIN_AUTHORIZED => true
  | _, _ => false
  end.

Definition pw_err_eqb (a b : pw_err) : bool :=
  match a, b with
  | PW_ERR_PW1, PW_ERR_PW1 | PW_ERR_RC, PW_ERR_RC | PW_ERR_PW3, PW_ERR_PW3 =>
      true
  | _, _ => false
  end.

Definition nr_do_eqb (a b : nr_do) : bool :=
  match a, b with
  | NR_DO_KEYSTRING_PW1, NR_DO_KEYSTRING_PW1
  | NR_DO_KEYSTRING_RC, NR_DO_KEYSTRING_RC
  | NR_DO_KEYSTRING_PW3, NR_DO_KEYSTRING_PW3 => true
  | _, _ => false
  end.

(** Modelled from the spec: the roles; [who = p2 - 0x80] in
    [cmd_change_password] with P2 = 0x81 for PW1 and 0x83 for PW3
    (section 4.5) gives [BY_USER] and [BY_ADMIN], and the reset code is the
    role in between. *)
Definition BY_USER : Z := 1.
Definition BY_RESETCODE : Z := 2.
Definition BY_ADMIN : Z := 3.

(** Modelled from the spec: a keystring is the 20 byte SHA-1 image, the
    stored PW1 record is [len | SHA1(pw)], 21 bytes (section 3). *)
Definition KEYSTRING_MD_SIZE : Z := 20.
Definition KEYSTRING_SIZE_PW1 : Z := 21.

(** Modelled from the spec: the factory PW1, "123456" (section 8,
    scenario A); only its length is used by [openpgp.c]. *)
Definition OPENPGP_CARD_INITIAL_PW1 : list Z := [49; 50; 51; 52; 53; 54].

Definition strlen (s : list Z) : Z := Z.of_nat (length s).

(** ** The state of the card *)

(** What the collaborators may read and write: the response buffer and the
    state kept by the other files of the firmware.  The authentication
    flags, the error counters and the keystring records are kept explicit,
    the rest ([ext]: private keys, other data objects, cached keystrings) is
    left to the collaborators. *)
Record world (X : Type) : Type := mkWorld {
  res_APDU : list Z;
  res_APDU_size : Z;
  auth_status : ac_flag -> bool;
  pw_err_counter : pw_err -> Z;
  do_simple : nr_do -> option (list Z);
  ext : X
}.

Arguments mkWorld {X}.
Arguments res_APDU {X}.
Arguments res_APDU_size {X}.
Arguments auth_status {X}.
Arguments pw_err_counter {X}.
Arguments do_simple {X}.
Arguments ext {X}.

(** The calls a handler makes to the rest of the firmware, with their
    arguments and, where there is one, the value returned.  The handlers
    record them in the ghost field [calls] of the card, so that "the handler
    delegates to" and "the call returns" can be stated. *)
Inductive call : Type :=
| Call_verify_pso_cds (pw : list Z) (len : Z) (r : Z)
| Call_verify_pso_other (pw : list Z) (len : Z) (r : Z)
| Call_verify_admin (pw : list Z) (len : Z) (r : Z)
| Call_verify_admin_0 (pw : list Z) (len : Z) (known : Z) (r : Z)
| Call_gpg_set_pw3 (pw : list Z) (len : Z)
| Call_gpg_do_load_prvkey (kk : kind_of_key) (who : Z) (ks : list Z) (r : Z)
| Call_gpg_do_chks_prvkey (kk : kind_of_key) (who_old : Z) (old_ks : list Z)
    (who_new : Z) (new_ks : list Z) (r : Z)
| Call_gpg_do_read_simple (nr : nr_do) (r : option (list Z))
| Call_gpg_do_write_simple (nr : nr_do) (data : list Z) (size : Z)
| Call_ac_check_status (f : ac_flag) (r : bool)
| Call_ac_reset_pso_cds
| Call_ac_reset_pso_other
| Call_gpg_passwd_locked (which : pw_err) (r : bool)
| Call_gpg_increment_pw_err_counter (which : pw_err)
| Call_gpg_reset_pw_err_counter (which : pw_err)
| Call_gpg_do_put_data (tag : Z) (data : list Z) (len : Z)
| Call_gpg_do_get_data (tag : Z)
| Call_gpg_do_public_key (b : Z)
| Call_rsa_sign (msg : list Z) (len : Z) (r : Z)
| Call_rsa_decrypt (msg : list Z) (len : Z) (r : Z)
| Call_gpg_get_pw1_lifetime (r : Z)
| Call_gpg_increment_digital_signature_counter
| Return_gpg_change_keystring (r : Z).

(** The card as [openpgp.c] sees it.  [cmd_APDU] and [cmd_APDU_size] are
    written by the transport only, [file_selection] is the static variable
    of [openpgp.c]; the digital signature counter is persistent state that
    [openpgp.c] reaches through [gpg_increment_digital_signature_counter]
    only. *)
Record card (X : Type) : Type := mkCard {
  cmd_APDU : list Z;
  cmd_APDU_size : Z;
  file_selection : Z;
  digital_signature_counter : Z;
  calls : list call;
  wld : world X
}.

Arguments mkCard {X}.
Arguments cmd_APDU {X}.
Arguments cmd_APDU_size {X}.
Arguments file_selection {X}.
Arguments digital_signature_counter {X}.
Arguments calls {X}.
Arguments wld {X}.

(** The functions and globals of the other files of the firmware that
    [openpgp.c] uses (section 6 of the spec gives their contracts).  A
    pointer argument is the byte array seen from the pointer on; the global
    variables of the other files are read off their state. *)
Class Collaborators (X : Type) : Type := {
  sha1 : list Z -> Z -> list Z;
  verify_pso_cds : list Z -> Z -> world X -> Z * world X;
  verify_pso_other : list Z -> Z -> world X -> Z * world X;
  verify_admin : list Z -> Z -> world X -> Z * world X;
  verify_admin_0 : list Z -> Z -> Z -> world X -> Z * world X;
  gpg_set_pw3 : list Z -> Z -> world X -> world X;
  gpg_do_load_prvkey : kind_of_key -> Z -> list Z -> world X -> Z * world X;
  gpg_do_chks_prvkey :
    kind_of_key -> Z -> list Z -> Z -> list Z -> world X -> Z * world X;
  gpg_do_put_data : Z -> list Z -> Z -> world X -> world X;
  gpg_do_get_data : Z -> world X -> world X;
  gpg_do_public_key : Z -> world X -> world X;
  rsa_sign : list Z -> Z -> world X -> Z * world X;
  rsa_decrypt : list Z -> Z -> world X -> Z * world X;
  gpg_get_pw1_lifetime : world X -> Z;
  keystring_md_pw3 : X -> list Z;
  pw1_keystring : X -> list Z;
  data_objects_number_of_bytes : X -> Z;
  openpgpcard_aid : list Z
}.

(** ** The state monad of the handlers *)

Definition M (X A : Type) : Type := card X -> A * card X.

Definition ret {X A : Type} (a : A) : M X A := fun s => (a, s).

Definition bind {X A B : Type} (m : M X A) (k : A -> M X B) : M X B :=
  fun s => let (a, s') := m s in k a s'.

Declare Scope card_scope.
Delimit Scope card_scope with card.
Notation "x <- m ;; k" := (bind m (fun x => k))
  (at level 61, m at next level, right associativity) : card_scope.
Notation "m ;; k" := (bind m (fun _ => k))
  (at level 61, right associativity) : card_scope.
Local Open Scope card_scope.

Section Monad.
Context {X : Type}.

Definition set_wld (s : card X) (w : world X) : card X :=
  mkCard (cmd_APDU s) (cmd_APDU_size s) (file_selection s)
         (digital_signature_counter s) (calls s) w.

Definition record_call (c : call) (s : card X) : card X :=
  mkCard (cmd_APDU s) (cmd_APDU_size s) (file_selection s)
         (digital_signature_counter s) (calls s ++ [c]) (wld s).

(** A call of a function that returns a value. *)
Definition ext_call {A : Type} (ev : A -> call)
    (f : world X -> A * world X) : M X A :=
  fun s => let (a, w) := f (wld s) in (a, record_call (ev a) (set_wld s w)).

(** A call of a [void] function. *)
Definition ext_do (ev : call) (f : world X -> world X) : M X unit :=
  fun s => (tt, record_call ev (set_wld s (f (wld s)))).

(** A call of a function that only reads. *)
Definition ext_ask {A : Type} (ev : A -> call) (f : world X -> A) : M X A :=
  fun s => let a := f (wld s) in (a, record_call (ev a) s).

(** Reading a global variable of another file. *)
Definition global {A : Type} (f : X -> A) : M X A :=
  fun s => (f (ext (wld s)), s).

Definition get_cmd_APDU : M X (list Z) := fun s => (cmd_APDU s, s).
Definition get_cmd_APDU_size : M X Z := fun s => (cmd_APDU_size s, s).
Definition get_file_selection : M X Z := fun s => (file_selection s, s).

Definition set_file_selection (f : Z) : M X unit :=
  fun s => (tt, mkCard (cmd_APDU s) (cmd_APDU_size s) f
                       (digital_signature_counter s) (calls s) (wld s)).

Definition set_res (w : world X) (r : list Z) (n : Z) : world X :=
  mkWorld r n (auth_status w) (pw_err_counter w) (do_simple w) (ext w).

Definition skip : M X unit := ret tt.
End Monad.

(** ** The helpers of [ac.c] and [openpgp-do.c] on the explicit state *)

Section Helpers.
Context {X : Type}.

(** Modelled from the spec: [ac_check_status] of the missing [ac.c] tells
    whether a flag of the authentication state is set (section 3). *)
Definition ac_check_status (f : ac_flag) (w : world X) : bool :=
  auth_status w f.

Definition clear_flag (f : ac_flag) (w : world X) : world X :=
  mkWorld (res_APDU w) (res_APDU_size w)
          (fun g => if ac_flag_eqb g f then false else auth_status w g)
          (pw_err_counter w) (do_simple w) (ext w).

(** Modelled from the spec: [ac_reset_pso_cds] of the missing [ac.c]
    clears [AC_PSO_CDS_AUTHORIZED] (sections 4.5 to 4.7). *)
Definition ac_reset_pso_cds (w : world X) : world X :=
  clear_flag AC_PSO_CDS_AUTHORIZED w.

(** Modelled from the spec: [ac_reset_pso_other] of the missing [ac.c]
    clears [AC_PSO_OTHER_AUTHORIZED] (sections 4.7 and 4.8). *)
Definition ac_reset_pso_other (w : world X) : world X :=
  clear_flag AC_PSO_OTHER_AUTHORIZED w.

Definition set_counter (which : pw_err) (v : Z) (w : world X) : world X :=
  mkWorld (res_APDU w) (res_APDU_size w) (auth_status w)
          (fun c => if pw_err_eqb c which then v else pw_err_counter w c)
          (do_simple w) (ext w).

(** Modelled from the spec: a counter at its maximum of three attempts
    means that the credential is blocked (section 3);
    [gpg_passwd_locked] is in the missing [openpgp-do.c]. *)
Definition gpg_passwd_locked (which : pw_err) (w : world X) : bool :=
  3 <=? pw_err_counter w which.

(** Modelled from the spec: the counter of a role is incremented on a
    failed verification (section 3). *)
Definition gpg_increment_pw_err_counter (which : pw_err) (w : world X)
  : world X :=
  set_counter which (pw_err_counter w which + 1) w.

(** Modelled from the spec: the counter of a role is reset on success
    (section 3). *)
Definition gpg_reset_pw_err_counter (which : pw_err) (w : world X)
  : world X :=
  set_counter which 0 w.

(** Modelled from the spec: [gpg_do_read_simple] of the missing
    [openpgp-do.c] gives the stored record, or [NULL] when there is
    none. *)
Definition gpg_do_read_simple (nr : nr_do) (w : world X)
  : option (list Z) :=
  do_simple w nr.

(** Modelled from the spec: [gpg_do_write_simple (nr, data, size)] of the
    missing [openpgp-do.c] stores the [size] bytes at [data] as the
    record [nr]. *)
Definition gpg_do_write_simple (nr : nr_do) (data : list Z) (size : Z)
    (w : world X) : world X :=
  mkWorld (res_APDU w) (res_APDU_size w) (auth_status w) (pw_err_counter w)
          (fun n => if nr_do_eqb n nr
                    then Some (firstn (Z.to_nat size) data)
                    else do_simple w n)
          (ext w).

(** Modelled from the spec: the persistent digital signature counter is
    incremented (section 4.7); the function is in the missing
    [openpgp-do.c].  The counter is kept apart from the state that the
    other functions of the firmware are given: that they leave it alone
    is part of this model (invariant 7 of the spec), not a result about
    [openpgp.c]. *)
Definition gpg_increment_digital_signature_counter : M X unit :=
  fun s => (tt, mkCard (cmd_APDU s) (cmd_APDU_size s) (file_selection s)
                       (digital_signature_counter s + 1)
                       (calls s ++
                          [Call_gpg_increment_digital_signature_counter])
                       (wld s)).
End Helpers.

(** ** [openpgp.c] *)

Definition INS_VERIFY : Z := 0x20.
Definition INS_CHANGE_REFERENCE_DATA : Z := 0x24.
Definition INS_PSO : Z := 0x2a.
Definition INS_RESET_RETRY_COUNTER : Z := 0x2c.
Definition INS_PGP_GENERATE_ASYMMETRIC_KEY_PAIR : Z := 0x47.
Definition INS_INTERNAL_AUTHENTICATE : Z := 0x88.
Definition INS_SELECT_FILE : Z := 0xa4.
Definition INS_READ_BINARY : Z := 0xb0.
Definition INS_GET_DATA : Z := 0xca.
Definition INS_PUT_DATA : Z := 0xda.
Definition INS_PUT_DATA_ODD : Z := 0xdb.

Definition select_file_TOP_result : list Z :=
  [ 0x00; 0x00;
    0x0b; 0x10;
    0x3f; 0x00;
    0x38;
    0xff;
    0xff; 0x44; 0x44;
    0x01;
    0x05;
    0x03;
    0x01;
    0x01;
    0x00;
    0x00;
    0x00; 0x00 ].

(** [sizeof (select_file_TOP_result)]. *)
Definition sizeof_select_file_TOP_result : Z :=
  Z.of_nat (length select_file_TOP_result).

Definition FILE_NONE : Z := 0.
Definition FILE_DF_OPENPGP : Z := 1.
Definition FILE_MF : Z := 2.
Definition FILE_EF_DIR : Z := 3.
Definition FILE_EF_SERIAL : Z := 4.

(** [memcmp (a, b, n) == 0]. *)
Definition memcmp_eq (a b : list Z) (n : Z) : bool :=
  forallb (fun i => peek a (Z.of_nat i) =? peek b (Z.of_nat i))
          (seq 0 (Z.to_nat n)).

Section Handlers.
Context {X : Type} {C : Collaborators X}.

(** [sw1] and [sw2] are [uint8_t] parameters. *)
Definition write_res_apdu (p : list Z) (len : Z) (sw1 sw2 : Z)
  : M X unit :=
  fun s =>
    let sw1 := u8 sw1 in
    let sw2 := u8 sw2 in
    let w := wld s in
    let r0 := if len =? 0 then res_APDU w else memcpy (res_APDU w) 0 p len in
    let r1 := poke r0 len sw1 in
    let r2 := poke r1 (len + 1) sw2 in
    (tt, set_wld s (set_res w r2 (2 + len))).

(** Modelled from the spec: the status macros of the missing [gnuk.h],
    each a [write_res_apdu (NULL, 0, sw1, sw2)] with the status word that
    section 6 gives for it. *)
Definition GPG_MEMORY_FAILURE : M X unit := write_res_apdu [] 0 0x65 0x81.
Definition GPG_SECURITY_FAILURE : M X unit := write_res_apdu [] 0 0x69 0x82.
Definition GPG_SECURITY_AUTH_BLOCKED : M X unit :=
  write_res_apdu [] 0 0x69 0x83.
Definition GPG_NO_FILE : M X unit := write_res_apdu [] 0 0x6a 0x82.
Definition GPG_NO_RECORD : M X unit := write_res_apdu [] 0 0x6a 0x88.
Definition GPG_BAD_P0_P1 : M X unit := write_res_apdu [] 0 0x6b 0x00.
Definition GPG_NO_INS : M X unit := write_res_apdu [] 0 0x6d 0x00.
Definition GPG_ERROR : M X unit := write_res_apdu [] 0 0x6f 0x00.
Definition GPG_SUCCESS : M X unit := write_res_apdu [] 0 0x90 0x00.

Definition cmd_verify : M X unit :=
  cmd <- get_cmd_APDU ;;
  let p2 := peek cmd 3 in
  let data_start := 5 in
  let len := peek cmd 4 in
  let '(len, data_start) :=
    if len =? 0                   (* extended length *)
    then (Z.lor (Z.shiftl (peek cmd 5) 8) (peek cmd 6), 7)
    else (len, data_start) in
  r <- (if p2 =? 0x81
        then ext_call (Call_verify_pso_cds (ptr_add cmd data_start) len)
                      (verify_pso_cds (ptr_add cmd data_start) len)
        else if p2 =? 0x82
        then ext_call (Call_verify_pso_other (ptr_add cmd data_start) len)
                      (verify_pso_other (ptr_add cmd data_start) len)
        else ext_call (Call_verify_admin (ptr_add cmd data_start) len)
                      (verify_admin (ptr_add cmd data_start) len)) ;;
  if r <? 0 then GPG_SECURITY_FAILURE
  else if r =? 0 then GPG_SECURITY_AUTH_BLOCKED
  else GPG_SUCCESS.

Definition load_prvkey (kk : kind_of_key) (who : Z) (ks : list Z) : M X Z :=
  ext_call (Call_gpg_do_load_prvkey kk who ks) (gpg_do_load_prvkey kk who ks).

Definition chks_prvkey (kk : kind_of_key) (who_old : Z) (old_ks : list Z)
    (who_new : Z) (new_ks : list Z) : M X Z :=
  ext_call (Call_gpg_do_chks_prvkey kk who_old old_ks who_new new_ks)
           (gpg_do_chks_prvkey kk who_old old_ks who_new new_ks).

(** The body of [gpg_change_keystring]; [prv_keys_exist] counts up as in
    the source. *)
Definition gpg_change_keystring_body (who_old : Z) (old_ks : list Z)
    (who_new : Z) (new_ks : list Z) : M X Z :=
  let prv_keys_exist := 0 in
  r <- load_prvkey GPG_KEY_FOR_SIGNING who_old old_ks ;;
  if r <? 0 then ret r else
  let prv_keys_exist := if r >? 0 then prv_keys_exist + 1
                        else prv_keys_exist in
  r <- chks_prvkey GPG_KEY_FOR_SIGNING who_old old_ks who_new new_ks ;;
  if r <? 0 then ret (-2) else
  r <- load_prvkey GPG_KEY_FOR_DECRYPTION who_old old_ks ;;
  if r <? 0 then ret r else
  let prv_keys_exist := if r >? 0 then prv_keys_exist + 1
                        else prv_keys_exist in
  r <- chks_prvkey GPG_KEY_FOR_DECRYPTION who_old old_ks who_new new_ks ;;
  if r <? 0 then ret (-2) else
  r <- load_prvkey GPG_KEY_FOR_AUTHENTICATION who_old old_ks ;;
  if r <? 0 then ret r else
  let prv_keys_exist := if r >? 0 then prv_keys_exist + 1
                        else prv_keys_exist in
  r <- chks_prvkey GPG_KEY_FOR_AUTHENTICATION who_old old_ks
                   who_new new_ks ;;
  if r <? 0 then ret (-2) else
  if negb (prv_keys_exist =? 0) then ret 1 else ret 0.

(** [gpg_change_keystring], its return value recorded in the trace. *)
Definition gpg_change_keystring (who_old : Z) (old_ks : list Z)
    (who_new : Z) (new_ks : list Z) : M X Z :=
  r <- gpg_change_keystring_body who_old old_ks who_new new_ks ;;
  fun s => (r, record_call (Return_gpg_change_keystring r) s).

Definition read_simple (nr : nr_do) : M X (option (list Z)) :=
  ext_ask (Call_gpg_do_read_simple nr) (gpg_do_read_simple nr).

Definition write_simple (nr : nr_do) (data : list Z) (size : Z)
  : M X unit :=
  ext_do (Call_gpg_do_write_simple nr data size)
         (gpg_do_write_simple nr data size).

Definition reset_pso_cds : M X unit :=
  ext_do Call_ac_reset_pso_cds ac_reset_pso_cds.

Definition reset_pso_other : M X unit :=
  ext_do Call_ac_reset_pso_other ac_reset_pso_other.

Definition check_status (f : ac_flag) : M X bool :=
  ext_ask (Call_ac_check_status f) (ac_check_status f).

Definition passwd_locked (which : pw_err) : M X bool :=
  ext_ask (Call_gpg_passwd_locked which) (gpg_passwd_locked which).

Definition increment_pw_err_counter (which : pw_err) : M X unit :=
  ext_do (Call_gpg_increment_pw_err_counter which)
         (gpg_increment_pw_err_counter which).

Definition reset_pw_err_counter (which : pw_err) : M X unit :=
  ext_do (Call_gpg_reset_pw_err_counter which)
         (gpg_reset_pw_err_counter which).

Definition cmd_change_password : M X unit :=
  cmd <- get_cmd_APDU ;;
  let p2 := peek cmd 3 in
  let len := peek cmd 4 in
  let pw := ptr_add cmd 5 in
  let who := p2 - 0x80 in
  let '(len, pw) :=
    if len =? 0                   (* extended length *)
    then (Z.lor (Z.shiftl (peek cmd 5) 8) (peek cmd 6), ptr_add pw 2)
    else (len, pw) in
  (* [None] stands for the early [return] of the source *)
  split <-
    (if who =? BY_USER            (* PW1 *)
     then
       pk <- read_simple NR_DO_KEYSTRING_PW1 ;;
       match pk with
       | None =>
           if len <? strlen OPENPGP_CARD_INITIAL_PW1
           then GPG_SECURITY_FAILURE ;; ret None
           else
             let pw_len := strlen OPENPGP_CARD_INITIAL_PW1 in
             ret (Some (pw_len, ptr_add pw pw_len, len - pw_len))
       | Some pk =>
           let pw_len := peek pk 0 in
           ret (Some (pw_len, ptr_add pw pw_len, len - pw_len))
       end
     else                         (* PW3 (0x83) *)
       pw_len <- ext_call (Call_verify_admin_0 pw len (-1))
                          (verify_admin_0 pw len (-1)) ;;
       if pw_len <? 0 then GPG_SECURITY_FAILURE ;; ret None
       else if pw_len =? 0 then GPG_SECURITY_AUTH_BLOCKED ;; ret None
       else
         let newpw := ptr_add pw pw_len in
         let newpw_len := len - pw_len in
         ext_do (Call_gpg_set_pw3 newpw newpw_len)
                (gpg_set_pw3 newpw newpw_len) ;;
         ret (Some (pw_len, newpw, newpw_len))) ;;
  match split with
  | None => skip
  | Some (pw_len, newpw, newpw_len) =>
      let old_ks := sha1 pw pw_len in
      let new_ks := sha1 newpw newpw_len in
      let new_ks0 := u8 newpw_len :: new_ks in
      r <- gpg_change_keystring who old_ks who new_ks ;;
      if r <? -2 then GPG_MEMORY_FAILURE
      else if r <? 0 then GPG_SECURITY_FAILURE
      else if (r =? 0) && (who =? BY_USER) then    (* no prvkey *)
        write_simple NR_DO_KEYSTRING_PW1 new_ks0 KEYSTRING_SIZE_PW1 ;;
        reset_pso_cds ;;
        reset_pw_err_counter PW_ERR_PW1 ;;
        GPG_SUCCESS
      else if (r >? 0) && (who =? BY_USER) then
        write_simple NR_DO_KEYSTRING_PW1 new_ks0 1 ;;
        reset_pso_cds ;;
        reset_pw_err_counter PW_ERR_PW1 ;;
        GPG_SUCCESS
      else                        (* r >= 0 && who == BY_ADMIN *)
        reset_pw_err_counter PW_ERR_PW3 ;;
        GPG_SUCCESS
  end.

Definition cmd_reset_user_password : M X unit :=
  cmd <- get_cmd_APDU ;;
  let p1 := peek cmd 2 in
  let len := peek cmd 4 in
  let pw := ptr_add cmd 5 in
  let '(len, pw) :=
    if len =? 0                   (* extended length *)
    then (Z.lor (Z.shiftl (peek cmd 5) 8) (peek cmd 6), ptr_add pw 2)
    else (len, pw) in
  if p1 =? 0x00 then              (* by User with Reseting Code *)
    ks_rc <- read_simple NR_DO_KEYSTRING_RC ;;
    locked <- passwd_locked PW_ERR_RC ;;
    if locked then GPG_SECURITY_AUTH_BLOCKED
    else
      match ks_rc with
      | None => GPG_SECURITY_FAILURE
      | Some ks_rc =>
          let sec_fail :=
            increment_pw_err_counter PW_ERR_RC ;; GPG_SECURITY_FAILURE in
          let pw_len := peek ks_rc 0 in
          let newpw := ptr_add pw pw_len in
          let newpw_len := len - pw_len in
          let old_ks := sha1 pw pw_len in
          let new_ks := sha1 newpw newpw_len in
          let new_ks0 := u8 newpw_len :: new_ks in
          r <- gpg_change_keystring BY_RESETCODE old_ks BY_USER new_ks ;;
          if r <? -2 then GPG_MEMORY_FAILURE
          else if r <? 0 then sec_fail
          else if r =? 0 then
            if negb (memcmp_eq (ptr_add ks_rc 1) old_ks KEYSTRING_MD_SIZE)
            then sec_fail
            else
              write_simple NR_DO_KEYSTRING_PW1 new_ks0 KEYSTRING_SIZE_PW1 ;;
              reset_pso_cds ;;
              reset_pw_err_counter PW_ERR_RC ;;
              reset_pw_err_counter PW_ERR_PW1 ;;
              GPG_SUCCESS
          else
            reset_pso_cds ;;
            reset_pw_err_counter PW_ERR_RC ;;
            reset_pw_err_counter PW_ERR_PW1 ;;
            GPG_SUCCESS
      end
  else                            (* by Admin (p1 == 0x02) *)
    old_ks <- global keystring_md_pw3 ;;
    authorized <- check_status AC_ADMIN_AUTHORIZED ;;
    if negb authorized then GPG_SECURITY_FAILURE
    else
      let newpw_len := len in
      let newpw := pw in
      let new_ks := sha1 newpw newpw_len in
      let new_ks0 := u8 newpw_len :: new_ks in
      r <- gpg_change_keystring BY_ADMIN old_ks BY_USER new_ks ;;
      if r <? -2 then GPG_MEMORY_FAILURE
      else if r <? 0 then GPG_SECURITY_FAILURE
      else if r =? 0 then
        write_simple NR_DO_KEYSTRING_PW1 new_ks0 KEYSTRING_SIZE_PW1 ;;
        reset_pso_cds ;;
        reset_pw_err_counter PW_ERR_PW1 ;;
        GPG_SUCCESS
      else
        reset_pso_cds ;;
        reset_pw_err_counter PW_ERR_PW1 ;;
        GPG_SUCCESS.

Definition cmd_put_data : M X unit :=
  cmd <- get_cmd_APDU ;;
  sel <- get_file_selection ;;
  (if negb (sel =? FILE_DF_OPENPGP) then GPG_NO_RECORD else skip) ;;
  let tag := u16 (Z.lor (Z.shiftl (peek cmd 2) 8) (peek cmd 3)) in
  size <- get_cmd_APDU_size ;;
  let len := size - 5 in
  let data := ptr_add cmd 5 in
  let '(data, len) :=
    if len >=? 256                (* extended Lc *)
    then (ptr_add data 2, len - 2)
    else (data, len) in
  ext_do (Call_gpg_do_put_data tag data len) (gpg_do_put_data tag data len).

Definition cmd_pgp_gakp : M X unit :=
  cmd <- get_cmd_APDU ;;
  if peek cmd 2 =? 0x81
  then                            (* Get public key *)
    ext_do (Call_gpg_do_public_key (peek cmd 7))
           (gpg_do_public_key (peek cmd 7))
  else                            (* Generate key pair *)
    authorized <- check_status AC_ADMIN_AUTHORIZED ;;
    (if negb authorized then GPG_SECURITY_FAILURE else skip) ;;
    (* XXX: Not yet supported *)
    GPG_ERROR.

Definition cmd_read_binary : M X unit :=
  cmd <- get_cmd_APDU ;;
  sel <- get_file_selection ;;
  if sel =? FILE_EF_SERIAL
  then
    if peek cmd 3 >=? 6 then GPG_BAD_P0_P1
    else
      fun s =>
        let w := wld s in
        let len := peek openpgpcard_aid 0 in
        let r0 := poke (res_APDU w) 0 0x5a in
        let r1 := memcpy r0 1 openpgpcard_aid len in
        let r2 := poke r1 (len + 1) 0x90 in
        let r3 := poke r2 (len + 2) 0x00 in
        (tt, set_wld s (set_res w r3 (len + 3)))
  else GPG_NO_RECORD.

Definition cmd_select_file : M X unit :=
  cmd <- get_cmd_APDU ;;
  if peek cmd 2 =? 4              (* Selection by DF name *)
  then
    set_file_selection FILE_DF_OPENPGP ;;
    GPG_SUCCESS
  else if (peek cmd 4 =? 2) && (peek cmd 5 =? 0x2f) && (peek cmd 6 =? 0x02)
  then
    GPG_SUCCESS ;;
    set_file_selection FILE_EF_SERIAL
  else if (peek cmd 4 =? 2) && (peek cmd 5 =? 0x3f) && (peek cmd 6 =? 0x00)
  then
    (if peek cmd 3 =? 0x0c
     then GPG_SUCCESS
     else
       write_res_apdu select_file_TOP_result
                      sizeof_select_file_TOP_result 0x90 0x00 ;;
       n <- global data_objects_number_of_bytes ;;
       fun s =>
         let w := wld s in
         let r2 := poke (res_APDU w) 2 (u8 (Z.land n 0xff)) in
         let r3 := poke r2 3 (u8 (Z.shiftr n 8)) in
         (tt, set_wld s (set_res w r3 (res_APDU_size w)))) ;;
    set_file_selection FILE_MF
  else
    set_file_selection FILE_NONE ;;
    GPG_NO_FILE.

Definition cmd_get_data : M X unit :=
  cmd <- get_cmd_APDU ;;
  let tag := u16 (Z.lor (Z.shiftl (peek cmd 2) 8) (peek cmd 3)) in
  sel <- get_file_selection ;;
  (if negb (sel =? FILE_DF_OPENPGP) then GPG_NO_RECORD else skip) ;;
  ext_do (Call_gpg_do_get_data tag) (gpg_do_get_data tag).

(** [gpg_passwd_locked (PW_ERR_PW1)
    || !ac_check_status (AC_PSO_OTHER_AUTHORIZED)], the second call made
    only when the first gives false. *)
Definition pw1_locked_or_not_authorized : M X bool :=
  locked <- passwd_locked PW_ERR_PW1 ;;
  if locked then ret true
  else
    authorized <- check_status AC_PSO_OTHER_AUTHORIZED ;;
    ret (negb authorized).

Definition cmd_pso : M X unit :=
  cmd <- get_cmd_APDU ;;
  let len := peek cmd 4 in
  let data_start := 5 in
  let '(len, data_start) :=
    if len =? 0
    then (Z.lor (Z.shiftl (peek cmd 5) 8) (peek cmd 6), 7)
    else (len, data_start) in
  if (peek cmd 2 =? 0x9e) && (peek cmd 3 =? 0x9a)
  then
    authorized <- check_status AC_PSO_CDS_AUTHORIZED ;;
    if negb authorized then GPG_SECURITY_FAILURE
    else
      size <- get_cmd_APDU_size ;;
      if negb (size =? 8 + 35) && negb (size =? 8 + 35 + 1)
      then GPG_ERROR
      else
        r <- ext_call (Call_rsa_sign (ptr_add cmd data_start) len)
                      (rsa_sign (ptr_add cmd data_start) len) ;;
        if r <? 0
        then reset_pso_cds ;; GPG_ERROR
        else                      (* Success *)
          lifetime <- ext_ask Call_gpg_get_pw1_lifetime
                              gpg_get_pw1_lifetime ;;
          (if negb (lifetime =? 0) then reset_pso_cds else skip) ;;
          gpg_increment_digital_signature_counter
  else if (peek cmd 2 =? 0x80) && (peek cmd 3 =? 0x86)
  then
    denied <- pw1_locked_or_not_authorized ;;
    if denied then GPG_SECURITY_FAILURE
    else
      ks <- global pw1_keystring ;;
      r <- load_prvkey GPG_KEY_FOR_DECRYPTION BY_USER (ptr_add ks 1) ;;
      if r <? 0
      then increment_pw_err_counter PW_ERR_PW1 ;; GPG_SECURITY_FAILURE
      else
        (* Reset counter as it's success now *)
        reset_pw_err_counter PW_ERR_PW1 ;;
        reset_pso_other ;;
        (* Skip padding 0x00 *)
        let data_start := data_start + 1 in
        let len := len - 1 in
        r <- ext_call (Call_rsa_decrypt (ptr_add cmd data_start) len)
                      (rsa_decrypt (ptr_add cmd data_start) len) ;;
        if r <? 0 then GPG_ERROR else skip
  else                            (* XXX: not yet supported *)
    GPG_ERROR.

Definition cmd_internal_authenticate : M X unit :=
  cmd <- get_cmd_APDU ;;
  let len := peek cmd 4 in
  let data_start := 5 in
  let '(len, data_start) :=
    if len =? 0
    then (Z.lor (Z.shiftl (peek cmd 5) 8) (peek cmd 6), 7)
    else (len, data_start) in
  if (peek cmd 2 =? 0x00) && (peek cmd 3 =? 0x00)
  then
    denied <- pw1_locked_or_not_authorized ;;
    if denied then GPG_SECURITY_FAILURE
    else
      ks <- global pw1_keystring ;;
      r <- load_prvkey GPG_KEY_FOR_AUTHENTICATION BY_USER (ptr_add ks 1) ;;
      if r <? 0
      then increment_pw_err_counter PW_ERR_PW1 ;; GPG_SECURITY_FAILURE
      else
        (* Reset counter as it's success now *)
        reset_pw_err_counter PW_ERR_PW1 ;;
        reset_pso_other ;;
        r <- ext_call (Call_rsa_sign (ptr_add cmd data_start) len)
                      (rsa_sign (ptr_add cmd data_start) len) ;;
        if r <? 0 then GPG_ERROR else skip
  else GPG_ERROR.

Definition cmds : list (Z * M X unit) :=
  [ (INS_VERIFY, cmd_verify);
    (INS_CHANGE_REFERENCE_DATA, cmd_change_password);
    (INS_PSO, cmd_pso);
    (INS_RESET_RETRY_COUNTER, cmd_reset_user_password);
    (INS_PGP_GENERATE_ASYMMETRIC_KEY_PAIR, cmd_pgp_gakp);
    (INS_INTERNAL_AUTHENTICATE, cmd_internal_authenticate);
    (INS_SELECT_FILE, cmd_select_file);
    (INS_READ_BINARY, cmd_read_binary);
    (INS_GET_DATA, cmd_get_data);
    (INS_PUT_DATA, cmd_put_data);
    (INS_PUT_DATA_ODD, cmd_put_data) ].

Definition process_command_apdu : M X unit :=
  cmd_buf <- get_cmd_APDU ;;
  let cmd := peek cmd_buf 1 in
  match find (fun c => fst c =? cmd) cmds with
  | Some c => snd c
  | None => GPG_NO_INS
  end.

(** The transport puts a command into the command buffer and signals the
    worker; the trace of calls starts anew with every command. *)
Definition transport_delivers (apdu : list Z) (size : Z) (s : card X)
  : card X :=
  mkCard apdu size (file_selection s) (digital_signature_counter s) []
         (wld s).

(** One turn of the loop of [GPGthread]: a command is there, it is
    processed, and the response is left in the response buffer. *)
Definition GPGthread_turn (apdu : list Z * Z) (s : card X) : card X :=
  snd (process_command_apdu (transport_delivers (fst apdu) (snd apdu) s)).

(** The turns of [GPGthread] for the commands of a session, in order. *)
Definition GPGthread (session : list (list Z * Z)) (s : card X) : card X :=
  fold_left (fun s apdu => GPGthread_turn apdu s) session s.

(** The response that the transport picks up: [res_APDU_size] bytes of
    [res_APDU], and its status word, the last two of them. *)
Definition response (s : card X) : list Z :=
  firstn (Z.to_nat (res_APDU_size (wld s))) (res_APDU (wld s)).

Definition status_word (s : card X) : Z * Z :=
  (peek (res_APDU (wld s)) (res_APDU_size (wld s) - 2),
   peek (res_APDU (wld s)) (res_APDU_size (wld s) - 1)).
End Handlers.

(** ** A reference card

    Collaborators that meet the contracts of section 6 of the spec, over a
    small concrete state.  They serve to run the handlers on concrete
    commands; the general theorems below hold for every instance of
    [Collaborators]. *)
Module RefCard.

Fixpoint bytes_eqb (a b : list Z) : bool :=
  match a, b with
  | [], [] => true
  | x :: a', y :: b' => (x =? y) && bytes_eqb a' b'
  | _, _ => false
  end.

Definition kind_of_key_eqb (a b : kind_of_key) : bool :=
  match a, b with
  | GPG_KEY_FOR_SIGNING, GPG_KEY_FOR_SIGNING
  | GPG_KEY_FOR_DECRYPTION, GPG_KEY_FOR_DECRYPTION
  | GPG_KEY_FOR_AUTHENTICATION, GPG_KEY_FOR_AUTHENTICATION => true
  | _, _ => false
  end.

(** The state outside [openpgp.c] that the reference collaborators keep:
    for every private key slot that is present the keystring of each
    role that unwraps it, the tag indexed data objects, the PIN of each
    role, the cached keystrings, and the outcome of the next flash write
    and of the next RSA operation. *)
Record refx : Type := mkRefx {
  prvkeys : kind_of_key -> option (Z -> list Z);
  objects : list (Z * list Z);
  pins : pw_err -> list Z;
  md_pw3 : list Z;
  ks_pw1 : list Z;
  pw1_lifetime : Z;
  number_of_bytes : Z;
  flash_fails : bool;
  rsa_result : Z
}.

Definition W : Type := world refx.

Definition set_ext (w : W) (x : refx) : W :=
  mkWorld (res_APDU w) (res_APDU_size w) (auth_status w) (pw_err_counter w)
          (do_simple w) x.

Definition set_flag (f : ac_flag) (w : W) : W :=
  mkWorld (res_APDU w) (res_APDU_size w)
          (fun g => if ac_flag_eqb g f then true else auth_status w g)
          (pw_err_counter w) (do_simple w) (ext w).

Definition respond (data : list Z) (sw1 sw2 : Z) (w : W) : W :=
  set_res w (data ++ [sw1; sw2]) (Z.of_nat (length data) + 2).

(** Stands in for SHA-1: 20 bytes that are determined by the [n] bytes
    at [p]. *)
Definition ref_sha1 (p : list Z) (n : Z) : list Z :=
  firstn 20 (firstn (Z.to_nat n) p ++ repeat 0 20%nat).

(** The contract of a verify primitive (section 4.4): zero when the
    credential is blocked, negative with the counter incremented on a
    mismatch, positive with the counter reset and the flag set on
    success. *)
Definition ref_verify (which : pw_err) (f : ac_flag) (pw : list Z)
    (len : Z) (w : W) : Z * W :=
  if gpg_passwd_locked which w then (0, w)
  else if bytes_eqb (firstn (Z.to_nat len) pw) (pins (ext w) which)
  then (1, set_flag f (gpg_reset_pw_err_counter which w))
  else (-1, gpg_increment_pw_err_counter which w).

(** [verify_admin_0 (pw, len, known)]: the number of bytes of the admin
    PIN at the start of [pw] on success. *)
Definition ref_verify_admin_0 (pw : list Z) (len known : Z) (w : W)
  : Z * W :=
  let n := Z.of_nat (length (pins (ext w) PW_ERR_PW3)) in
  if gpg_passwd_locked PW_ERR_PW3 w then (0, w)
  else if ((0 <=? known) && negb (known =? n)) || (len <? n)
          || negb (bytes_eqb (firstn (Z.to_nat n) pw)
                             (pins (ext w) PW_ERR_PW3))
  then (-1, gpg_increment_pw_err_counter PW_ERR_PW3 w)
  else (n, gpg_reset_pw_err_counter PW_ERR_PW3 w).

Definition ref_verify_admin (pw : list Z) (len : Z) (w : W) : Z * W :=
  let (r, w1) := ref_verify_admin_0 pw len len w in
  if r <=? 0 then (r, w1)
  else
    let x := ext w1 in
    (1, set_flag AC_ADMIN_AUTHORIZED
          (set_ext w1 (mkRefx (prvkeys x) (objects x) (pins x)
                              (ref_sha1 pw len) (ks_pw1 x) (pw1_lifetime x)
                              (number_of_bytes x) (flash_fails x)
                              (rsa_result x)))).

Definition ref_set_pw3 (pw : list Z) (len : Z) (w : W) : W :=
  let x := ext w in
  set_ext w (mkRefx (prvkeys x) (objects x)
                    (fun c => if pw_err_eqb c PW_ERR_PW3
                              then firstn (Z.to_nat len) pw else pins x c)
                    (md_pw3 x) (ks_pw1 x) (pw1_lifetime x)
                    (number_of_bytes x) (flash_fails x) (rsa_result x)).

(** [gpg_do_load_prvkey]: 0 for an absent slot, positive when the
    keystring unwraps the key, negative when it does not. *)
Definition ref_load_prvkey (kk : kind_of_key) (who : Z) (ks : list Z)
    (w : W) : Z * W :=
  match prvkeys (ext w) kk with
  | None => (0, w)
  | Some wrap => if bytes_eqb (wrap who) ks then (1, w) else (-1, w)
  end.

(** [gpg_do_chks_prvkey]: nothing to do for an absent slot; otherwise the
    key is wrapped under the new keystring of the new role, which fails
    when the flash write does. *)
Definition ref_chks_prvkey (kk : kind_of_key) (who_old : Z)
    (old_ks : list Z) (who_new : Z) (new_ks : list Z) (w : W) : Z * W :=
  let x := ext w in
  match prvkeys x kk with
  | None => (0, w)
  | Some wrap =>
      if flash_fails x then (-1, w)
      else
        (1, set_ext w
              (mkRefx (fun k => if kind_of_key_eqb k kk
                                then Some (fun r => if r =? who_new
                                                    then new_ks else wrap r)
                                else prvkeys x k)
                      (objects x) (pins x) (md_pw3 x) (ks_pw1 x)
                      (pw1_lifetime x) (number_of_bytes x) (flash_fails x)
                      (rsa_result x)))
  end.

Fixpoint lookup_object (tag : Z) (l : list (Z * list Z))
  : option (list Z) :=
  match l with
  | [] => None
  | (t, d) :: l' => if t =? tag then Some d else lookup_object tag l'
  end.

(** GET DATA of the store: the object and 90 00, or 6A 88. *)
Definition ref_get_data (tag : Z) (w : W) : W :=
  match lookup_object tag (objects (ext w)) with
  | Some d => respond d 0x90 0x00 w
  | None => respond [] 0x6a 0x88 w
  end.

(** PUT DATA of the store: the object is stored, 90 00. *)
Definition ref_put_data (tag : Z) (data : list Z) (len : Z) (w : W) : W :=
  let x := ext w in
  respond [] 0x90 0x00
    (set_ext w (mkRefx (prvkeys x)
                       ((tag, firstn (Z.to_nat len) data) :: objects x)
                       (pins x) (md_pw3 x) (ks_pw1 x) (pw1_lifetime x)
                       (number_of_bytes x) (flash_fails x) (rsa_result x))).

Definition ref_public_key (b : Z) (w : W) : W := respond [] 0x6a 0x88 w.

(** The RSA primitives: negative on failure; on success the result (here
    the input itself) and 90 00 are put into the response buffer. *)
Definition ref_rsa (msg : list Z) (len : Z) (w : W) : Z * W :=
  let r := rsa_result (ext w) in
  if r <? 0 then (r, w)
  else (r, respond (firstn (Z.to_nat len) msg) 0x90 0x00 w).

#[export] Instance collaborators : Collaborators refx := {
  sha1 := ref_sha1;
  verify_pso_cds := ref_verify PW_ERR_PW1 AC_PSO_CDS_AUTHORIZED;
  verify_pso_other := ref_verify PW_ERR_PW1 AC_PSO_OTHER_AUTHORIZED;
  verify_admin := ref_verify_admin;
  verify_admin_0 := ref_verify_admin_0;
  gpg_set_pw3 := ref_set_pw3;
  gpg_do_load_prvkey := ref_load_prvkey;
  gpg_do_chks_prvkey := ref_chks_prvkey;
  gpg_do_put_data := ref_put_data;
  gpg_do_get_data := ref_get_data;
  gpg_do_public_key := ref_public_key;
  rsa_sign := ref_rsa;
  rsa_decrypt := ref_rsa;
  gpg_get_pw1_lifetime := fun w => pw1_lifetime (ext w);
  keystring_md_pw3 := md_pw3;
  pw1_keystring := ks_pw1;
  data_objects_number_of_bytes := number_of_bytes;
  openpgpcard_aid := [6; 0xd2; 0x76; 0x00; 0x01; 0x24; 0x01]
}.

(** A card after power-up with the factory PINs, no private keys and one
    data object (tag 0x5E, the login data). *)
Definition factory_ext : refx :=
  mkRefx (fun _ => None)
         [(0x5e, [0x67; 0x6e; 0x75; 0x6b])]
         (fun c => match c with
                   | PW_ERR_PW1 => OPENPGP_CARD_INITIAL_PW1
                   | PW_ERR_RC => []
                   | PW_ERR_PW3 => [49; 50; 51; 52; 53; 54; 55; 56]
                   end)
         [] [] 0 0x100b false 0.

Definition factory_world : W :=
  mkWorld [] 0 (fun _ => false) (fun _ => 0) (fun _ => None) factory_ext.

Definition power_up (w : W) : card refx :=
  mkCard [] 0 FILE_NONE 0 [] w.

Definition factory_card : card refx := power_up factory_world.

(** What a test reads off a card: response, selection, counters, flags. *)
Definition run (session : list (list Z)) (s : card refx) : card refx :=
  GPGthread (map (fun a => (a, Z.of_nat (length a))) session) s.

End RefCard.

(** ** Vocabulary of the properties *)

(** The extended length decoder in the words of section 4.2 of the spec:
    a non-zero [cmd_APDU[4]] is Lc and the data begin at offset 5; if it is
    zero, Lc is [cmd_APDU[5] << 8 | cmd_APDU[6]] and the data begin at
    offset 7.  The result is Lc and the data. *)
Definition extended_length_decoder (cmd : list Z) : Z * list Z :=
  if peek cmd 4 =? 0
  then (Z.lor (Z.shiftl (peek cmd 5) 8) (peek cmd 6), ptr_add cmd 7)
  else (peek cmd 4, ptr_add cmd 5).

(** The tag of GET DATA and PUT DATA, the 16 bit [P1 || P2]. *)
Definition tag_of (cmd : list Z) : Z :=
  u16 (Z.lor (Z.shiftl (peek cmd 2) 8) (peek cmd 3)).

(** The MF descriptor in the bytes that section 6 of the spec lists, [ll]
    and [lh] at offsets 2 and 3. *)
Definition MF_descriptor (ll lh : Z) : list Z :=
  [ 0x00; 0x00; ll; lh; 0x3f; 0x00; 0x38; 0xff; 0xff; 0x44; 0x44; 0x01; 0x05;
    0x03; 0x01; 0x01; 0x00; 0x00; 0x00; 0x00 ].

(** The value that [gpg_change_keystring] returned, if it was called. *)
Fixpoint change_keystring_result (cs : list call) : option Z :=
  match cs with
  | [] => None
  | Return_gpg_change_keystring r :: _ => Some r
  | _ :: cs' => change_keystring_result cs'
  end.

Definition is_successful_rsa_sign (c : call) : bool :=
  match c with
  | Call_rsa_sign _ _ r => 0 <=? r
  | _ => false
  end.

Definition is_counter_increment (c : call) : bool :=
  match c with
  | Call_gpg_increment_digital_signature_counter => true
  | _ => false
  end.

Definition is_write_simple (c : call) : bool :=
  match c with
  | Call_gpg_do_write_simple _ _ _ => true
  | _ => false
  end.

Section Vocabulary.
Context {X : Type} {C : Collaborators X}.

(** The command is a PSO:CDS and the [rsa_sign] that it invokes
    succeeds. *)
Definition pso_cds_that_signs (apdu : list Z * Z) (s : card X) : bool :=
  (peek (fst apdu) 1 =? INS_PSO) && (peek (fst apdu) 2 =? 0x9e)
  && (peek (fst apdu) 3 =? 0x9a)
  && existsb is_successful_rsa_sign (calls (GPGthread_turn apdu s)).

(** The command is a PSO:CDS that is let through to [rsa_sign] (the
    PSO:CDS flag is set and the command is 43 or 44 bytes long), and
    [rsa_sign], applied to the data and the Lc of the command in the state
    in which the command arrives, returns no negative value. *)
Definition pso_cds_signs (apdu : list Z * Z) (s : card X) : bool :=
  let cmd := fst apdu in
  (peek cmd 1 =? INS_PSO) && (peek cmd 2 =? 0x9e) && (peek cmd 3 =? 0x9a)
  && ac_check_status AC_PSO_CDS_AUTHORIZED (wld s)
  && ((snd apdu =? 43) || (snd apdu =? 44))
  && (0 <=? fst (rsa_sign (snd (extended_length_decoder cmd))
                          (fst (extended_length_decoder cmd)) (wld s))).

(** The number of such commands in a session. *)
Fixpoint successful_signatures (session : list (list Z * Z)) (s : card X)
  : Z :=
  match session with
  | [] => 0
  | apdu :: rest =>
      (if pso_cds_signs apdu s then 1 else 0)
      + successful_signatures rest (GPGthread_turn apdu s)
  end.

(** No private key is stored: every slot loads as absent (0) under any
    role and keystring, and there is nothing to wrap anew. *)
Definition no_prvkeys (w : world X) : Prop :=
  (forall kk who ks, gpg_do_load_prvkey kk who ks w = (0, w)) /\
  (forall kk who_old old_ks who_new new_ks,
      exists r, 0 <= r /\
        gpg_do_chks_prvkey kk who_old old_ks who_new new_ks w = (r, w)).

(** The length of the old PW1 that CHANGE REFERENCE DATA expects: byte 0
    of the stored PW1 keystring record, or the length of the factory PW1
    when there is no record. *)
Definition expected_pw1_length (w : world X) : Z :=
  match gpg_do_read_simple NR_DO_KEYSTRING_PW1 w with
  | Some pk => peek pk 0
  | None => strlen OPENPGP_CARD_INITIAL_PW1
  end.

(** The data and the length that PUT DATA hands to the store, in the
    words of section 4.10 of the spec: the data begin at offset 5, or at
    offset 7 when the total length after the header is 256 or more. *)
Definition put_data_arguments (s : card X) : list Z * Z :=
  if cmd_APDU_size s - 5 >=? 256
  then (ptr_add (cmd_APDU s) 7, cmd_APDU_size s - 7)
  else (ptr_add (cmd_APDU s) 5, cmd_APDU_size s - 5).

(** Two cards that differ in the trace of calls only. *)
Definition same_but_calls (s s' : card X) : Prop :=
  cmd_APDU s' = cmd_APDU s /\ cmd_APDU_size s' = cmd_APDU_size s /\
  file_selection s' = file_selection s /\
  digital_signature_counter s' = digital_signature_counter s /\
  wld s' = wld s.

(** What a change of PW1 on a card without private keys makes of the
    state: the record [new_ks0] stored in full, the PSO:CDS flag cleared,
    the PW1 counter reset, and 90 00 in the response buffer. *)
Definition pw1_installed (new_ks0 : list Z) (w : world X) : world X :=
  set_res
    (gpg_reset_pw_err_counter PW_ERR_PW1
       (ac_reset_pso_cds
          (gpg_do_write_simple NR_DO_KEYSTRING_PW1 new_ks0
                               KEYSTRING_SIZE_PW1 w)))
    (poke (poke (res_APDU w) 0 0x90) 1 0x00) 2.

(** A handler leaves the digital signature counter alone. *)
Definition keeps_counter {A : Type} (m : M X A) : Prop :=
  forall s, digital_signature_counter (snd (m s))
            = digital_signature_counter s.

(** The verify primitive that [cmd_verify] runs for a P2: [verify_pso_cds]
    for 0x81, [verify_pso_other] for 0x82, [verify_admin] for the rest; and
    the entry that its call leaves in the trace. *)
Definition verify_primitive (p2 : Z)
  : list Z -> Z -> world X -> Z * world X :=
  if p2 =? 0x81 then verify_pso_cds
  else if p2 =? 0x82 then verify_pso_other
  else verify_admin.

Definition verify_call (p2 : Z) : list Z -> Z -> Z -> call :=
  if p2 =? 0x81 then Call_verify_pso_cds
  else if p2 =? 0x82 then Call_verify_pso_other
  else Call_verify_admin.

(** The calls with which [gpg_change_keystring] begins in the state [w]:
    the load of the signing key and, unless that fails, its wrap, each
    with the value that the function returns there. *)
Definition first_key_calls (who_old : Z) (old_ks : list Z) (who_new : Z)
    (new_ks : list Z) (w : world X) : list call :=
  let (r1, w1) := gpg_do_load_prvkey GPG_KEY_FOR_SIGNING who_old old_ks w in
  Call_gpg_do_load_prvkey GPG_KEY_FOR_SIGNING who_old old_ks r1
  :: (if r1 <? 0 then []
      else [Call_gpg_do_chks_prvkey GPG_KEY_FOR_SIGNING who_old old_ks
              who_new new_ks
              (fst (gpg_do_chks_prvkey GPG_KEY_FOR_SIGNING who_old old_ks
                      who_new new_ks w1))]).

(** What a handler that follows the extended length rule does first with
    the command of [s]: the calls up to those that are given the data
    [data] and the length [lc] of [extended_length_decoder], with the
    values that the functions called return in the state of [s]. *)
Definition verify_first_calls (s : card X) : list call :=
  let p2 := peek (cmd_APDU s) 3 in
  let lc := fst (extended_length_decoder (cmd_APDU s)) in
  let data := snd (extended_length_decoder (cmd_APDU s)) in
  [verify_call p2 data lc (fst (verify_primitive p2 data lc (wld s)))].

Definition change_password_first_calls (s : card X) : list call :=
  let lc := fst (extended_length_decoder (cmd_APDU s)) in
  let data := snd (extended_length_decoder (cmd_APDU s)) in
  if peek (cmd_APDU s) 3 =? 0x81
  then
    let n := expected_pw1_length (wld s) in
    Call_gpg_do_read_simple NR_DO_KEYSTRING_PW1
      (gpg_do_read_simple NR_DO_KEYSTRING_PW1 (wld s))
    :: match gpg_do_read_simple NR_DO_KEYSTRING_PW1 (wld s) with
       | None =>
           if lc <? n then []
           else first_key_calls BY_USER (sha1 data n)
                                BY_USER (sha1 (ptr_add data n) (lc - n))
                                (wld s)
       | Some _ =>
           first_key_calls BY_USER (sha1 data n)
                           BY_USER (sha1 (ptr_add data n) (lc - n)) (wld s)
       end
  else
    [Call_verify_admin_0 data lc (-1)
       (fst (verify_admin_0 data lc (-1) (wld s)))].

Definition reset_user_password_first_calls (s : card X) : list call :=
  let lc := fst (extended_length_decoder (cmd_APDU s)) in
  let data := snd (extended_length_decoder (cmd_APDU s)) in
  if peek (cmd_APDU s) 2 =? 0x00
  then
    Call_gpg_do_read_simple NR_DO_KEYSTRING_RC
      (gpg_do_read_simple NR_DO_KEYSTRING_RC (wld s))
    :: Call_gpg_passwd_locked PW_ERR_RC (gpg_passwd_locked PW_ERR_RC (wld s))
    :: match gpg_do_read_simple NR_DO_KEYSTRING_RC (wld s) with
       | Some ks_rc =>
           if gpg_passwd_locked PW_ERR_RC (wld s) then []
           else
             let n := peek ks_rc 0 in
             first_key_calls BY_RESETCODE (sha1 data n)
                             BY_USER (sha1 (ptr_add data n) (lc - n))
                             (wld s)
       | None => []
       end
  else
    Call_ac_check_status AC_ADMIN_AUTHORIZED
      (ac_check_status AC_ADMIN_AUTHORIZED (wld s))
    :: (if ac_check_status AC_ADMIN_AUTHORIZED (wld s)
        then first_key_calls BY_ADMIN (keystring_md_pw3 (ext (wld s)))
                             BY_USER (sha1 data lc) (wld s)
        else []).

(** The calls of PSO:DECIPHER and INTERNAL AUTHENTICATE up to the RSA
    operation [op] on [msg] and [len]: the test of the lock of PW1, the
    test of the flag, the load of the key [kk] and, unless that fails, the
    two resets and the RSA operation in the state that they leave. *)
Definition other_operation_first_calls (kk : kind_of_key)
    (ev : list Z -> Z -> Z -> call)
    (op : list Z -> Z -> world X -> Z * world X)
    (msg : list Z) (len : Z) (w : world X) : list call :=
  Call_gpg_passwd_locked PW_ERR_PW1 (gpg_passwd_locked PW_ERR_PW1 w)
  :: (if gpg_passwd_locked PW_ERR_PW1 w then []
      else
        Call_ac_check_status AC_PSO_OTHER_AUTHORIZED
          (ac_check_status AC_PSO_OTHER_AUTHORIZED w)
        :: (if ac_check_status AC_PSO_OTHER_AUTHORIZED w
            then
              let ks := ptr_add (pw1_keystring (ext w)) 1 in
              let (r, w1) := gpg_do_load_prvkey kk BY_USER ks w in
              Call_gpg_do_load_prvkey kk BY_USER ks r
              :: (if r <? 0 then []
                  else
                    [Call_gpg_reset_pw_err_counter PW_ERR_PW1;
                     Call_ac_reset_pso_other;
                     ev msg len
                        (fst (op msg len
                                 (ac_reset_pso_other
                                    (gpg_reset_pw_err_counter PW_ERR_PW1
                                                              w1))))])
            else [])).

Definition pso_first_calls (s : card X) : list call :=
  let cmd := cmd_APDU s in
  let lc := fst (extended_length_decoder cmd) in
  let data := snd (extended_length_decoder cmd) in
  if (peek cmd 2 =? 0x9e) && (peek cmd 3 =? 0x9a)
  then
    Call_ac_check_status AC_PSO_CDS_AUTHORIZED
      (ac_check_status AC_PSO_CDS_AUTHORIZED (wld s))
    :: (if ac_check_status AC_PSO_CDS_AUTHORIZED (wld s)
           && ((cmd_APDU_size s =? 43) || (cmd_APDU_size s =? 44))
        then [Call_rsa_sign data lc (fst (rsa_sign data lc (wld s)))]
        else [])
  else if (peek cmd 2 =? 0x80) && (peek cmd 3 =? 0x86)
  then
    (* the padding byte before the cryptogram is skipped *)
    other_operation_first_calls GPG_KEY_FOR_DECRYPTION Call_rsa_decrypt
      rsa_decrypt (ptr_add data 1) (lc - 1) (wld s)
  else [].

Definition internal_authenticate_first_calls (s : card X) : list call :=
  let cmd := cmd_APDU s in
  let lc := fst (extended_length_decoder cmd) in
  let data := snd (extended_length_decoder cmd) in
  if (peek cmd 2 =? 0x00) && (peek cmd 3 =? 0x00)
  then
    other_operation_first_calls GPG_KEY_FOR_AUTHENTICATION Call_rsa_sign
      rsa_sign data lc (wld s)
  else [].

(** Two cards that hold commands with the same P1 and P2 and with the same
    Lc and data by [extended_length_decoder], and that agree in all but
    the command. *)
Definition same_operands (s1 s2 : card X) : Prop :=
  peek (cmd_APDU s2) 2 = peek (cmd_APDU s1) 2 /\
  peek (cmd_APDU s2) 3 = peek (cmd_APDU s1) 3 /\
  extended_length_decoder (cmd_APDU s2)
  = extended_length_decoder (cmd_APDU s1) /\
  file_selection s2 = file_selection s1 /\
  digital_signature_counter s2 = digital_signature_counter s1 /\
  calls s2 = calls s1 /\
  wld s2 = wld s1.

(** Two cards that agree in all but the command that they hold. *)
Definition same_outcome (s1 s2 : card X) : Prop :=
  file_selection s2 = file_selection s1 /\
  digital_signature_counter s2 = digital_signature_counter s1 /\
  calls s2 = calls s1 /\
  wld s2 = wld s1.
End Vocabulary.

(** ** Cards for the examples *)
Module Examples.
Import RefCard.

Definition pin_123456 : list Z := OPENPGP_CARD_INITIAL_PW1.
Definition pin_rc12 : list Z := [0x72; 0x63; 0x31; 0x32].
Definition pin_admin : list Z := [49; 50; 51; 52; 53; 54; 55; 56].

(** A card that holds a signing key, wrapped under the keystring of each
    role; the PW1 record holds the length only, as it does when keys are
    there, and the reset code record is [len | SHA1 (rc)]. *)
Definition keyed_ext (flash_fails : bool) : refx :=
  mkRefx (fun kk =>
            match kk with
            | GPG_KEY_FOR_SIGNING =>
                Some (fun who =>
                        if who =? BY_USER then ref_sha1 pin_123456 6
                        else if who =? BY_RESETCODE then ref_sha1 pin_rc12 4
                        else ref_sha1 pin_admin 8)
            | _ => None
            end)
         []
         (fun c => match c with
                   | PW_ERR_PW1 => pin_123456
                   | PW_ERR_RC => pin_rc12
                   | PW_ERR_PW3 => pin_admin
                   end)
         (ref_sha1 pin_admin 8) [] 0 0x100b flash_fails 0.

(** On this card PW1 is blocked, one reset code attempt has failed, and
    PSO:CDS is authorized. *)
Definition keyed_world (flash_fails : bool) : W :=
  mkWorld [] 0
          (fun f => match f with
                    | AC_PSO_CDS_AUTHORIZED => true
                    | _ => false
                    end)
          (fun c => match c with
                    | PW_ERR_PW1 => 3
                    | PW_ERR_RC => 1
                    | PW_ERR_PW3 => 0
                    end)
          (fun n => match n with
                    | NR_DO_KEYSTRING_PW1 => Some [6]
                    | NR_DO_KEYSTRING_RC => Some (4 :: ref_sha1 pin_rc12 4)
                    | NR_DO_KEYSTRING_PW3 => None
                    end)
          (keyed_ext flash_fails).

Definition keyed_card (flash_fails : bool) : card refx :=
  power_up (keyed_world flash_fails).

(** The card after [command] has been delivered and processed. *)
Definition after (command : list Z) (s : card refx) : card refx :=
  GPGthread_turn (command, Z.of_nat (length command)) s.

(** GET DATA of tag 0x5E, as in scenario D of the spec. *)
Definition get_data_5e : list Z := [0x00; 0xca; 0x00; 0x5e; 0x00].

(** PUT DATA of tag 0x5E, in the extended form, with three bytes. *)
Definition put_data_5e_extended : list Z :=
  [0x00; 0xda; 0x00; 0x5e; 0x00; 0x00; 0x03; 0x61; 0x62; 0x63].

(** PUT DATA of tag 0x5E, in the short form, with three bytes. *)
Definition put_data_5e : list Z :=
  [0x00; 0xda; 0x00; 0x5e; 0x03; 0x61; 0x62; 0x63].

(** CHANGE REFERENCE DATA for PW1: "123456" to "newpw1" (scenario A). *)
Definition change_pw1 : list Z :=
  [0x00; 0x24; 0x00; 0x81; 0x0c;
   0x31; 0x32; 0x33; 0x34; 0x35; 0x36; 0x6e; 0x65; 0x77; 0x70; 0x77; 0x31].

(** CHANGE REFERENCE DATA for PW1: "123456" to "newpasswd". *)
Definition change_pw1_longer : list Z :=
  [0x00; 0x24; 0x00; 0x81; 0x0f;
   0x31; 0x32; 0x33; 0x34; 0x35; 0x36;
   0x6e; 0x65; 0x77; 0x70; 0x61; 0x73; 0x73; 0x77; 0x64].

(** The same with "000000" as the old PIN. *)
Definition change_pw1_wrong_old : list Z :=
  [0x00; 0x24; 0x00; 0x81; 0x0c;
   0x30; 0x30; 0x30; 0x30; 0x30; 0x30; 0x6e; 0x65; 0x77; 0x70; 0x77; 0x31].

(** RESET RETRY COUNTER by reset code: "rc12", new PW1 "newpasswd". *)
Definition reset_by_rc : list Z :=
  [0x00; 0x2c; 0x00; 0x81; 0x0d;
   0x72; 0x63; 0x31; 0x32;
   0x6e; 0x65; 0x77; 0x70; 0x61; 0x73; 0x73; 0x77; 0x64].

(** RESET RETRY COUNTER by the admin, new PW1 "newpasswd". *)
Definition reset_by_admin : list Z :=
  [0x00; 0x2c; 0x02; 0x81; 0x09;
   0x6e; 0x65; 0x77; 0x70; 0x61; 0x73; 0x73; 0x77; 0x64].

(** GENERATE ASYMMETRIC KEY PAIR, P1 = 0x80. *)
Definition generate_key : list Z := [0x00; 0x47; 0x80; 0x00; 0x00].

(** SELECT FILE 3F 00 with P1 = 0 and with P1 = 4. *)
Definition select_mf : list Z := [0x00; 0xa4; 0x00; 0x00; 0x02; 0x3f; 0x00].
Definition select_mf_by_name : list Z :=
  [0x00; 0xa4; 0x04; 0x00; 0x02; 0x3f; 0x00].

(** VERIFY with P2 = 0x00 and the admin PIN, and with a wrong PIN. *)
Definition verify_p2_00 : list Z :=
  [0x00; 0x20; 0x00; 0x00; 0x08; 49; 50; 51; 52; 53; 54; 55; 56].
Definition verify_p2_00_wrong : list Z :=
  [0x00; 0x20; 0x00; 0x00; 0x03; 49; 50; 51].

(** VERIFY of PW1 for PSO:CDS with "123456", short and extended form. *)
Definition verify_pw1 : list Z :=
  [0x00; 0x20; 0x00; 0x81; 0x06; 0x31; 0x32; 0x33; 0x34; 0x35; 0x36].
Definition verify_pw1_extended : list Z :=
  [0x00; 0x20; 0x00; 0x81; 0x00; 0x00; 0x06;
   0x31; 0x32; 0x33; 0x34; 0x35; 0x36].
Definition verify_pw1_wrong : list Z :=
  [0x00; 0x20; 0x00; 0x81; 0x03; 0x00; 0x00; 0x00].

(** PSO:CDS with a 35 byte DigestInfo, in the extended form that
    [cmd_pso] accepts (8 + 35 bytes). *)
Definition pso_cds : list Z :=
  [0x00; 0x2a; 0x9e; 0x9a; 0x00; 0x00; 0x23] ++ repeat 0xab 35%nat
  ++ [0x00].

(** INTERNAL AUTHENTICATE over three bytes. *)
Definition internal_authenticate : list Z :=
  [0x00; 0x88; 0x00; 0x00; 0x03; 0x01; 0x02; 0x03].

(** VERIFY of PW1 for the other operations with "123456". *)
Definition verify_pw1_other : list Z :=
  [0x00; 0x20; 0x00; 0x82; 0x06; 0x31; 0x32; 0x33; 0x34; 0x35; 0x36].
End Examples.

(** ** [debug.c] *)

(** The debug output of the firmware.  [_write] is outside [debug.c]; the
    model keeps the bytes that it is handed, in the order of the calls. *)
Module Debug.

(** [_write (buf, n)]: the [n] bytes at [buf] go to the output. *)
Definition _write (buf : list Z) (n : Z) (out : list Z) : list Z :=
  out ++ firstn (Z.to_nat n) buf.

Definition put_hex (nibble : Z) (out : list Z) : list Z :=
  let nibble := u8 nibble in
  let c := if nibble <? 0x0a
           then u8 (0x30 + nibble)              (* '0' + nibble *)
           else u8 (0x61 + nibble - 0x0a) in    (* 'a' + nibble - 0x0a *)
  _write [c] 1 out.

Definition put_byte (b : Z) (out : list Z) : list Z :=
  let b := u8 b in
  let out := put_hex (Z.shiftr b 4) out in
  let out := put_hex (Z.land b 0x0f) out in
  _write [0x0d; 0x0a] 2 out.

Definition put_byte_with_no_nl (b : Z) (out : list Z) : list Z :=
  let b := u8 b in
  let out := _write [0x20] 1 out in
  let out := put_hex (Z.shiftr b 4) out in
  put_hex (Z.land b 0x0f) out.

Definition put_short (x : Z) (out : list Z) : list Z :=
  let x := u16 x in
  let out := put_hex (Z.shiftr x 12) out in
  let out := put_hex (Z.land (Z.shiftr x 8) 0x0f) out in
  let out := put_hex (Z.land (Z.shiftr x 4) 0x0f) out in
  let out := put_hex (Z.land x 0x0f) out in
  _write [0x0d; 0x0a] 2 out.

(** [strlen (s)] for the bytes at [s]: the number of bytes before the
    first zero byte. *)
Fixpoint c_strlen (s : list Z) : Z :=
  match s with
  | [] => 0
  | c :: s' => if c =? 0 then 0 else 1 + c_strlen s'
  end.

Definition put_string (s : list Z) (out : list Z) : list Z :=
  _write s (c_strlen s) out.

(** The value of a hexadecimal digit in lower case, as a reader of the
    debug output takes it. *)
Definition hex_value (c : Z) : option Z :=
  if (0x30 <=? c) && (c <=? 0x39) then Some (c - 0x30)
  else if (0x61 <=? c) && (c <=? 0x66) then Some (c - 0x61 + 10)
  else None.

(** The number that a run of hexadecimal digits stands for. *)
Fixpoint hex_number (acc : Z) (cs : list Z) : option Z :=
  match cs with
  | [] => Some acc
  | c :: cs' =>
      match hex_value c with
      | Some v => hex_number (16 * acc + v) cs'
      | None => None
      end
  end.

End Debug.

(** ** Vocabulary of the further properties *)

Definition is_rsa_call (c : call) : bool :=
  match c with
  | Call_rsa_sign _ _ _ | Call_rsa_decrypt _ _ _ => true
  | _ => false
  end.

Definition is_failed_rsa_sign (c : call) : bool :=
  match c with
  | Call_rsa_sign _ _ r => r <? 0
  | _ => false
  end.

Definition is_failed_load_prvkey (c : call) : bool :=
  match c with
  | Call_gpg_do_load_prvkey _ _ _ r => r <? 0
  | _ => false
  end.

(** The value returned by a call that loads or wraps a private key. *)
Definition key_call_result (c : call) : option Z :=
  match c with
  | Call_gpg_do_load_prvkey _ _ _ r
  | Call_gpg_do_chks_prvkey _ _ _ _ _ r => Some r
  | _ => None
  end.

Definition is_load_prvkey (c : call) : bool :=
  match c with
  | Call_gpg_do_load_prvkey _ _ _ _ => true
  | _ => false
  end.

(** The calls of [gpg_change_keystring] in the order of the source, each
    waiting for the value that the call returns. *)
Definition key_call_plan (who_old : Z) (old_ks : list Z) (who_new : Z)
    (new_ks : list Z) : list (Z -> call) :=
  [ Call_gpg_do_load_prvkey GPG_KEY_FOR_SIGNING who_old old_ks;
    Call_gpg_do_chks_prvkey GPG_KEY_FOR_SIGNING who_old old_ks
                            who_new new_ks;
    Call_gpg_do_load_prvkey GPG_KEY_FOR_DECRYPTION who_old old_ks;
    Call_gpg_do_chks_prvkey GPG_KEY_FOR_DECRYPTION who_old old_ks
                            who_new new_ks;
    Call_gpg_do_load_prvkey GPG_KEY_FOR_AUTHENTICATION who_old old_ks;
    Call_gpg_do_chks_prvkey GPG_KEY_FOR_AUTHENTICATION who_old old_ks
                            who_new new_ks ].

(** The first calls of a plan, with the values that they returned. *)
Fixpoint calls_made (plan : list (Z -> call)) (rs : list Z) : list call :=
  match plan, rs with
  | f :: plan', r :: rs' => f r :: calls_made plan' rs'
  | _, _ => []
  end.

(** The values returned by the calls that load or wrap a private key, in
    the order of the calls. *)
Fixpoint key_call_results (l : list call) : list Z :=
  match l with
  | [] => []
  | c :: l' =>
      match key_call_result c with
      | Some r => r :: key_call_results l'
      | None => key_call_results l'
      end
  end.

(** A call of [gpg_do_load_prvkey] that found a key and unwrapped it. *)
Definition is_loaded_prvkey (c : call) : bool :=
  match c with
  | Call_gpg_do_load_prvkey _ _ _ r => r >? 0
  | _ => false
  end.

(** The instruction bytes of the table [cmds]. *)
Definition known_instruction (ins : Z) : bool :=
  existsb (Z.eqb ins)
    [ INS_VERIFY; INS_CHANGE_REFERENCE_DATA; INS_PSO;
      INS_RESET_RETRY_COUNTER; INS_PGP_GENERATE_ASYMMETRIC_KEY_PAIR;
      INS_INTERNAL_AUTHENTICATE; INS_SELECT_FILE; INS_READ_BINARY;
      INS_GET_DATA; INS_PUT_DATA; INS_PUT_DATA_ODD ].

Definition is_select_file (apdu : list Z * Z) : bool :=
  peek (fst apdu) 1 =? INS_SELECT_FILE.

(** The values that [cmd_select_file] gives to [file_selection]. *)
Definition selectable (f : Z) : bool :=
  (f =? FILE_NONE) || (f =? FILE_DF_OPENPGP) || (f =? FILE_MF)
  || (f =? FILE_EF_SERIAL).

Section Frames.
Context {X : Type}.

(** A computation takes every card to one that is [R]-related to it. *)
Definition respects {A : Type} (R : card X -> card X -> Prop) (m : M X A)
  : Prop :=
  forall s, R s (snd (m s)).

Definition same_selection (s s' : card X) : Prop :=
  file_selection s' = file_selection s.

(** The trace grows by calls that all satisfy [ok]. *)
Definition adds_calls (ok : call -> bool) (s s' : card X) : Prop :=
  exists l, calls s' = calls s ++ l /\ forallb ok l = true.

(** Nothing but the response buffer and the trace differs. *)
Definition same_but_response (s s' : card X) : Prop :=
  file_selection s' = file_selection s /\
  digital_signature_counter s' = digital_signature_counter s /\
  auth_status (wld s') = auth_status (wld s) /\
  pw_err_counter (wld s') = pw_err_counter (wld s) /\
  do_simple (wld s') = do_simple (wld s) /\
  ext (wld s') = ext (wld s).
End Frames.

Definition not_rsa (c : call) : bool := negb (is_rsa_call c).

Definition not_counter_increment (c : call) : bool :=
  negb (is_counter_increment c).

Section Dispatch.
Context {X : Type} {C : Collaborators X}.

(** The handler that [process_command_apdu] runs for an instruction
    byte. *)
Inductive dispatches : Z -> M X unit -> Prop :=
| dispatches_verify : dispatches INS_VERIFY cmd_verify
| dispatches_change_password :
    dispatches INS_CHANGE_REFERENCE_DATA cmd_change_password
| dispatches_pso : dispatches INS_PSO cmd_pso
| dispatches_reset_user_password :
    dispatches INS_RESET_RETRY_COUNTER cmd_reset_user_password
| dispatches_pgp_gakp :
    dispatches INS_PGP_GENERATE_ASYMMETRIC_KEY_PAIR cmd_pgp_gakp
| dispatches_internal_authenticate :
    dispatches INS_INTERNAL_AUTHENTICATE cmd_internal_authenticate
| dispatches_select_file : dispatches INS_SELECT_FILE cmd_select_file
| dispatches_read_binary : dispatches INS_READ_BINARY cmd_read_binary
| dispatches_get_data : dispatches INS_GET_DATA cmd_get_data
| dispatches_put_data : dispatches INS_PUT_DATA cmd_put_data
| dispatches_put_data_odd : dispatches INS_PUT_DATA_ODD cmd_put_data
| dispatches_unknown (ins : Z) :
    known_instruction ins = false -> dispatches ins GPG_NO_INS.
End Dispatch.

(** A PSO with P1, P2 that [cmd_pso] does not know, or an INTERNAL
    AUTHENTICATE with P1, P2 other than 00 00. *)
Definition unsupported_key_operation (apdu : list Z * Z) : bool :=
  let cmd := fst apdu in
  ((peek cmd 1 =? INS_PSO)
   && negb ((peek cmd 2 =? 0x9e) && (peek cmd 3 =? 0x9a))
   && negb ((peek cmd 2 =? 0x80) && (peek cmd 3 =? 0x86)))
  || ((peek cmd 1 =? INS_INTERNAL_AUTHENTICATE)
      && negb ((peek cmd 2 =? 0x00) && (peek cmd 3 =? 0x00))).

(** PSO:DECIPHER or INTERNAL AUTHENTICATE. *)
Definition other_key_operation (apdu : list Z * Z) : bool :=
  let cmd := fst apdu in
  ((peek cmd 1 =? INS_PSO) && (peek cmd 2 =? 0x80) && (peek cmd 3 =? 0x86))
  || ((peek cmd 1 =? INS_INTERNAL_AUTHENTICATE) && (peek cmd 2 =? 0x00)
      && (peek cmd 3 =? 0x00)).

(** The key that PSO:DECIPHER or INTERNAL AUTHENTICATE loads. *)
Definition key_of_operation (apdu : list Z * Z) : kind_of_key :=
  if peek (fst apdu) 1 =? INS_PSO then GPG_KEY_FOR_DECRYPTION
  else GPG_KEY_FOR_AUTHENTICATION.

Section Authorization.
Context {X : Type} {C : Collaborators X}.

(** The card is in a state in which the command may use a private key:
    for PSO:CDS the PSO:CDS flag is set; for PSO:DECIPHER and INTERNAL
    AUTHENTICATE the flag for the other operations is set and PW1 is not
    blocked. *)
Definition authorized_for_rsa (apdu : list Z * Z) (s : card X) : bool :=
  let cmd := fst apdu in
  ((peek cmd 1 =? INS_PSO) && (peek cmd 2 =? 0x9e) && (peek cmd 3 =? 0x9a)
   && ac_check_status AC_PSO_CDS_AUTHORIZED (wld s))
  || ((((peek cmd 1 =? INS_PSO) && (peek cmd 2 =? 0x80)
        && (peek cmd 3 =? 0x86))
       || ((peek cmd 1 =? INS_INTERNAL_AUTHENTICATE) && (peek cmd 2 =? 0x00)
           && (peek cmd 3 =? 0x00)))
      && ac_check_status AC_PSO_OTHER_AUTHORIZED (wld s)
      && negb (gpg_passwd_locked PW_ERR_PW1 (wld s))).
End Authorization.

(** ** More commands and cards for the examples *)
Module MoreExamples.
Import RefCard Examples.

Definition select_df_openpgp : list Z :=
  [0x00; 0xa4; 0x04; 0x00; 0x06; 0xd2; 0x76; 0x00; 0x01; 0x24; 0x01].
Definition select_ef_serial : list Z :=
  [0x00; 0xa4; 0x00; 0x00; 0x02; 0x2f; 0x02].
Definition select_unknown : list Z :=
  [0x00; 0xa4; 0x00; 0x00; 0x02; 0x5f; 0x50].
Definition read_binary : list Z := [0x00; 0xb0; 0x00; 0x00; 0x00].
Definition unknown_instruction : list Z := [0x00; 0x11; 0x00; 0x00; 0x00].

(** PSO:DECIPHER over a padding byte and three bytes. *)
Definition pso_decipher : list Z :=
  [0x00; 0x2a; 0x80; 0x86; 0x04; 0x00; 0x01; 0x02; 0x03].

(** A PSO with P1, P2 that [cmd_pso] does not know. *)
Definition pso_unknown : list Z := [0x00; 0x2a; 0x86; 0x80; 0x00].

(** PSO:CDS in the short form, 5 + 35 bytes. *)
Definition pso_cds_short : list Z :=
  [0x00; 0x2a; 0x9e; 0x9a; 0x23] ++ repeat 0xab 35%nat.

(** CHANGE REFERENCE DATA for PW3: "12345678" to "admin123". *)
Definition change_pw3 : list Z :=
  [0x00; 0x24; 0x00; 0x83; 0x10;
   49; 50; 51; 52; 53; 54; 55; 56;
   0x61; 0x64; 0x6d; 0x69; 0x6e; 0x31; 0x32; 0x33].

(** The same with P2 = 0x82. *)
Definition change_p2_82 : list Z :=
  [0x00; 0x24; 0x00; 0x82; 0x10;
   49; 50; 51; 52; 53; 54; 55; 56;
   0x61; 0x64; 0x6d; 0x69; 0x6e; 0x31; 0x32; 0x33].

(** CHANGE REFERENCE DATA for PW1 with two bytes of data only. *)
Definition change_pw1_short : list Z :=
  [0x00; 0x24; 0x00; 0x81; 0x02; 0x31; 0x32].

(** RESET RETRY COUNTER by reset code with a wrong code "rcXX". *)
Definition reset_by_wrong_rc : list Z :=
  [0x00; 0x2c; 0x00; 0x81; 0x0d;
   0x72; 0x63; 0x58; 0x58;
   0x6e; 0x65; 0x77; 0x70; 0x61; 0x73; 0x73; 0x77; 0x64].

(** A card without private keys on which a reset code "rc12" is set, a
    PW1 record for "123456" is stored and PW1 is blocked. *)
Definition rc_world : W :=
  mkWorld [] 0
          (fun f => match f with
                    | AC_PSO_CDS_AUTHORIZED => true
                    | _ => false
                    end)
          (fun c => match c with
                    | PW_ERR_PW1 => 3
                    | PW_ERR_RC => 1
                    | PW_ERR_PW3 => 0
                    end)
          (fun n => match n with
                    | NR_DO_KEYSTRING_PW1 => Some (6 :: ref_sha1 pin_123456 6)
                    | NR_DO_KEYSTRING_RC => Some (4 :: ref_sha1 pin_rc12 4)
                    | NR_DO_KEYSTRING_PW3 => None
                    end)
          factory_ext.

Definition rc_card : card refx := power_up rc_world.

(** The card [keyed_card] with an RSA primitive that fails. *)
Definition rsa_failing_card : card refx :=
  power_up
    (set_ext (keyed_world false)
       (mkRefx (prvkeys (keyed_ext false)) (objects (keyed_ext false))
               (pins (keyed_ext false)) (md_pw3 (keyed_ext false))
               (ks_pw1 (keyed_ext false)) (pw1_lifetime (keyed_ext false))
               (number_of_bytes (keyed_ext false)) false (-1))).

(** The card [s] with the admin authorized. *)
Definition with_admin (s : card refx) : card refx :=
  set_wld s (set_flag AC_ADMIN_AUTHORIZED (wld s)).

(** The card [s] with the other operations authorized. *)
Definition with_pso_other (s : card refx) : card refx :=
  set_wld s (set_flag AC_PSO_OTHER_AUTHORIZED (wld s)).

(** The card [s] with the PW1 counter at zero. *)
Definition unblocked (s : card refx) : card refx :=
  set_wld s (gpg_reset_pw_err_counter PW_ERR_PW1 (wld s)).

(** A card with a decryption key that the cached PW1 keystring (none
    since power-up) does not unwrap. *)
Definition wrong_keystring_card : card refx :=
  power_up
    (set_ext (keyed_world false)
       (mkRefx (fun kk =>
                  match kk with
                  | GPG_KEY_FOR_DECRYPTION =>
                      Some (fun _ => ref_sha1 pin_123456 6)
                  | _ => None
                  end)
               (objects (keyed_ext false)) (pins (keyed_ext false))
               (md_pw3 (keyed_ext false)) (ks_pw1 (keyed_ext false))
               (pw1_lifetime (keyed_ext false))
               (number_of_bytes (keyed_ext false)) false 0)).

(** The card [s] with another admin PIN than the factory one. *)
Definition with_wrong_admin_pin (s : card refx) : card refx :=
  set_wld s (ref_set_pw3 [0x61; 0x64; 0x6d; 0x69; 0x6e; 0x70; 0x69; 0x6e] 8
                         (wld s)).

(** CHANGE REFERENCE DATA for PW1, "123456" to "newpw1", and INTERNAL
    AUTHENTICATE over three bytes, in the extended form. *)
Definition change_pw1_extended : list Z :=
  [0x00; 0x24; 0x00; 0x81; 0x00; 0x00; 0x0c;
   0x31; 0x32; 0x33; 0x34; 0x35; 0x36; 0x6e; 0x65; 0x77; 0x70; 0x77; 0x31].
Definition internal_authenticate_extended : list Z :=
  [0x00; 0x88; 0x00; 0x00; 0x00; 0x00; 0x03; 0x01; 0x02; 0x03].
End MoreExamples.

(** * Properties *)

Local Open Scope Z_scope.
Local Open Scope card_scope.

(** Closes a goal that holds by evaluation: an equation between closed
    terms, or the negation of one. *)
Ltac evaluate :=
  first [ reflexivity
        | let H := fresh in intro H; vm_compute in H; discriminate H ].

(** ** The response after a status macro *)

Section StatusMacros.
Context {X : Type} {C : Collaborators X}.

Lemma write_status_response (a b : Z) (s : card X) :
  response (snd (write_res_apdu [] 0 a b s)) = [u8 a; u8 b].
Proof.
  unfold response, write_res_apdu; simpl.
  destruct (res_APDU (wld s)) as [|x [|y r]]; reflexivity.
Qed.

Lemma write_status_calls (a b : Z) (s : card X) :
  calls (snd (write_res_apdu [] 0 a b s)) = calls s.
Proof. reflexivity. Qed.

Lemma write_status_state (a b : Z) (s : card X) :
  let w' := wld (snd (write_res_apdu [] 0 a b s)) in
  auth_status w' = auth_status (wld s) /\
  pw_err_counter w' = pw_err_counter (wld s) /\
  do_simple w' = do_simple (wld s) /\
  ext w' = ext (wld s).
Proof. repeat split. Qed.
End StatusMacros.

(** ** VERIFY *)

(** C5.  VERIFY runs the verify primitive that goes with its P2, once, on
    the data and the Lc of the command in the state in which the command
    arrives, and answers by the value [r] that the primitive returns there:
    69 82 for a negative [r], 69 83 for zero and 90 00 for a positive [r].
    The state is the one that the primitive leaves, with the status word
    in the response buffer. *)
Theorem cmd_verify_status_by_result :
  forall (X : Type) (C : Collaborators X) (s : card X),
    let p2 := peek (cmd_APDU s) 3 in
    let lc := fst (extended_length_decoder (cmd_APDU s)) in
    let pin := snd (extended_length_decoder (cmd_APDU s)) in
    let r := fst (verify_primitive p2 pin lc (wld s)) in
    let w := snd (verify_primitive p2 pin lc (wld s)) in
    let s' := snd (cmd_verify s) in
    calls s' = calls s ++ [verify_call p2 pin lc r] /\
    response s' = (if r <? 0 then [0x69; 0x82]
                   else if r =? 0 then [0x69; 0x83]
                   else [0x90; 0x00]) /\
    auth_status (wld s') = auth_status w /\
    pw_err_counter (wld s') = pw_err_counter w /\
    do_simple (wld s') = do_simple w /\
    ext (wld s') = ext w /\
    file_selection s' = file_selection s /\
    digital_signature_counter s' = digital_signature_counter s.
Proof.
  intros X C s. cbv zeta.
  unfold cmd_verify, verify_primitive, verify_call, extended_length_decoder,
    bind, get_cmd_APDU.
  destruct (peek (cmd_APDU s) 4 =? 0); cbn [fst snd];
    destruct (peek (cmd_APDU s) 3 =? 129);
    try destruct (peek (cmd_APDU s) 3 =? 130);
    unfold ext_call;
    match goal with
    | |- context [?f ?p ?l (wld s)] => destruct (f p l (wld s)) as [r w]
    end;
    cbn [fst snd];
    (destruct (r <? 0); [|destruct (r =? 0)]);
    unfold GPG_SECURITY_FAILURE, GPG_SECURITY_AUTH_BLOCKED, GPG_SUCCESS;
    rewrite write_status_response;
    repeat split.
Qed.

(** C9.  A VERIFY whose P2 is neither 0x81 nor 0x82 (0x83, but 0x00 as
    well) is an admin verification of the PIN bytes of the command: the one
    call made is [verify_admin] on the data and Lc of the command, the
    answer is 69 82, 69 83 or 90 00 by its result, never the wrong-P2
    status 6B 00, and what [verify_admin] did to the flags, the counters and
    the rest of the state stays. *)
Theorem cmd_verify_other_p2_verifies_admin :
  forall (X : Type) (C : Collaborators X) (s : card X)
         (lc : Z) (pin : list Z) (r : Z) (w : world X),
    peek (cmd_APDU s) 3 <> 0x81 ->
    peek (cmd_APDU s) 3 <> 0x82 ->
    extended_length_decoder (cmd_APDU s) = (lc, pin) ->
    verify_admin pin lc (wld s) = (r, w) ->
    let s' := snd (cmd_verify s) in
    calls s' = calls s ++ [Call_verify_admin pin lc r] /\
    response s' = (if r <? 0 then [0x69; 0x82]
                   else if r =? 0 then [0x69; 0x83]
                   else [0x90; 0x00]) /\
    response s' <> [0x6b; 0x00] /\
    auth_status (wld s') = auth_status w /\
    pw_err_counter (wld s') = pw_err_counter w /\
    do_simple (wld s') = do_simple w /\
    ext (wld s') = ext w.
Proof.
  intros X C s lc pin r w Hcds Hother Hdec Hver.
  apply Z.eqb_neq in Hcds, Hother.
  unfold extended_length_decoder in Hdec.
  unfold cmd_verify, bind, get_cmd_APDU.
  rewrite Hcds, Hother.
  destruct (peek (cmd_APDU s) 4 =? 0); injection Hdec as Hlc Hpin;
    subst lc pin;
    unfold ext_call;
    match goal with
    | |- context [verify_admin ?p ?l (wld s)] =>
        replace (verify_admin p l (wld s)) with (r, w)
          by (symmetry; exact Hver)
    end;
    (destruct (r <? 0); [|destruct (r =? 0)]);
    unfold GPG_SECURITY_FAILURE, GPG_SECURITY_AUTH_BLOCKED, GPG_SUCCESS;
    cbv zeta; rewrite write_status_response;
    repeat split; discriminate.
Qed.

Import RefCard Examples.

(** On the reference card a VERIFY with P2 = 0x00 and a wrong PIN counts
    against PW3, and one with the admin PIN sets [AC_ADMIN_AUTHORIZED]. *)
Lemma cmd_verify_other_p2_verifies_admin_witness :
  let bad := transport_delivers verify_p2_00_wrong 8 factory_card in
  let good := transport_delivers verify_p2_00 13 factory_card in
  (peek (cmd_APDU bad) 3 <> 0x81 /\ peek (cmd_APDU bad) 3 <> 0x82 /\
   pw_err_counter (wld factory_card) PW_ERR_PW3 = 0 /\
   pw_err_counter (wld (snd (cmd_verify bad))) PW_ERR_PW3 = 1 /\
   response (snd (cmd_verify bad)) = [0x69; 0x82]) /\
  (peek (cmd_APDU good) 3 <> 0x81 /\ peek (cmd_APDU good) 3 <> 0x82 /\
   auth_status (wld factory_card) AC_ADMIN_AUTHORIZED = false /\
   auth_status (wld (snd (cmd_verify good))) AC_ADMIN_AUTHORIZED = true /\
   response (snd (cmd_verify good)) = [0x90; 0x00]).
Proof.
  intros bad good. split.
  - destruct (cmd_verify_other_p2_verifies_admin refx collaborators bad
                3 [49; 50; 51]
                (fst (ref_verify_admin [49; 50; 51] 3 (wld bad)))
                (snd (ref_verify_admin [49; 50; 51] 3 (wld bad))))
      as (_ & Hres & _ & _ & Hcnt & _);
      try evaluate.
    split; [evaluate|]. split; [evaluate|]. split; [evaluate|].
    split; [rewrite Hcnt | rewrite Hres]; reflexivity.
  - destruct (cmd_verify_other_p2_verifies_admin refx collaborators good
                8 pin_admin
                (fst (ref_verify_admin pin_admin 8 (wld good)))
                (snd (ref_verify_admin pin_admin 8 (wld good))))
      as (_ & Hres & _ & Hauth & _);
      try evaluate.
    split; [evaluate|]. split; [evaluate|]. split; [evaluate|].
    split; [rewrite Hauth | rewrite Hres]; reflexivity.
Defined.

(** ** GET DATA and PUT DATA *)

Lemma ptr_add_ptr_add (p : list Z) (n m : Z) :
  0 <= n -> 0 <= m -> ptr_add (ptr_add p n) m = ptr_add p (n + m).
Proof.
  intros Hn Hm. unfold ptr_add. rewrite skipn_skipn. f_equal. lia.
Qed.

Section DataObjects.
Context {X : Type} {C : Collaborators X}.

(** GET DATA hands the tag to the data object store whatever the file
    selection is; without DF-OPENPGP selected the store finds 6A 88 in
    the response buffer and writes its own response over it. *)
Lemma cmd_get_data_always_delegates (s : card X) :
  let s' := snd (cmd_get_data s) in
  calls s' = calls s ++ [Call_gpg_do_get_data (tag_of (cmd_APDU s))] /\
  file_selection s' = file_selection s /\
  wld s' =
    gpg_do_get_data (tag_of (cmd_APDU s))
      (if file_selection s =? FILE_DF_OPENPGP then wld s
       else wld (snd (GPG_NO_RECORD s))).
Proof.
  unfold cmd_get_data, bind, get_cmd_APDU, get_file_selection, tag_of.
  destruct (file_selection s =? FILE_DF_OPENPGP); repeat split.
Qed.

(** And so does PUT DATA. *)
Lemma cmd_put_data_always_delegates (s : card X) :
  let s' := snd (cmd_put_data s) in
  let tag := tag_of (cmd_APDU s) in
  let data := fst (put_data_arguments s) in
  let len := snd (put_data_arguments s) in
  calls s' = calls s ++ [Call_gpg_do_put_data tag data len] /\
  file_selection s' = file_selection s /\
  wld s' =
    gpg_do_put_data tag data len
      (if file_selection s =? FILE_DF_OPENPGP then wld s
       else wld (snd (GPG_NO_RECORD s))).
Proof.
  unfold cmd_put_data, put_data_arguments, bind, get_cmd_APDU,
    get_cmd_APDU_size, get_file_selection, tag_of.
  assert (E : ptr_add (ptr_add (cmd_APDU s) 5) 2 = ptr_add (cmd_APDU s) 7)
    by (apply ptr_add_ptr_add; lia).
  assert (E' : cmd_APDU_size s - 5 - 2 = cmd_APDU_size s - 7) by lia.
  destruct (file_selection s =? FILE_DF_OPENPGP);
    unfold skip, ret, GPG_NO_RECORD, write_res_apdu, set_wld;
    cbn [negb cmd_APDU_size cmd_APDU];
    destruct (cmd_APDU_size s - 5 >=? 256); cbn [fst snd];
    rewrite ?E, ?E'; repeat split.
Qed.
End DataObjects.

(** C1.  After power-up, with no file selected, GET DATA of tag 0x5E is
    handed to the data object store all the same, and the answer is the
    object with 90 00, not 6A 88; PUT DATA stores its data and answers
    90 00.  The file selection is still NONE. *)
Theorem get_put_data_delegate_without_selection :
  file_selection factory_card = FILE_NONE /\
  (let s := after get_data_5e factory_card in
   calls s = [Call_gpg_do_get_data 0x5e] /\
   response s = [0x67; 0x6e; 0x75; 0x6b; 0x90; 0x00] /\
   file_selection s = FILE_NONE) /\
  (let s := after put_data_5e factory_card in
   calls s = [Call_gpg_do_put_data 0x5e [0x61; 0x62; 0x63] 3] /\
   response s = [0x90; 0x00] /\
   file_selection s = FILE_NONE).
Proof. repeat split. Qed.

(** C4, as stated, fails: a PUT DATA in the extended form with three bytes
    of data has [cmd_APDU[4]] zero, Lc 3 and its data at offset 7, and yet
    the store is handed the five bytes from offset 5 on. *)
Lemma cmd_put_data_extended_form_counterexample :
  let s := transport_delivers put_data_5e_extended 10 factory_card in
  peek (cmd_APDU s) 4 = 0 /\
  extended_length_decoder (cmd_APDU s) = (3, [0x61; 0x62; 0x63]) /\
  calls (snd (cmd_put_data s))
    = [Call_gpg_do_put_data 0x5e [0x00; 0x03; 0x61; 0x62; 0x63] 5] /\
  calls (snd (cmd_put_data s))
    <> [Call_gpg_do_put_data 0x5e [0x61; 0x62; 0x63] 3].
Proof. repeat split. evaluate. Qed.

(** ** GENERATE ASYMMETRIC KEY PAIR *)

(** Whatever the admin status is, a P1 other than 0x81 ends in the generic
    error: the status written on a failed admin check is overwritten. *)
Lemma cmd_pgp_gakp_generate_status :
  forall (X : Type) (C : Collaborators X) (s : card X),
    peek (cmd_APDU s) 2 <> 0x81 ->
    response (snd (cmd_pgp_gakp s)) = [0x6f; 0x00].
Proof.
  intros X C s H. apply Z.eqb_neq in H.
  unfold cmd_pgp_gakp, bind, get_cmd_APDU. rewrite H.
  unfold check_status, ext_ask.
  destruct (ac_check_status AC_ADMIN_AUTHORIZED (wld s));
    unfold GPG_ERROR; cbn [negb]; apply write_status_response.
Qed.

(** C8.  GENERATE ASYMMETRIC KEY PAIR with P1 = 0x80 on a card whose admin
    is not authorized: the admin check is made and fails, and the answer is
    the generic error 6F 00, not 69 82. *)
Theorem generate_key_without_admin_status :
  auth_status (wld factory_card) AC_ADMIN_AUTHORIZED = false /\
  (let s := after generate_key factory_card in
   calls s = [Call_ac_check_status AC_ADMIN_AUTHORIZED false] /\
   response s = [0x6f; 0x00] /\
   response s <> [0x69; 0x82]).
Proof. repeat split. evaluate. Qed.

(** ** CHANGE REFERENCE DATA and RESET RETRY COUNTER *)

(** C2.  On a card that holds a signing key and whose flash write fails,
    [gpg_change_keystring] returns -2, and both CHANGE REFERENCE DATA and
    RESET RETRY COUNTER answer 69 82, not the memory failure 65 81; RESET
    RETRY COUNTER counts the failure against the reset code as well. *)
Theorem change_keystring_write_failure_status :
  (let s := after change_pw1 (keyed_card true) in
   change_keystring_result (calls s) = Some (-2) /\
   response s = [0x69; 0x82] /\
   response s <> [0x65; 0x81]) /\
  (let s := after reset_by_rc (keyed_card true) in
   change_keystring_result (calls s) = Some (-2) /\
   response s = [0x69; 0x82] /\
   response s <> [0x65; 0x81] /\
   pw_err_counter (wld (keyed_card true)) PW_ERR_RC = 1 /\
   pw_err_counter (wld s) PW_ERR_RC = 2).
Proof. repeat split; evaluate. Qed.

(** C3.  RESET RETRY COUNTER with P1 = 0x00, the right reset code and the
    new PW1 "newpasswd" (nine bytes), on a card that holds a signing key:
    the key is wrapped anew, the answer is 90 00, both counters are reset
    and the PSO:CDS flag is cleared, but [gpg_do_write_simple] is not
    called and the PW1 record still says six bytes.  CHANGE REFERENCE DATA
    to the same new PW1 on the same card does store the length. *)
Theorem reset_by_rc_with_keys_keeps_pw1_record :
  do_simple (wld (keyed_card false)) NR_DO_KEYSTRING_PW1 = Some [6] /\
  (let s := after reset_by_rc (keyed_card false) in
   change_keystring_result (calls s) = Some 1 /\
   response s = [0x90; 0x00] /\
   pw_err_counter (wld s) PW_ERR_PW1 = 0 /\
   pw_err_counter (wld s) PW_ERR_RC = 0 /\
   auth_status (wld s) AC_PSO_CDS_AUTHORIZED = false /\
   existsb is_write_simple (calls s) = false /\
   do_simple (wld s) NR_DO_KEYSTRING_PW1 = Some [6]) /\
  (let s := after change_pw1_longer (keyed_card false) in
   change_keystring_result (calls s) = Some 1 /\
   response s = [0x90; 0x00] /\
   existsb is_write_simple (calls s) = true /\
   do_simple (wld s) NR_DO_KEYSTRING_PW1 = Some [9]).
Proof. repeat split. Qed.

(** ** What the handlers make of the result of [gpg_change_keystring] *)

Lemma change_keystring_result_app (a b : list call) :
  change_keystring_result (a ++ b)
  = match change_keystring_result a with
    | Some r => Some r
    | None => change_keystring_result b
    end.
Proof.
  induction a as [|c a IH]; [reflexivity|].
  destruct c; cbn; try apply IH; reflexivity.
Qed.

Lemma is_write_simple_app (a b : list call) :
  existsb is_write_simple (a ++ b)
  = existsb is_write_simple a || existsb is_write_simple b.
Proof. apply existsb_app. Qed.

Section ChangeKeystringResult.
Context {X : Type} {C : Collaborators X}.

(** The trace of [gpg_change_keystring]: calls that load and wrap keys,
    and the value returned at the end. *)
Lemma gpg_change_keystring_calls (who_old : Z) (old_ks : list Z)
    (who_new : Z) (new_ks : list Z) (s : card X) :
  exists l,
    calls (snd (gpg_change_keystring who_old old_ks who_new new_ks s))
      = calls s ++ l /\
    change_keystring_result l
      = Some (fst (gpg_change_keystring who_old old_ks who_new new_ks s)) /\
    existsb is_write_simple l = false.
Proof.
  unfold gpg_change_keystring, gpg_change_keystring_body, load_prvkey,
    chks_prvkey, ext_call, ret, bind.
  repeat
    match goal with
    | |- context [let (_, _) := ?p in _] =>
        lazymatch p with
        | context [match _ with _ => _ end] => fail
        | context [if _ then _ else _] => fail
        | _ => destruct p as [? ?]
        end
    | |- context [if ?b then _ else _] =>
        lazymatch b with
        | context [match _ with _ => _ end] => fail
        | context [if _ then _ else _] => fail
        | _ => destruct b
        end
    end;
    cbn [fst snd calls record_call set_wld];
    rewrite <- ?app_assoc;
    (eexists; split; [reflexivity | split; reflexivity]).
Qed.
End ChangeKeystringResult.

(** Takes the call of [gpg_change_keystring] in the goal apart: the value
    [r] returned, and the calls [l] that it adds to the trace. *)
Ltac split_change_keystring :=
  match goal with
  | |- context [gpg_change_keystring ?a ?b ?c ?d ?s1] =>
      let l := fresh "l" in
      let Hl := fresh "Hl" in
      let Hr := fresh "Hr" in
      let Hw := fresh "Hw" in
      destruct (gpg_change_keystring_calls a b c d s1) as (l & Hl & Hr & Hw);
      let r := fresh "r" in
      let s2 := fresh "s" in
      destruct (gpg_change_keystring a b c d s1) as [r s2];
      cbn [fst snd calls record_call set_wld] in Hl, Hr
  end.

(** Splits on the tests that a handler makes on the value returned. *)
Ltac split_on_result :=
  repeat match goal with
         | Hr : change_keystring_result _ = Some ?r
           |- context [if ?b then _ else _] =>
             match b with context [r] => destruct b eqn:? end
         end.

(** Computes the trace at the end of a branch of a handler. *)
Ltac trace_of_branch :=
  unfold write_simple, reset_pso_cds, reset_pw_err_counter,
    increment_pw_err_counter, ext_do, bind,
    GPG_MEMORY_FAILURE, GPG_SECURITY_FAILURE, GPG_SUCCESS, write_res_apdu;
  cbn [fst snd calls record_call set_wld];
  match goal with
  | Hc : calls _ = [], Hl : calls _ = _ ++ _,
    Hr : change_keystring_result _ = Some _ |- _ =>
      rewrite Hl, Hc;
      rewrite ?change_keystring_result_app, ?is_write_simple_app;
      cbn [app change_keystring_result existsb is_write_simple orb];
      rewrite ?change_keystring_result_app, ?is_write_simple_app, ?Hr
  end.

(** The response is the status word that was written last. *)
Ltac status_written :=
  unfold response; cbn;
  match goal with
  | |- context [res_APDU ?w] =>
      destruct (res_APDU w) as [|? [|? ?]]; reflexivity
  end.

(** Finds a hypothesis that evaluates to an equation between distinct
    constructors. *)
Ltac evaluate_in_context :=
  match goal with
  | H : _ = _ |- _ => vm_compute in H; discriminate H
  end.

Section WriteFailure.
Context {X : Type} {C : Collaborators X}.

(** CHANGE REFERENCE DATA answers 69 82 whenever [gpg_change_keystring]
    returns -2. *)
Lemma cmd_change_password_write_failure (s : card X) :
  calls s = [] ->
  change_keystring_result (calls (snd (cmd_change_password s))) = Some (-2) ->
  response (snd (cmd_change_password s)) = [0x69; 0x82].
Proof.
  intros Hc. unfold cmd_change_password, bind, get_cmd_APDU.
  destruct (peek (cmd_APDU s) 4 =? 0); cbv iota beta;
    (destruct (peek (cmd_APDU s) 3 - 128 =? BY_USER);
     [ unfold read_simple, ext_ask;
       destruct (gpg_do_read_simple NR_DO_KEYSTRING_PW1 (wld s)) as [pk|];
       [| match goal with
          | |- context [?a <? strlen ?b] => destruct (a <? strlen b)
          end ]
     | unfold ext_call;
       match goal with
       | |- context [verify_admin_0 ?p ?l ?k ?w] =>
           destruct (verify_admin_0 p l k w) as [pw_len w1]
       end;
       (destruct (pw_len <? 0); [|destruct (pw_len =? 0)]) ]);
    unfold skip, ret, ext_do, GPG_SECURITY_FAILURE, GPG_SECURITY_AUTH_BLOCKED,
      write_res_apdu;
    cbn [fst snd calls record_call set_wld];
    try (rewrite Hc; cbn [app change_keystring_result];
         intro H; discriminate H);
    split_change_keystring.
  all: split_on_result; trace_of_branch; intro H; injection H as ->.
  all: solve [ evaluate_in_context | status_written ].
Qed.

(** And so does RESET RETRY COUNTER, by reset code or by admin. *)
Lemma cmd_reset_user_password_write_failure (s : card X) :
  calls s = [] ->
  change_keystring_result (calls (snd (cmd_reset_user_password s)))
    = Some (-2) ->
  response (snd (cmd_reset_user_password s)) = [0x69; 0x82].
Proof.
  intros Hc. unfold cmd_reset_user_password, bind, get_cmd_APDU.
  destruct (peek (cmd_APDU s) 4 =? 0); cbv iota beta;
    (destruct (peek (cmd_APDU s) 2 =? 0);
     [ unfold read_simple, passwd_locked, ext_ask;
       cbn [wld record_call];
       destruct (gpg_passwd_locked PW_ERR_RC (wld s));
       [| destruct (gpg_do_read_simple NR_DO_KEYSTRING_RC (wld s))
            as [ks_rc|] ]
     | unfold global, check_status, ext_ask;
       destruct (ac_check_status AC_ADMIN_AUTHORIZED (wld s)); cbn [negb] ]);
    unfold skip, ret, ext_do, GPG_SECURITY_FAILURE, GPG_SECURITY_AUTH_BLOCKED,
      write_res_apdu;
    cbn [fst snd calls record_call set_wld];
    try (rewrite Hc; cbn [app change_keystring_result];
         intro H; discriminate H);
    split_change_keystring.
  all: split_on_result;
    try match goal with
        | |- context [if negb ?b then _ else _] => destruct b; cbn [negb]
        end.
  all: trace_of_branch; intro H; injection H as ->.
  all: solve [ evaluate_in_context | status_written ].
Qed.

(** A RESET RETRY COUNTER by reset code that wraps private keys anew
    answers 90 00 with both counters reset and the PSO:CDS flag cleared,
    and makes no call of [gpg_do_write_simple]. *)
Lemma cmd_reset_user_password_rewrapped (s : card X) (r : Z) :
  calls s = [] ->
  peek (cmd_APDU s) 2 = 0x00 ->
  change_keystring_result (calls (snd (cmd_reset_user_password s)))
    = Some r ->
  0 < r ->
  let s' := snd (cmd_reset_user_password s) in
  response s' = [0x90; 0x00] /\
  pw_err_counter (wld s') PW_ERR_PW1 = 0 /\
  pw_err_counter (wld s') PW_ERR_RC = 0 /\
  auth_status (wld s') AC_PSO_CDS_AUTHORIZED = false /\
  existsb is_write_simple (calls s') = false.
Proof.
  intros Hc Hp1. cbv zeta.
  unfold cmd_reset_user_password, bind, get_cmd_APDU. rewrite Hp1.
  change (0 =? 0) with true. cbv iota.
  destruct (peek (cmd_APDU s) 4 =? 0); cbv iota beta;
    unfold read_simple, passwd_locked, ext_ask;
    cbn [wld record_call];
    (destruct (gpg_passwd_locked PW_ERR_RC (wld s));
     [| destruct (gpg_do_read_simple NR_DO_KEYSTRING_RC (wld s))
          as [ks_rc|] ]);
    unfold skip, ret, ext_do, GPG_SECURITY_FAILURE, GPG_SECURITY_AUTH_BLOCKED,
      write_res_apdu;
    cbn [fst snd calls record_call set_wld];
    try (rewrite Hc; cbn [app change_keystring_result];
         intro H; discriminate H);
    split_change_keystring.
  all: split_on_result;
    try match goal with
        | |- context [if negb ?b then _ else _] => destruct b; cbn [negb]
        end.
  all: trace_of_branch; intro H; injection H as ->; intro Hpos.
  all: try (exfalso;
            repeat match goal with
                   | H : (_ <? _) = _ |- _ =>
                       first [apply Z.ltb_lt in H | apply Z.ltb_ge in H]
                   | H : (_ =? _) = true |- _ => apply Z.eqb_eq in H
                   end;
            lia).
  all: match goal with
       | Hw : existsb is_write_simple _ = false |- _ => rewrite Hw
       end;
    split; [status_written | repeat split].
Qed.

(** A RESET RETRY COUNTER by reset code on a card without private keys,
    when it answers 90 00, has stored the full record of the new PW1, reset
    both counters and cleared the PSO:CDS flag. *)
Lemma cmd_reset_user_password_no_keys (s : card X) :
  calls s = [] ->
  peek (cmd_APDU s) 2 = 0x00 ->
  change_keystring_result (calls (snd (cmd_reset_user_password s)))
    = Some 0 ->
  response (snd (cmd_reset_user_password s)) = [0x90; 0x00] ->
  let s' := snd (cmd_reset_user_password s) in
  pw_err_counter (wld s') PW_ERR_PW1 = 0 /\
  pw_err_counter (wld s') PW_ERR_RC = 0 /\
  auth_status (wld s') AC_PSO_CDS_AUTHORIZED = false /\
  exists new_ks0 : list Z,
    In (Call_gpg_do_write_simple NR_DO_KEYSTRING_PW1 new_ks0
                                 KEYSTRING_SIZE_PW1) (calls s') /\
    gpg_do_read_simple NR_DO_KEYSTRING_PW1 (wld s')
      = Some (firstn 21 new_ks0).
Proof.
  intros Hc Hp1. cbv zeta.
  unfold cmd_reset_user_password, bind, get_cmd_APDU. rewrite Hp1.
  change (0 =? 0) with true. cbv iota.
  destruct (peek (cmd_APDU s) 4 =? 0); cbv iota beta;
    unfold read_simple, passwd_locked, ext_ask;
    cbn [wld record_call];
    (destruct (gpg_passwd_locked PW_ERR_RC (wld s));
     [| destruct (gpg_do_read_simple NR_DO_KEYSTRING_RC (wld s))
          as [ks_rc|] ]);
    unfold skip, ret, ext_do, GPG_SECURITY_FAILURE, GPG_SECURITY_AUTH_BLOCKED,
      write_res_apdu;
    cbn [fst snd calls record_call set_wld];
    try (rewrite Hc; cbn [app change_keystring_result];
         intro H; discriminate H);
    split_change_keystring.
  all: split_on_result;
    try match goal with
        | |- context [if negb ?b then _ else _] => destruct b; cbn [negb]
        end.
  all: trace_of_branch; intro H; injection H as ->; try evaluate_in_context.
  all: intro Hresp.
  all: try (exfalso; revert Hresp; unfold response; cbn;
            match goal with
            | |- context [res_APDU ?w] =>
                destruct (res_APDU w) as [|? [|? ?]]; discriminate
            end).
  all: repeat split;
    match goal with
    | |- context [Call_gpg_do_write_simple NR_DO_KEYSTRING_PW1 ?d
                                           KEYSTRING_SIZE_PW1] => exists d
    end;
    (split; [auto 30 using in_or_app, in_eq, in_cons | reflexivity]).
Qed.
End WriteFailure.

(** ** SELECT FILE *)

(** The response to the selection of the MF, whatever was in the response
    buffer before. *)
Lemma select_top_response (r : list Z) (ll lh : Z) :
  firstn 22
    (poke (poke (poke (poke (memcpy r 0 select_file_TOP_result 20) 20 0x90)
                      21 0x00) 2 ll) 3 lh)
  = MF_descriptor ll lh ++ [0x90; 0x00].
Proof.
  unfold poke, memcpy.
  do 22 (destruct r as [|? r]; [reflexivity|]). reflexivity.
Qed.

(** C7, as stated, fails.  With P1 = 0x04 a SELECT FILE with Lc = 2, data
    3F 00 and P2 = 0x00 is a selection by DF name: the answer is 90 00
    alone and the selection is DF-OPENPGP.  And with P1 = 0x00 the
    descriptor in the response has the 20 bytes that the spec lists, not
    16. *)
Lemma cmd_select_file_mf_counterexample :
  (let s := after select_mf_by_name factory_card in
   peek select_mf_by_name 4 = 2 /\ peek select_mf_by_name 5 = 0x3f /\
   peek select_mf_by_name 6 = 0x00 /\ peek select_mf_by_name 3 <> 0x0c /\
   response s = [0x90; 0x00] /\
   file_selection s = FILE_DF_OPENPGP /\
   file_selection s <> FILE_MF) /\
  (let s := after select_mf factory_card in
   response s = MF_descriptor 0x0b 0x10 ++ [0x90; 0x00] /\
   length (response s) = 22%nat /\
   length (response s) <> (16 + 2)%nat).
Proof. repeat split; evaluate. Qed.

(** C7, amended.  A SELECT FILE with P1 other than 0x04, Lc = 2, data
    3F 00 and P2 other than 0x0C answers with the 20 bytes of the MF
    descriptor, the low and the high byte of [data_objects_number_of_bytes]
    at offsets 2 and 3, followed by 90 00, and the selection becomes MF. *)
Theorem cmd_select_file_mf_descriptor :
  forall (X : Type) (C : Collaborators X) (s : card X),
    peek (cmd_APDU s) 2 <> 0x04 ->
    peek (cmd_APDU s) 4 = 2 ->
    peek (cmd_APDU s) 5 = 0x3f ->
    peek (cmd_APDU s) 6 = 0x00 ->
    peek (cmd_APDU s) 3 <> 0x0c ->
    let n := data_objects_number_of_bytes (ext (wld s)) in
    let s' := snd (cmd_select_file s) in
    response s' = MF_descriptor (n mod 256) ((n / 256) mod 256)
                    ++ [0x90; 0x00] /\
    length (MF_descriptor (n mod 256) ((n / 256) mod 256)) = 20%nat /\
    file_selection s' = FILE_MF.
Proof.
  intros X C s Hp1 Hlc Hd1 Hd2 Hp2 n s'.
  apply Z.eqb_neq in Hp1, Hp2.
  assert (Hll : u8 (Z.land n 0xff) = n mod 256).
  { unfold u8. change 0xff with (Z.ones 8).
    rewrite Z.land_ones by lia. change (2 ^ 8) with 256.
    apply Z.mod_mod. lia. }
  assert (Hlh : u8 (Z.shiftr n 8) = (n / 256) mod 256).
  { unfold u8. rewrite Z.shiftr_div_pow2 by lia. reflexivity. }
  subst s'. unfold cmd_select_file, bind, get_cmd_APDU.
  rewrite Hp1, Hlc, Hd1, Hd2, Hp2. cbn [Z.eqb Pos.eqb andb].
  split; [|split; reflexivity].
  unfold response, write_res_apdu, global, set_file_selection, set_wld,
    set_res.
  cbn [snd fst wld res_APDU res_APDU_size ext].
  change sizeof_select_file_TOP_result with 20.
  cbn [Z.eqb Z.add Pos.add Pos.succ Z.to_nat Pos.to_nat Pos.iter_op Nat.add].
  fold n. rewrite Hll, Hlh.
  apply select_top_response.
Qed.

(** SELECT FILE 3F 00 with P1 = P2 = 0 on the reference card, whose data
    object store holds 0x100b bytes. *)
Lemma cmd_select_file_mf_descriptor_witness :
  let s := transport_delivers select_mf 7 factory_card in
  (peek (cmd_APDU s) 2 <> 0x04 /\ peek (cmd_APDU s) 4 = 2 /\
   peek (cmd_APDU s) 5 = 0x3f /\ peek (cmd_APDU s) 6 = 0x00 /\
   peek (cmd_APDU s) 3 <> 0x0c) /\
  response (snd (cmd_select_file s))
    = [0x00; 0x00; 0x0b; 0x10; 0x3f; 0x00; 0x38; 0xff; 0xff; 0x44; 0x44;
       0x01; 0x05; 0x03; 0x01; 0x01; 0x00; 0x00; 0x00; 0x00; 0x90; 0x00] /\
  file_selection (snd (cmd_select_file s)) = FILE_MF.
Proof.
  intro s.
  split; [repeat split; evaluate|].
  destruct (cmd_select_file_mf_descriptor refx collaborators s)
    as (Hres & _ & Hsel); try evaluate.
  split; [rewrite Hres; reflexivity | exact Hsel].
Defined.

(** ** CHANGE REFERENCE DATA on a card without private keys *)

Section NoPrivateKeys.
Context {X : Type} {C : Collaborators X}.

Lemma set_wld_same (s : card X) : set_wld s (wld s) = s.
Proof. destruct s; reflexivity. Qed.

Lemma same_but_calls_refl (s : card X) : same_but_calls s s.
Proof. repeat split. Qed.

Lemma same_but_calls_trans (s s' s'' : card X) :
  same_but_calls s s' -> same_but_calls s' s'' -> same_but_calls s s''.
Proof.
  unfold same_but_calls. intros (A & B & D & E & F) (A' & B' & D' & E' & F').
  repeat split; congruence.
Qed.

Lemma same_but_calls_record (c : call) (s : card X) :
  same_but_calls s (record_call c s).
Proof. repeat split. Qed.

Lemma load_prvkey_absent (kk : kind_of_key) (who : Z) (ks : list Z)
    (s : card X) :
  no_prvkeys (wld s) ->
  exists s', load_prvkey kk who ks s = (0, s') /\ same_but_calls s s'.
Proof.
  intros [Hload _]. unfold load_prvkey, ext_call. rewrite Hload.
  rewrite set_wld_same. eexists; split; [reflexivity|].
  apply same_but_calls_record.
Qed.

Lemma chks_prvkey_absent (kk : kind_of_key) (who_old : Z) (old_ks : list Z)
    (who_new : Z) (new_ks : list Z) (s : card X) :
  no_prvkeys (wld s) ->
  exists r s', chks_prvkey kk who_old old_ks who_new new_ks s = (r, s') /\
               (r <? 0) = false /\ same_but_calls s s'.
Proof.
  intros [_ Hchks]. unfold chks_prvkey, ext_call.
  destruct (Hchks kk who_old old_ks who_new new_ks) as (r & Hr & E).
  rewrite E, set_wld_same. exists r. eexists.
  split; [reflexivity|]. split; [lia|]. apply same_but_calls_record.
Qed.

Lemma no_prvkeys_same (s s' : card X) :
  same_but_calls s s' -> no_prvkeys (wld s) -> no_prvkeys (wld s').
Proof. intros (_ & _ & _ & _ & E). rewrite E. trivial. Qed.

(** Without private keys [gpg_change_keystring] returns 0 and changes
    nothing, whatever the keystrings are. *)
Lemma gpg_change_keystring_no_keys (who_old : Z) (old_ks : list Z)
    (who_new : Z) (new_ks : list Z) (s : card X) :
  no_prvkeys (wld s) ->
  exists s', gpg_change_keystring who_old old_ks who_new new_ks s = (0, s')
             /\ same_but_calls s s'.
Proof.
  intros H0. unfold gpg_change_keystring, gpg_change_keystring_body, bind.
  destruct (load_prvkey_absent GPG_KEY_FOR_SIGNING who_old old_ks s H0)
    as (s1 & E1 & S1).
  rewrite E1. cbn [Z.ltb Z.gtb Z.compare].
  pose proof (no_prvkeys_same _ _ S1 H0) as H1.
  destruct (chks_prvkey_absent GPG_KEY_FOR_SIGNING who_old old_ks
              who_new new_ks s1 H1) as (r2 & s2 & E2 & R2 & S2).
  rewrite E2, R2.
  pose proof (no_prvkeys_same _ _ S2 H1) as H2.
  destruct (load_prvkey_absent GPG_KEY_FOR_DECRYPTION who_old old_ks s2 H2)
    as (s3 & E3 & S3).
  rewrite E3. cbn [Z.ltb Z.gtb Z.compare].
  pose proof (no_prvkeys_same _ _ S3 H2) as H3.
  destruct (chks_prvkey_absent GPG_KEY_FOR_DECRYPTION who_old old_ks
              who_new new_ks s3 H3) as (r4 & s4 & E4 & R4 & S4).
  rewrite E4, R4.
  pose proof (no_prvkeys_same _ _ S4 H3) as H4.
  destruct (load_prvkey_absent GPG_KEY_FOR_AUTHENTICATION who_old old_ks
              s4 H4) as (s5 & E5 & S5).
  rewrite E5. cbn [Z.ltb Z.gtb Z.compare].
  pose proof (no_prvkeys_same _ _ S5 H4) as H5.
  destruct (chks_prvkey_absent GPG_KEY_FOR_AUTHENTICATION who_old old_ks
              who_new new_ks s5 H5) as (r6 & s6 & E6 & R6 & S6).
  rewrite E6, R6. cbn [Z.eqb negb ret].
  eexists; split; [reflexivity|].
  repeat (eapply same_but_calls_trans; [eassumption|]).
  apply same_but_calls_record.
Qed.

(** The length and the data that CHANGE REFERENCE DATA works on are
    those of the extended length decoder. *)
Lemma change_password_decode (cmd : list Z) :
  (if peek cmd 4 =? 0
   then (Z.lor (Z.shiftl (peek cmd 5) 8) (peek cmd 6),
         ptr_add (ptr_add cmd 5) 2)
   else (peek cmd 4, ptr_add cmd 5))
  = extended_length_decoder cmd.
Proof.
  unfold extended_length_decoder.
  rewrite ptr_add_ptr_add by lia. reflexivity.
Qed.

Lemma cmd_change_password_no_keys (s : card X) (lc : Z) (data : list Z) :
  no_prvkeys (wld s) ->
  peek (cmd_APDU s) 3 = 0x81 ->
  extended_length_decoder (cmd_APDU s) = (lc, data) ->
  expected_pw1_length (wld s) <= lc ->
  let n := expected_pw1_length (wld s) in
  let s' := snd (cmd_change_password s) in
  wld s' = pw1_installed (u8 (lc - n) :: sha1 (ptr_add data n) (lc - n))
                         (wld s) /\
  file_selection s' = file_selection s /\
  digital_signature_counter s' = digital_signature_counter s.
Proof.
  intros H0 Hp2 Hdec Hlen n s'. subst s' n.
  unfold cmd_change_password, bind, get_cmd_APDU.
  rewrite change_password_decode, Hdec, Hp2.
  change (129 - 128 =? BY_USER) with true. cbv iota.
  unfold read_simple, ext_ask, expected_pw1_length in *.
  destruct (gpg_do_read_simple NR_DO_KEYSTRING_PW1 (wld s)) as [pk|] eqn:Epk.
  - unfold ret.
    destruct (gpg_change_keystring_no_keys
                (129 - 128) (sha1 data (peek pk 0))
                (129 - 128) (sha1 (ptr_add data (peek pk 0))
                                  (lc - peek pk 0))
                (record_call
                   (Call_gpg_do_read_simple NR_DO_KEYSTRING_PW1 (Some pk))
                   s) H0)
      as (s1 & E1 & (_ & _ & Hsel & Hds & Hw)).
    rewrite E1.
    change (129 - 128 =? BY_USER) with true.
    cbn [Z.ltb Z.eqb Z.compare andb].
    unfold write_simple, reset_pso_cds, reset_pw_err_counter, ext_do,
      GPG_SUCCESS, write_res_apdu, pw1_installed.
    cbn [snd fst wld set_wld record_call file_selection
         digital_signature_counter Z.eqb res_APDU Z.add].
    rewrite Hw, Hsel, Hds. repeat split.
  - apply Z.ltb_ge in Hlen. rewrite Hlen. unfold ret.
    destruct (gpg_change_keystring_no_keys
                (129 - 128)
                (sha1 data (strlen OPENPGP_CARD_INITIAL_PW1))
                (129 - 128)
                (sha1 (ptr_add data (strlen OPENPGP_CARD_INITIAL_PW1))
                      (lc - strlen OPENPGP_CARD_INITIAL_PW1))
                (record_call
                   (Call_gpg_do_read_simple NR_DO_KEYSTRING_PW1 None)
                   s) H0)
      as (s1 & E1 & (_ & _ & Hsel & Hds & Hw)).
    rewrite E1.
    change (129 - 128 =? BY_USER) with true.
    cbn [Z.ltb Z.eqb Z.compare andb].
    unfold write_simple, reset_pso_cds, reset_pw_err_counter, ext_do,
      GPG_SUCCESS, write_res_apdu, pw1_installed.
    cbn [snd fst wld set_wld record_call file_selection
         digital_signature_counter Z.eqb res_APDU Z.add].
    rewrite Hw, Hsel, Hds. repeat split.
Qed.
End NoPrivateKeys.

(** C10.  On a card without private keys, two CHANGE REFERENCE DATA
    commands for PW1 (P2 = 0x81) with the same Lc and the same new PIN, Lc
    being no less than the expected length of the old PIN, end in the same
    state whatever their old PIN bytes are: the answer is 90 00 and the PW1
    record is the one of the new PIN, [len | SHA1 (new PIN)]. *)
Theorem change_pw1_without_keys_ignores_old_pin :
  forall (X : Type) (C : Collaborators X) (s1 s2 : card X)
         (lc : Z) (data1 data2 : list Z),
    wld s1 = wld s2 ->
    no_prvkeys (wld s1) ->
    peek (cmd_APDU s1) 3 = 0x81 ->
    peek (cmd_APDU s2) 3 = 0x81 ->
    extended_length_decoder (cmd_APDU s1) = (lc, data1) ->
    extended_length_decoder (cmd_APDU s2) = (lc, data2) ->
    expected_pw1_length (wld s1) <= lc ->
    ptr_add data1 (expected_pw1_length (wld s1))
      = ptr_add data2 (expected_pw1_length (wld s1)) ->
    let n := expected_pw1_length (wld s1) in
    let s1' := snd (cmd_change_password s1) in
    let s2' := snd (cmd_change_password s2) in
    wld s1' = wld s2' /\
    response s1' = [0x90; 0x00] /\
    response s2' = [0x90; 0x00] /\
    gpg_do_read_simple NR_DO_KEYSTRING_PW1 (wld s1')
      = Some (firstn 21 (u8 (lc - n) :: sha1 (ptr_add data1 n) (lc - n))) /\
    file_selection s1' = file_selection s1 /\
    file_selection s2' = file_selection s2.
Proof.
  intros X C s1 s2 lc data1 data2 Hw H0 Hp1 Hp2 Hd1 Hd2 Hlen Hnew n s1' s2'.
  destruct (cmd_change_password_no_keys s1 lc data1 H0 Hp1 Hd1 Hlen)
    as (W1 & F1 & _).
  assert (H0' : no_prvkeys (wld s2)) by (rewrite <- Hw; exact H0).
  assert (Hlen' : expected_pw1_length (wld s2) <= lc)
    by (rewrite <- Hw; exact Hlen).
  destruct (cmd_change_password_no_keys s2 lc data2 H0' Hp2 Hd2 Hlen')
    as (W2 & F2 & _).
  fold s1' in W1, F1. fold s2' in W2, F2.
  rewrite <- Hw in W2. rewrite <- Hnew in W2. fold n in W1, W2.
  assert (R : forall (a : list Z) (w : world X),
             firstn (Z.to_nat (res_APDU_size (pw1_installed a w)))
                    (res_APDU (pw1_installed a w)) = [0x90; 0x00]).
  { intros a w. unfold pw1_installed; simpl.
    destruct (res_APDU w) as [|x [|y r]]; reflexivity. }
  unfold response. rewrite W1, W2.
  repeat split; try apply R; assumption.
Qed.

Lemma factory_card_has_no_prvkeys : no_prvkeys factory_world.
Proof.
  split.
  - intros kk who ks. reflexivity.
  - intros kk who_old old_ks who_new new_ks. exists 0. split; [lia|].
    reflexivity.
Qed.

(** Scenario A of the spec on the reference card, and the same command
    with "000000" in the place of the factory PW1: both are accepted and
    install the keystring of "newpw1". *)
Lemma change_pw1_without_keys_ignores_old_pin_witness :
  let s1 := transport_delivers change_pw1 17 factory_card in
  let s2 := transport_delivers change_pw1_wrong_old 17 factory_card in
  (wld s1 = wld s2 /\ no_prvkeys (wld s1) /\
   peek (cmd_APDU s1) 3 = 0x81 /\ peek (cmd_APDU s2) 3 = 0x81 /\
   fst (extended_length_decoder (cmd_APDU s1)) = 12 /\
   fst (extended_length_decoder (cmd_APDU s2)) = 12 /\
   expected_pw1_length (wld s1) = 6 /\
   cmd_APDU s1 <> cmd_APDU s2) /\
  wld (snd (cmd_change_password s1)) = wld (snd (cmd_change_password s2)) /\
  response (snd (cmd_change_password s1)) = [0x90; 0x00] /\
  response (snd (cmd_change_password s2)) = [0x90; 0x00] /\
  do_simple (wld (snd (cmd_change_password s1))) NR_DO_KEYSTRING_PW1
    = Some (6 :: ref_sha1 [0x6e; 0x65; 0x77; 0x70; 0x77; 0x31] 6).
Proof.
  intros s1 s2.
  split.
  { repeat split; try evaluate. apply factory_card_has_no_prvkeys. }
  destruct (change_pw1_without_keys_ignores_old_pin refx collaborators s1 s2
              12 (ptr_add change_pw1 5) (ptr_add change_pw1_wrong_old 5))
    as (Hw & Hr1 & Hr2 & Hdo & _);
    try evaluate; try apply factory_card_has_no_prvkeys;
    try (vm_compute; discriminate).
  split; [exact Hw|]. split; [exact Hr1|]. split; [exact Hr2|].
  unfold gpg_do_read_simple in Hdo. rewrite Hdo. reflexivity.
Defined.

(** ** The digital signature counter *)

Section SignatureCounter.
Context {X : Type} {C : Collaborators X}.

Lemma keeps_ret {A : Type} (a : A) : keeps_counter (ret a : M X A).
Proof. intro s; reflexivity. Qed.

Lemma keeps_bind {A B : Type} (m : M X A) (k : A -> M X B) :
  keeps_counter m -> (forall a, keeps_counter (k a)) ->
  keeps_counter (bind m k).
Proof.
  intros Hm Hk s. unfold bind. specialize (Hm s).
  destruct (m s) as [a s1]. cbn [snd] in Hm. rewrite <- Hm. apply Hk.
Qed.

Lemma keeps_ext_call {A : Type} (ev : A -> call)
    (f : world X -> A * world X) : keeps_counter (ext_call ev f).
Proof. intro s. unfold ext_call. destruct (f (wld s)). reflexivity. Qed.

Lemma keeps_ext_do (ev : call) (f : world X -> world X) :
  keeps_counter (ext_do ev f).
Proof. intro s; reflexivity. Qed.

Lemma keeps_ext_ask {A : Type} (ev : A -> call) (f : world X -> A) :
  keeps_counter (ext_ask ev f).
Proof. intro s; reflexivity. Qed.

Lemma keeps_global {A : Type} (f : X -> A) : keeps_counter (global f).
Proof. intro s; reflexivity. Qed.

Lemma keeps_write_res_apdu (p : list Z) (len sw1 sw2 : Z) :
  keeps_counter (write_res_apdu (X := X) p len sw1 sw2).
Proof. intro s; reflexivity. Qed.

Lemma keeps_set_file_selection (f : Z) :
  keeps_counter (set_file_selection (X := X) f).
Proof. intro s; reflexivity. Qed.
End SignatureCounter.

Create HintDb keeps.

#[local] Hint Resolve keeps_ret keeps_ext_call keeps_ext_do keeps_ext_ask
  keeps_global keeps_write_res_apdu keeps_set_file_selection : keeps.

(** Goes through a handler along its structure. *)
Ltac keeps_step :=
  match goal with
  | |- keeps_counter (bind _ _) => apply keeps_bind; [|intros]
  | |- keeps_counter (if ?b then _ else _) => destruct b
  | |- keeps_counter (match ?x with _ => _ end) => destruct x
  | |- keeps_counter _ => solve [auto with keeps]
  | |- keeps_counter _ => solve [intro; reflexivity]
  end.

Ltac keeps := repeat keeps_step.

Section SignatureCounterHandlers.
Context {X : Type} {C : Collaborators X}.

Lemma keeps_cmd_verify : keeps_counter cmd_verify.
Proof.
  unfold cmd_verify, GPG_SECURITY_FAILURE, GPG_SECURITY_AUTH_BLOCKED,
    GPG_SUCCESS, get_cmd_APDU.
  keeps.
Qed.

Lemma keeps_gpg_change_keystring who_old old_ks who_new new_ks :
  keeps_counter (gpg_change_keystring who_old old_ks who_new new_ks).
Proof.
  unfold gpg_change_keystring, gpg_change_keystring_body, load_prvkey,
    chks_prvkey.
  keeps.
Qed.

Lemma keeps_cmd_change_password : keeps_counter cmd_change_password.
Proof.
  pose proof keeps_gpg_change_keystring.
  unfold cmd_change_password, read_simple, write_simple, reset_pso_cds,
    reset_pw_err_counter, GPG_SECURITY_FAILURE, GPG_SECURITY_AUTH_BLOCKED,
    GPG_MEMORY_FAILURE, GPG_SUCCESS, get_cmd_APDU, skip.
  keeps.
Qed.

Lemma keeps_cmd_reset_user_password :
  keeps_counter cmd_reset_user_password.
Proof.
  pose proof keeps_gpg_change_keystring.
  unfold cmd_reset_user_password, read_simple, write_simple, reset_pso_cds,
    reset_pw_err_counter, increment_pw_err_counter, passwd_locked,
    check_status, GPG_SECURITY_FAILURE, GPG_SECURITY_AUTH_BLOCKED,
    GPG_MEMORY_FAILURE, GPG_SUCCESS, get_cmd_APDU.
  keeps.
Qed.

Lemma keeps_cmd_put_data : keeps_counter cmd_put_data.
Proof.
  unfold cmd_put_data, GPG_NO_RECORD, get_cmd_APDU, get_cmd_APDU_size,
    get_file_selection, skip.
  keeps.
Qed.

Lemma keeps_cmd_get_data : keeps_counter cmd_get_data.
Proof.
  unfold cmd_get_data, GPG_NO_RECORD, get_cmd_APDU, get_file_selection,
    skip.
  keeps.
Qed.

Lemma keeps_cmd_pgp_gakp : keeps_counter cmd_pgp_gakp.
Proof.
  unfold cmd_pgp_gakp, check_status, GPG_SECURITY_FAILURE, GPG_ERROR,
    get_cmd_APDU, skip.
  keeps.
Qed.

Lemma keeps_cmd_read_binary : keeps_counter cmd_read_binary.
Proof.
  unfold cmd_read_binary, GPG_BAD_P0_P1, GPG_NO_RECORD, get_cmd_APDU,
    get_file_selection.
  keeps.
Qed.

Lemma keeps_cmd_select_file : keeps_counter cmd_select_file.
Proof.
  unfold cmd_select_file, GPG_SUCCESS, GPG_NO_FILE, get_cmd_APDU.
  keeps.
Qed.

Lemma keeps_cmd_internal_authenticate :
  keeps_counter cmd_internal_authenticate.
Proof.
  unfold cmd_internal_authenticate, pw1_locked_or_not_authorized,
    passwd_locked, check_status, load_prvkey, increment_pw_err_counter,
    reset_pw_err_counter, reset_pso_other, GPG_SECURITY_FAILURE, GPG_ERROR,
    get_cmd_APDU, skip.
  keeps.
Qed.

Lemma keeps_apply {A : Type} (m : M X A) (s : card X) :
  keeps_counter m ->
  digital_signature_counter (snd (m s)) = digital_signature_counter s.
Proof. intro H; apply H. Qed.

End SignatureCounterHandlers.


Section SignatureCounterSession.
Context {X : Type} {C : Collaborators X}.

Lemma GPGthread_app (before later : list (list Z * Z)) (s : card X) :
  GPGthread (before ++ later) s = GPGthread later (GPGthread before s).
Proof. unfold GPGthread. apply fold_left_app. Qed.
End SignatureCounterSession.

(** ** Scenarios of section 8 of the spec on the reference card *)

(** Scenario B: three VERIFY commands with a wrong PW1 are answered 69 82,
    the fourth 69 83; scenario E: an unknown instruction is answered
    6D 00. *)
Example blocking_pw1_and_unknown_instruction :
  map (fun n => response (run (repeat verify_pw1_wrong n) factory_card))
      [1; 2; 3; 4]%nat
    = [[0x69; 0x82]; [0x69; 0x82]; [0x69; 0x82]; [0x69; 0x83]] /\
  response (run [verify_pw1_wrong; verify_pw1_wrong; verify_pw1_wrong;
                 verify_pw1] factory_card) = [0x69; 0x83] /\
  response (run [verify_pw1] factory_card) = [0x90; 0x00] /\
  response (run [verify_pw1_extended] factory_card) = [0x90; 0x00] /\
  response (run [[0x00; 0x11; 0x00; 0x00; 0x00]] factory_card)
    = [0x6d; 0x00].
Proof. repeat split. Qed.

(** * Further properties of [debug.c] and [openpgp.c] *)

Import MoreExamples.

(** ** The debug output *)

Lemma hex_digit_of_nibble (n : Z) :
  0 <= n < 16 ->
  exists c, (forall out, Debug.put_hex n out = out ++ [c]) /\
            Debug.hex_value c = Some n.
Proof.
  intros Hn. unfold Debug.put_hex, Debug._write, u8.
  rewrite (Z.mod_small n 256) by lia.
  destruct (n <? 10) eqn:E.
  - apply Z.ltb_lt in E. exists (48 + n).
    rewrite Z.mod_small by lia. split; [reflexivity|].
    unfold Debug.hex_value.
    replace (48 <=? 48 + n) with true by (symmetry; apply Z.leb_le; lia).
    replace (48 + n <=? 57) with true by (symmetry; apply Z.leb_le; lia).
    cbn [andb]. f_equal. lia.
  - apply Z.ltb_ge in E. exists (97 + n - 10).
    rewrite Z.mod_small by lia. split; [reflexivity|].
    unfold Debug.hex_value.
    replace (48 <=? 97 + n - 10) with true by (symmetry; apply Z.leb_le; lia).
    replace (97 + n - 10 <=? 57) with false by (symmetry; apply Z.leb_gt; lia).
    replace (97 <=? 97 + n - 10) with true by (symmetry; apply Z.leb_le; lia).
    replace (97 + n - 10 <=? 102) with true by (symmetry; apply Z.leb_le; lia).
    cbn [andb]. f_equal. lia.
Qed.

Lemma nibble_bounds (x : Z) (k : Z) :
  0 <= x -> 0 <= k -> 0 <= Z.land (Z.shiftr x k) 0x0f < 16.
Proof.
  intros Hx Hk. change 0x0f with (Z.ones 4).
  rewrite Z.land_ones by lia. apply Z.mod_pos_bound. lia.
Qed.

Lemma nibble_value (x : Z) (k : Z) :
  0 <= k -> Z.land (Z.shiftr x k) 0x0f = (x / 2 ^ k) mod 16.
Proof.
  intros Hk. change 0x0f with (Z.ones 4).
  rewrite Z.land_ones by lia. rewrite Z.shiftr_div_pow2 by lia. reflexivity.
Qed.

(** The two digits of a byte. *)
Lemma byte_digits (b : Z) :
  exists hi lo : Z,
    (forall out, Debug.put_hex (Z.shiftr (u8 b) 4) out = out ++ [hi]) /\
    (forall out, Debug.put_hex (Z.land (u8 b) 0x0f) out = out ++ [lo]) /\
    Debug.hex_value hi = Some ((b mod 256) / 16) /\
    Debug.hex_value lo = Some (b mod 16) /\
    Debug.hex_number 0 [hi; lo] = Some (b mod 256).
Proof.
  assert (Hb : 0 <= u8 b < 256) by (apply Z.mod_pos_bound; lia).
  assert (Hhi : 0 <= Z.shiftr (u8 b) 4 < 16).
  { rewrite Z.shiftr_div_pow2 by lia. change (2 ^ 4) with 16.
    split; [apply Z.div_pos; lia | apply Z.div_lt_upper_bound; lia]. }
  destruct (hex_digit_of_nibble _ Hhi) as (hi & Ehi & Vhi).
  pose proof (nibble_bounds (u8 b) 0 (proj1 Hb) (Z.le_refl 0)) as Hlo.
  rewrite Z.shiftr_0_r in Hlo.
  destruct (hex_digit_of_nibble _ Hlo) as (lo & Elo & Vlo).
  exists hi, lo.
  split; [exact Ehi|]. split; [exact Elo|].
  assert (V1 : Z.shiftr (u8 b) 4 = (b mod 256) / 16).
  { rewrite Z.shiftr_div_pow2 by lia. reflexivity. }
  assert (V2 : Z.land (u8 b) 15 = b mod 16).
  { change 15 with (Z.ones 4). rewrite Z.land_ones by lia. unfold u8.
    change (2 ^ 4) with 16. apply Z.mod_mod_divide. exists 16. reflexivity. }
  rewrite V1 in Vhi. rewrite V2 in Vlo.
  split; [exact Vhi|]. split; [exact Vlo|].
  cbn [Debug.hex_number]. rewrite Vhi, Vlo. f_equal.
  assert (M : (b mod 256) mod 16 = b mod 16)
    by (apply Z.mod_mod_divide; exists 16; reflexivity).
  Z.to_euclidean_division_equations. lia.
Qed.

(** X1.  [put_byte] writes four characters: two hexadecimal digits in
    lower case, the high nibble first, and CR LF; read as a hexadecimal
    number the digits give the byte back. *)
Theorem put_byte_round_trip :
  forall (b : Z) (out : list Z),
  exists hi lo : Z,
    Debug.put_byte b out = out ++ [hi; lo; 0x0d; 0x0a] /\
    Debug.hex_value hi = Some ((b mod 256) / 16) /\
    Debug.hex_value lo = Some (b mod 16) /\
    Debug.hex_number 0 [hi; lo] = Some (b mod 256).
Proof.
  intros b out. destruct (byte_digits b) as (hi & lo & Ehi & Elo & V).
  exists hi, lo. split; [|exact V].
  unfold Debug.put_byte. rewrite Ehi, Elo. unfold Debug._write.
  rewrite <- !app_assoc. reflexivity.
Qed.

(** X2.  [put_short] writes six characters: four hexadecimal digits in
    lower case, the most significant first, and CR LF; read as a
    hexadecimal number the digits give the 16 bit value back. *)
Theorem put_short_round_trip :
  forall (x : Z) (out : list Z),
  exists d3 d2 d1 d0 : Z,
    Debug.put_short x out = out ++ [d3; d2; d1; d0; 0x0d; 0x0a] /\
    Debug.hex_number 0 [d3; d2; d1; d0] = Some (x mod 65536).
Proof.
  intros x out. unfold Debug.put_short.
  assert (Hx : 0 <= u16 x < 65536) by (apply Z.mod_pos_bound; lia).
  fold (u16 x). set (y := u16 x) in *.
  assert (H3 : 0 <= Z.shiftr y 12 < 16).
  { rewrite Z.shiftr_div_pow2 by lia. change (2 ^ 12) with 4096.
    split; [apply Z.div_pos; lia | apply Z.div_lt_upper_bound; lia]. }
  destruct (hex_digit_of_nibble _ H3) as (d3 & E3 & V3).
  pose proof (nibble_bounds y 8 (proj1 Hx) ltac:(lia)) as H2.
  destruct (hex_digit_of_nibble _ H2) as (d2 & E2 & V2).
  pose proof (nibble_bounds y 4 (proj1 Hx) ltac:(lia)) as H1.
  destruct (hex_digit_of_nibble _ H1) as (d1 & E1 & V1).
  pose proof (nibble_bounds y 0 (proj1 Hx) ltac:(lia)) as H0.
  rewrite Z.shiftr_0_r in H0.
  destruct (hex_digit_of_nibble _ H0) as (d0 & E0 & V0).
  exists d3, d2, d1, d0. rewrite E3, E2, E1, E0. unfold Debug._write.
  rewrite <- !app_assoc. split; [reflexivity|].
  cbn [Debug.hex_number]. rewrite V3, V2, V1, V0. f_equal.
  rewrite !nibble_value by lia.
  change 15 with (Z.ones 4). rewrite Z.land_ones by lia.
  rewrite Z.shiftr_div_pow2 by lia.
  change (2 ^ 12) with 4096. change (2 ^ 8) with 256.
  change (2 ^ 4) with 16.
  Z.to_euclidean_division_equations. lia.
Qed.

(** X3.  [put_byte_with_no_nl] writes a space and the two hexadecimal
    digits that [put_byte] writes, and no line end. *)
Theorem put_byte_with_no_nl_digits :
  forall (b : Z) (out : list Z),
  exists hi lo : Z,
    Debug.put_byte_with_no_nl b out = out ++ [0x20; hi; lo] /\
    Debug.put_byte b out = out ++ [hi; lo; 0x0d; 0x0a] /\
    Debug.hex_number 0 [hi; lo] = Some (b mod 256).
Proof.
  intros b out. destruct (byte_digits b) as (hi & lo & Ehi & Elo & _ & _ & N).
  exists hi, lo.
  unfold Debug.put_byte_with_no_nl, Debug.put_byte.
  rewrite !Ehi, !Elo. unfold Debug._write. rewrite <- !app_assoc.
  split; [reflexivity|]. split; [reflexivity | exact N].
Qed.

(** X4.  [put_string] writes the characters of a string up to, and not
    including, its terminating zero byte; what follows the zero byte in
    memory is not written. *)
Theorem put_string_stops_at_nul :
  forall (s rest out : list Z),
    forallb (fun c => negb (c =? 0)) s = true ->
    Debug.put_string (s ++ 0 :: rest) out = out ++ s.
Proof.
  intros s rest out Hs. unfold Debug.put_string, Debug._write. f_equal.
  induction s as [|c s IH]; [reflexivity|].
  cbn [forallb] in Hs. apply andb_true_iff in Hs. destruct Hs as [Hc Hs].
  cbn [app Debug.c_strlen]. apply negb_true_iff in Hc. rewrite Hc.
  assert (Hpos : forall l, 0 <= Debug.c_strlen l).
  { clear. induction l as [|d l IH]; cbn [Debug.c_strlen]; [lia|].
    destruct (d =? 0); lia. }
  specialize (Hpos (s ++ 0 :: rest)).
  replace (Z.to_nat (1 + Debug.c_strlen (s ++ 0 :: rest)))
    with (S (Z.to_nat (Debug.c_strlen (s ++ 0 :: rest)))) by lia.
  cbn [firstn]. f_equal. apply IH. exact Hs.
Qed.

(** The string "GPG!: " of [GPGthread], as it lies in memory. *)
Lemma put_string_stops_at_nul_witness :
  forallb (fun c => negb (c =? 0)) [0x47; 0x50; 0x47; 0x21; 0x3a; 0x20] = true
  /\ Debug.put_string ([0x47; 0x50; 0x47; 0x21; 0x3a; 0x20] ++ 0 :: [0x55])
                       [0x0d; 0x0a]
     = [0x0d; 0x0a] ++ [0x47; 0x50; 0x47; 0x21; 0x3a; 0x20].
Proof.
  split; [reflexivity|].
  apply (put_string_stops_at_nul [0x47; 0x50; 0x47; 0x21; 0x3a; 0x20]).
  reflexivity.
Defined.

(** ** The response buffer *)

Lemma poke_nat_app (a b : list Z) (i : nat) (v : Z) :
  poke_nat (a ++ b) (length a + i) v = a ++ poke_nat b i v.
Proof.
  induction a as [|x a IH]; [reflexivity|].
  cbn [length Nat.add app poke_nat]. rewrite IH. reflexivity.
Qed.

Lemma poke_nat_head (b : list Z) (v : Z) : poke_nat b 0 v = v :: tl b.
Proof. destruct b; reflexivity. Qed.

Lemma memcpy_nat_app (a b src : list Z) (n : nat) :
  memcpy_nat (a ++ b) (length a) src n = a ++ memcpy_nat b 0 src n.
Proof.
  induction n as [|n IH]; [reflexivity|].
  cbn [memcpy_nat]. rewrite IH, poke_nat_app. reflexivity.
Qed.

Lemma firstn_S_nth (n : nat) (l : list Z) :
  (n < length l)%nat -> firstn (S n) l = firstn n l ++ [nth n l 0].
Proof.
  revert l. induction n as [|n IH]; intros [|x l] Hn; cbn [length] in Hn;
    try lia; [reflexivity|].
  cbn [firstn nth app]. cbn [firstn] in IH. rewrite IH by lia. reflexivity.
Qed.

Lemma skipn_S_tl (n : nat) (l : list Z) : skipn (S n) l = tl (skipn n l).
Proof.
  revert l. induction n as [|n IH]; intros [|x l]; try reflexivity.
  cbn [skipn] in *. apply IH.
Qed.

(** [memcpy] to the start of a buffer: the bytes copied, and what was
    behind them. *)
Lemma memcpy_nat_prefix (dst src : list Z) (n : nat) :
  (n <= length src)%nat ->
  memcpy_nat dst 0 src n = firstn n src ++ skipn n dst.
Proof.
  induction n as [|n IH]; intro Hn; [reflexivity|].
  cbn [memcpy_nat Nat.add]. rewrite IH by lia.
  assert (Hl : length (firstn n src) = n) by (apply firstn_length_le; lia).
  replace (poke_nat (firstn n src ++ skipn n dst) n (nth n src 0))
    with (poke_nat (firstn n src ++ skipn n dst)
                   (length (firstn n src) + 0) (nth n src 0))
    by (f_equal; lia).
  rewrite poke_nat_app, poke_nat_head, firstn_S_nth by lia.
  rewrite skipn_S_tl, <- app_assoc. reflexivity.
Qed.

(** Two bytes put behind a prefix of a buffer. *)
Lemma poke_two_behind (a b : list Z) (v1 v2 : Z) :
  firstn (length a + 2)
         (poke_nat (poke_nat (a ++ b) (length a) v1) (length a + 1) v2)
  = a ++ [v1; v2].
Proof.
  replace (poke_nat (a ++ b) (length a) v1)
    with (poke_nat (a ++ b) (length a + 0) v1) by (f_equal; lia).
  rewrite poke_nat_app, poke_nat_head.
  rewrite poke_nat_app. cbn [poke_nat].
  rewrite firstn_app.
  replace (length a + 2 - length a)%nat with 2%nat by lia.
  rewrite firstn_all2 by lia.
  destruct (tl b); reflexivity.
Qed.

(** X5.  [write_res_apdu (p, len, sw1, sw2)] leaves as the response the
    [len] bytes at [p] followed by the two status bytes, whatever the
    response buffer held before, and [res_APDU_size] is [len + 2].  The
    status bytes are those of the [uint8_t] parameters: of a value passed
    for [sw1] or [sw2] the low eight bits are stored. *)
Theorem write_res_apdu_response :
  forall (X : Type) (s : card X) (p : list Z) (len sw1 sw2 : Z),
  0 <= len <= Z.of_nat (length p) ->
  let s' := snd (write_res_apdu p len sw1 sw2 s) in
  response s' = firstn (Z.to_nat len) p ++ [sw1 mod 256; sw2 mod 256] /\
  res_APDU_size (wld s') = len + 2 /\
  peek (res_APDU (wld s')) (res_APDU_size (wld s') - 2) = sw1 mod 256 /\
  peek (res_APDU (wld s')) (res_APDU_size (wld s') - 1) = sw2 mod 256.
Proof.
  intros X s p len sw1 sw2 Hlen s'.
  assert (R : response s'
              = firstn (Z.to_nat len) p ++ [sw1 mod 256; sw2 mod 256]).
  { subst s'. unfold response, write_res_apdu, set_wld, set_res, poke, memcpy.
    cbn [snd wld res_APDU res_APDU_size].
    set (a := firstn (Z.to_nat len) p).
    assert (Ha : length a = Z.to_nat len)
      by (apply firstn_length_le; lia).
    assert (E : (if len =? 0 then res_APDU (wld s)
                 else memcpy_nat (res_APDU (wld s)) (Z.to_nat 0) p
                                 (Z.to_nat len))
                = a ++ skipn (Z.to_nat len) (res_APDU (wld s))).
    { destruct (Z.eqb_spec len 0) as [->|N].
      - reflexivity.
      - change (Z.to_nat 0) with 0%nat. apply memcpy_nat_prefix. lia. }
    rewrite E.
    replace (Z.to_nat (2 + len)) with (length a + 2)%nat by lia.
    replace (Z.to_nat (len + 1)) with (length a + 1)%nat by lia.
    rewrite <- Ha. apply poke_two_behind. }
  split; [exact R|].
  split; [change (res_APDU_size (wld s')) with (2 + len); lia|].
  assert (Hsz : res_APDU_size (wld s') = 2 + len) by reflexivity.
  set (a := firstn (Z.to_nat len) p) in *.
  assert (Ha : length a = Z.to_nat len) by (apply firstn_length_le; lia).
  assert (N : forall i, (i < Z.to_nat (2 + len))%nat ->
                        nth i (res_APDU (wld s')) 0
                        = nth i (a ++ [sw1 mod 256; sw2 mod 256]) 0).
  { intros i Hi. rewrite <- R. unfold response. rewrite Hsz, nth_firstn.
    apply Nat.ltb_lt in Hi. rewrite Hi. reflexivity. }
  rewrite Hsz. unfold peek.
  split.
  - rewrite N by lia. rewrite app_nth2 by lia.
    replace (Z.to_nat (2 + len - 2) - length a)%nat with 0%nat by lia.
    reflexivity.
  - rewrite N by lia. rewrite app_nth2 by lia.
    replace (Z.to_nat (2 + len - 1) - length a)%nat with 1%nat by lia.
    reflexivity.
Qed.

(** Status bytes given as 0x190 and 0x1ff are stored as 90 FF. *)
Lemma write_res_apdu_response_witness :
  let s' := snd (write_res_apdu [0xd2; 0x76; 0x00] 2 0x190 0x1ff
                                (after get_data_5e factory_card)) in
  response s' = [0xd2; 0x76; 0x90; 0xff] /\
  res_APDU_size (wld s') = 4 /\
  peek (res_APDU (wld s')) (res_APDU_size (wld s') - 2) = 0x90 /\
  peek (res_APDU (wld s')) (res_APDU_size (wld s') - 1) = 0xff.
Proof.
  apply (write_res_apdu_response refx (after get_data_5e factory_card)
           [0xd2; 0x76; 0x00] 2 0x190 0x1ff).
  cbn. lia.
Defined.

(** ** READ BINARY *)

(** The response buffer after the copy of the AID in [cmd_read_binary]. *)
Lemma read_binary_buffer (res aid : list Z) :
  0 <= peek aid 0 <= Z.of_nat (length aid) ->
  firstn (Z.to_nat (peek aid 0 + 3))
         (poke (poke (memcpy (poke res 0 0x5a) 1 aid (peek aid 0))
                     (peek aid 0 + 1) 0x90)
               (peek aid 0 + 2) 0x00)
  = 0x5a :: firstn (Z.to_nat (peek aid 0)) aid ++ [0x90; 0x00].
Proof.
  intros Hlen. unfold poke, memcpy.
  set (n := Z.to_nat (peek aid 0)).
  change (Z.to_nat 0) with 0%nat. change (Z.to_nat 1) with 1%nat.
  rewrite poke_nat_head.
  change (0x5a :: tl res) with ([0x5a] ++ tl res).
  change 1%nat with (length [0x5a]).
  rewrite memcpy_nat_app, memcpy_nat_prefix by lia.
  set (a := 0x5a :: firstn n aid).
  assert (Ha : length a = S n).
  { unfold a. cbn [length]. rewrite firstn_length_le by lia. reflexivity. }
  change ([0x5a] ++ firstn n aid ++ skipn n (tl res))
    with (a ++ skipn n (tl res)).
  replace (Z.to_nat (peek aid 0 + 3)) with (length a + 2)%nat by lia.
  replace (Z.to_nat (peek aid 0 + 1)) with (length a) by lia.
  replace (Z.to_nat (peek aid 0 + 2)) with (length a + 1)%nat by lia.
  rewrite poke_two_behind. reflexivity.
Qed.

(** X6.  READ BINARY answers 6A 88 unless EF-SERIAL is selected, and
    6B 00 when P2 is 6 or more; otherwise the response is the tag 5A, the
    first [openpgpcard_aid[0]] bytes of [openpgpcard_aid] (its length byte
    among them) and 90 00, the same for every P2 below 6.  No other part
    of the card changes and no call is made. *)
Theorem cmd_read_binary_response :
  forall (X : Type) (C : Collaborators X) (s : card X),
  0 <= peek openpgpcard_aid 0 <= Z.of_nat (length openpgpcard_aid) ->
  let s' := snd (cmd_read_binary s) in
  response s' =
    (if negb (file_selection s =? FILE_EF_SERIAL) then [0x6a; 0x88]
     else if peek (cmd_APDU s) 3 >=? 6 then [0x6b; 0x00]
     else 0x5a :: firstn (Z.to_nat (peek openpgpcard_aid 0)) openpgpcard_aid
               ++ [0x90; 0x00]) /\
  calls s' = calls s /\
  file_selection s' = file_selection s /\
  auth_status (wld s') = auth_status (wld s) /\
  pw_err_counter (wld s') = pw_err_counter (wld s) /\
  do_simple (wld s') = do_simple (wld s) /\
  ext (wld s') = ext (wld s).
Proof.
  intros X C s Hlen s'. subst s'.
  unfold cmd_read_binary, bind, get_cmd_APDU, get_file_selection.
  destruct (file_selection s =? FILE_EF_SERIAL); cbn [negb];
    [destruct (peek (cmd_APDU s) 3 >=? 6)|];
    try (unfold GPG_BAD_P0_P1, GPG_NO_RECORD;
         rewrite write_status_response; repeat split).
  split; [|repeat split].
  apply read_binary_buffer. exact Hlen.
Qed.

(** READ BINARY on the reference card with EF-SERIAL selected. *)
Lemma cmd_read_binary_response_witness :
  let s := transport_delivers read_binary 5
             (after select_ef_serial factory_card) in
  0 <= peek openpgpcard_aid 0 <= Z.of_nat (length openpgpcard_aid) /\
  response (snd (cmd_read_binary s))
    = [0x5a; 0x06; 0xd2; 0x76; 0x00; 0x01; 0x24; 0x90; 0x00].
Proof.
  intro s. split; [vm_compute; split; discriminate|].
  destruct (cmd_read_binary_response refx collaborators s) as (R & _).
  { vm_compute; split; discriminate. }
  rewrite R. reflexivity.
Defined.

(** ** Handlers that respect a relation between cards *)

Section Respects.
Context {X : Type} (R : card X -> card X -> Prop).
Hypothesis R_refl : forall s, R s s.
Hypothesis R_trans : forall s s' s'', R s s' -> R s' s'' -> R s s''.

Lemma respects_ret {A : Type} (a : A) : respects R (ret a).
Proof. intro s. apply R_refl. Qed.

Lemma respects_bind {A B : Type} (m : M X A) (k : A -> M X B) :
  respects R m -> (forall a, respects R (k a)) -> respects R (bind m k).
Proof.
  intros Hm Hk s. unfold bind. specialize (Hm s).
  destruct (m s) as [a s1]. cbn [snd] in Hm.
  apply (R_trans _ _ _ Hm). apply Hk.
Qed.
End Respects.

Lemma adds_calls_refl {X : Type} (ok : call -> bool) (s : card X) :
  adds_calls ok s s.
Proof. exists []. split; [symmetry; apply app_nil_r | reflexivity]. Qed.

Lemma adds_calls_trans {X : Type} (ok : call -> bool) (s s' s'' : card X) :
  adds_calls ok s s' -> adds_calls ok s' s'' -> adds_calls ok s s''.
Proof.
  intros (l & E & H) (l' & E' & H'). exists (l ++ l').
  split; [rewrite E', E, app_assoc; reflexivity|].
  rewrite forallb_app, H, H'. reflexivity.
Qed.

Lemma same_selection_refl {X : Type} (s : card X) : same_selection s s.
Proof. reflexivity. Qed.

Lemma same_selection_trans {X : Type} (s s' s'' : card X) :
  same_selection s s' -> same_selection s' s'' -> same_selection s s''.
Proof. unfold same_selection. congruence. Qed.

Lemma selection_bind {X A B : Type} (m : M X A) (k : A -> M X B) :
  respects same_selection m -> (forall a, respects same_selection (k a)) ->
  respects same_selection (bind m k).
Proof.
  intros Hm Hk. apply (respects_bind same_selection); try assumption.
  exact same_selection_trans.
Qed.

Lemma calls_bind {X A B : Type} (ok : call -> bool) (m : M X A)
    (k : A -> M X B) :
  respects (adds_calls ok) m -> (forall a, respects (adds_calls ok) (k a)) ->
  respects (adds_calls ok) (bind m k).
Proof.
  intros Hm Hk. apply (respects_bind (adds_calls ok)); try assumption.
  exact (adds_calls_trans ok).
Qed.

(** Takes the calls of the collaborators in the goal apart. *)
Ltac open_calls :=
  unfold ext_call, ext_do, ext_ask, global, ret, skip, write_res_apdu,
    get_cmd_APDU, get_cmd_APDU_size, get_file_selection,
    gpg_increment_digital_signature_counter;
  repeat match goal with
         | |- context [let (_, _) := ?p in _] => destruct p
         end;
  cbn [fst snd calls file_selection wld record_call set_wld].

(** A step of a handler that leaves the file selection alone. *)
Ltac selection_leaf := intro; unfold same_selection; open_calls; reflexivity.

(** A step of a handler that adds no call, or one that is allowed. *)
Ltac calls_leaf :=
  intro; unfold adds_calls; open_calls;
  first [ exists []; split; [symmetry; apply app_nil_r | reflexivity]
        | eexists; split; reflexivity ].

Ltac open_handler :=
  unfold GPG_MEMORY_FAILURE, GPG_SECURITY_FAILURE, GPG_SECURITY_AUTH_BLOCKED,
    GPG_NO_FILE, GPG_NO_RECORD, GPG_BAD_P0_P1, GPG_NO_INS, GPG_ERROR,
    GPG_SUCCESS, read_simple, write_simple, reset_pso_cds, reset_pso_other,
    check_status, passwd_locked, increment_pw_err_counter,
    reset_pw_err_counter, load_prvkey, chks_prvkey.

(** Goes through a handler along its structure. *)
Ltac keeps_selection :=
  open_handler;
  repeat match goal with
         | |- respects _ (bind _ _) => apply selection_bind; [|intros]
         | |- respects _ (if ?b then _ else _) => destruct b
         | |- respects _ (match ?x with _ => _ end) => destruct x
         | |- respects _ _ => solve [auto | selection_leaf]
         end.

Ltac adds_only :=
  open_handler;
  repeat match goal with
         | |- respects _ (bind _ _) => apply calls_bind; [|intros]
         | |- respects _ (if ?b then _ else _) => destruct b
         | |- respects _ (match ?x with _ => _ end) => destruct x
         | |- respects _ _ => solve [auto | calls_leaf]
         end.

Section SelectionKept.
Context {X : Type} {C : Collaborators X}.

Lemma selection_cmd_verify : respects same_selection cmd_verify.
Proof. unfold cmd_verify. keeps_selection. Qed.

Lemma selection_gpg_change_keystring who_old old_ks who_new new_ks :
  respects same_selection
           (gpg_change_keystring who_old old_ks who_new new_ks).
Proof.
  unfold gpg_change_keystring, gpg_change_keystring_body. keeps_selection.
Qed.

Lemma selection_cmd_change_password :
  respects same_selection cmd_change_password.
Proof.
  pose proof selection_gpg_change_keystring.
  unfold cmd_change_password. keeps_selection.
Qed.

Lemma selection_cmd_reset_user_password :
  respects same_selection cmd_reset_user_password.
Proof.
  pose proof selection_gpg_change_keystring.
  unfold cmd_reset_user_password. keeps_selection.
Qed.

Lemma selection_cmd_put_data : respects same_selection cmd_put_data.
Proof. unfold cmd_put_data. keeps_selection. Qed.

Lemma selection_cmd_get_data : respects same_selection cmd_get_data.
Proof. unfold cmd_get_data. keeps_selection. Qed.

Lemma selection_cmd_pgp_gakp : respects same_selection cmd_pgp_gakp.
Proof. unfold cmd_pgp_gakp. keeps_selection. Qed.

Lemma selection_cmd_read_binary : respects same_selection cmd_read_binary.
Proof. unfold cmd_read_binary. keeps_selection. Qed.

Lemma selection_cmd_pso : respects same_selection cmd_pso.
Proof. unfold cmd_pso, pw1_locked_or_not_authorized. keeps_selection. Qed.

Lemma selection_cmd_internal_authenticate :
  respects same_selection cmd_internal_authenticate.
Proof.
  unfold cmd_internal_authenticate, pw1_locked_or_not_authorized.
  keeps_selection.
Qed.

(** SELECT FILE leaves one of four values in [file_selection]. *)
Lemma cmd_select_file_selectable (s : card X) :
  selectable (file_selection (snd (cmd_select_file s))) = true.
Proof.
  unfold cmd_select_file, bind, get_cmd_APDU.
  repeat match goal with
         | |- context [if ?b then _ else _] => destruct b
         end; reflexivity.
Qed.

(** A command other than SELECT FILE leaves the file selection alone. *)
Lemma GPGthread_turn_selection (apdu : list Z * Z) (s : card X) :
  is_select_file apdu = false ->
  file_selection (GPGthread_turn apdu s) = file_selection s.
Proof.
  unfold is_select_file, GPGthread_turn. intro Hsel.
  set (s0 := transport_delivers (fst apdu) (snd apdu) s).
  change (file_selection s) with (file_selection s0).
  change (peek (fst apdu) 1) with (peek (cmd_APDU s0) 1) in Hsel.
  clearbody s0.
  unfold process_command_apdu, bind, get_cmd_APDU.
  cbv beta iota delta [find fst snd cmds].
  rewrite (Z.eqb_sym INS_SELECT_FILE), Hsel.
  repeat match goal with
         | |- context [if ?b then _ else _] => destruct b
         end;
    cbv beta iota;
    first [ apply selection_cmd_verify
          | apply selection_cmd_change_password
          | apply selection_cmd_pso
          | apply selection_cmd_reset_user_password
          | apply selection_cmd_pgp_gakp
          | apply selection_cmd_internal_authenticate
          | apply selection_cmd_read_binary
          | apply selection_cmd_get_data
          | apply selection_cmd_put_data
          | reflexivity ].
Qed.

(** And SELECT FILE leaves it selectable. *)
Lemma GPGthread_turn_selectable (apdu : list Z * Z) (s : card X) :
  selectable (file_selection s) = true ->
  selectable (file_selection (GPGthread_turn apdu s)) = true.
Proof.
  intro Hs. destruct (is_select_file apdu) eqn:E.
  - unfold is_select_file in E. apply Z.eqb_eq in E.
    unfold GPGthread_turn, process_command_apdu, bind, get_cmd_APDU.
    cbn [cmd_APDU transport_delivers fst snd]. rewrite E.
    cbv beta iota delta [find fst snd cmds].
    change (INS_VERIFY =? INS_SELECT_FILE) with false.
    change (INS_CHANGE_REFERENCE_DATA =? INS_SELECT_FILE) with false.
    change (INS_PSO =? INS_SELECT_FILE) with false.
    change (INS_RESET_RETRY_COUNTER =? INS_SELECT_FILE) with false.
    change (INS_PGP_GENERATE_ASYMMETRIC_KEY_PAIR =? INS_SELECT_FILE)
      with false.
    change (INS_INTERNAL_AUTHENTICATE =? INS_SELECT_FILE) with false.
    change (INS_SELECT_FILE =? INS_SELECT_FILE) with true.
    cbv beta iota. apply cmd_select_file_selectable.
  - rewrite GPGthread_turn_selection by exact E. exact Hs.
Qed.
End SelectionKept.

(** X7.  Over a session that holds no SELECT FILE command the file
    selection stays what it was: no other command writes it. *)
Theorem only_select_file_changes_selection :
  forall (X : Type) (C : Collaborators X) (session : list (list Z * Z))
         (s : card X),
    existsb is_select_file session = false ->
    file_selection (GPGthread session s) = file_selection s.
Proof.
  intros X C session. induction session as [|apdu rest IH]; intros s H.
  - reflexivity.
  - cbn [existsb] in H. apply orb_false_iff in H. destruct H as [Ha Hr].
    change (GPGthread (apdu :: rest) s)
      with (GPGthread rest (GPGthread_turn apdu s)).
    rewrite IH by exact Hr. apply GPGthread_turn_selection. exact Ha.
Qed.

(** After SELECT FILE by DF name on the reference card: a VERIFY, a GET
    DATA, a PSO and an unknown instruction later DF-OPENPGP is still
    selected. *)
Lemma only_select_file_changes_selection_witness :
  let session := map (fun a => (a, Z.of_nat (length a)))
                     [verify_pw1; get_data_5e; pso_cds; read_binary;
                      generate_key; unknown_instruction] in
  let s := after select_df_openpgp factory_card in
  existsb is_select_file session = false /\
  file_selection s = FILE_DF_OPENPGP /\
  file_selection (GPGthread session s) = FILE_DF_OPENPGP.
Proof.
  intros session s. split; [reflexivity|]. split; [reflexivity|].
  rewrite (only_select_file_changes_selection refx collaborators session s)
    by reflexivity.
  reflexivity.
Defined.

(** X8.  Whatever the commands of a session are, [file_selection] stays
    one of NONE, DF-OPENPGP, MF and EF-SERIAL: no command selects
    EF-DIR. *)
Theorem selection_never_ef_dir :
  forall (X : Type) (C : Collaborators X) (session : list (list Z * Z))
         (s : card X),
    selectable (file_selection s) = true ->
    selectable (file_selection (GPGthread session s)) = true /\
    file_selection (GPGthread session s) <> FILE_EF_DIR.
Proof.
  intros X C session.
  assert (H : forall s : card X,
             selectable (file_selection s) = true ->
             selectable (file_selection (GPGthread session s)) = true).
  { induction session as [|apdu rest IH]; intros s Hs; [exact Hs|].
    change (GPGthread (apdu :: rest) s)
      with (GPGthread rest (GPGthread_turn apdu s)).
    apply IH, GPGthread_turn_selectable, Hs. }
  intros s Hs. split; [apply H, Hs|].
  intro E. specialize (H s Hs). rewrite E in H. discriminate H.
Qed.

Lemma selection_never_ef_dir_witness :
  let session := map (fun a => (a, Z.of_nat (length a)))
                     [select_df_openpgp; select_mf; select_unknown;
                      select_ef_serial; read_binary] in
  selectable (file_selection factory_card) = true /\
  selectable (file_selection (GPGthread session factory_card)) = true /\
  file_selection (GPGthread session factory_card) = FILE_EF_SERIAL.
Proof.
  intro session. split; [reflexivity|].
  split; [|reflexivity].
  apply (selection_never_ef_dir refx collaborators session factory_card).
  reflexivity.
Defined.

(** ** SELECT FILE and the dispatcher *)

Section SelectFile.
Context {X : Type} {C : Collaborators X}.

(** SELECT FILE for 2F 02 selects EF-SERIAL. *)
Lemma cmd_select_file_ef_serial (s : card X) :
  peek (cmd_APDU s) 2 <> 0x04 ->
  (peek (cmd_APDU s) 4 =? 2) && (peek (cmd_APDU s) 5 =? 0x2f)
    && (peek (cmd_APDU s) 6 =? 0x02) = true ->
  file_selection (snd (cmd_select_file s)) = FILE_EF_SERIAL.
Proof.
  intros Hp1 Hef. apply Z.eqb_neq in Hp1.
  unfold cmd_select_file, bind, get_cmd_APDU. rewrite Hp1, Hef. reflexivity.
Qed.

(** What the dispatcher does with an instruction of the table. *)
Lemma GPGthread_turn_select (apdu : list Z * Z) (s : card X) :
  peek (fst apdu) 1 = INS_SELECT_FILE ->
  GPGthread_turn apdu s
  = snd (cmd_select_file (transport_delivers (fst apdu) (snd apdu) s)).
Proof.
  intro E. unfold GPGthread_turn, process_command_apdu, bind, get_cmd_APDU.
  cbn [cmd_APDU transport_delivers fst snd]. rewrite E. reflexivity.
Qed.

Lemma GPGthread_turn_read_binary (apdu : list Z * Z) (s : card X) :
  peek (fst apdu) 1 = INS_READ_BINARY ->
  GPGthread_turn apdu s
  = snd (cmd_read_binary (transport_delivers (fst apdu) (snd apdu) s)).
Proof.
  intro E. unfold GPGthread_turn, process_command_apdu, bind, get_cmd_APDU.
  cbn [cmd_APDU transport_delivers fst snd]. rewrite E. reflexivity.
Qed.

(** The dispatcher on an instruction that is not in the table. *)
Lemma GPGthread_turn_unknown (apdu : list Z * Z) (s : card X) :
  known_instruction (peek (fst apdu) 1) = false ->
  GPGthread_turn apdu s
  = snd (GPG_NO_INS (transport_delivers (fst apdu) (snd apdu) s)).
Proof.
  destruct apdu as [cmd size]. cbn [fst snd]. intro H.
  unfold GPGthread_turn, process_command_apdu, bind, get_cmd_APDU.
  cbn [cmd_APDU transport_delivers fst snd].
  unfold known_instruction in H. cbn [existsb] in H.
  repeat (apply orb_false_iff in H; destruct H as [? H]).
  cbv beta iota delta [find fst snd cmds].
  repeat match goal with
         | E : (peek _ 1 =? ?i) = false |- _ =>
             rewrite (Z.eqb_sym _ i) in E; rewrite E; clear E
         end.
  reflexivity.
Qed.
End SelectFile.

(** X9.  A SELECT FILE with P1 = 0x04 selects DF-OPENPGP and answers
    90 00 whatever its P2, Lc and name bytes are: the name is not compared
    with the AID of the OpenPGP application. *)
Theorem cmd_select_file_by_name_any_name :
  forall (X : Type) (C : Collaborators X) (s : card X),
  peek (cmd_APDU s) 2 = 0x04 ->
  let s' := snd (cmd_select_file s) in
  file_selection s' = FILE_DF_OPENPGP /\
  response s' = [0x90; 0x00] /\
  calls s' = calls s.
Proof.
  intros X C s Hp1 s'. subst s'. unfold cmd_select_file, bind, get_cmd_APDU.
  rewrite Hp1. change (4 =? 4) with true. cbv iota.
  unfold set_file_selection, GPG_SUCCESS. cbv beta iota.
  rewrite write_status_response. repeat split.
Qed.

Lemma cmd_select_file_by_name_any_name_witness :
  let s' := snd (cmd_select_file
                   (transport_delivers select_mf_by_name 7 factory_card)) in
  file_selection s' = FILE_DF_OPENPGP /\
  response s' = [0x90; 0x00] /\
  calls s' = [].
Proof.
  apply (cmd_select_file_by_name_any_name refx collaborators
           (transport_delivers select_mf_by_name 7 factory_card)).
  reflexivity.
Defined.

(** X10.  A SELECT FILE that is neither by DF name nor for 2F 02 or
    3F 00 with Lc = 2 answers 6A 82 and leaves no file selected, whatever
    was selected before. *)
Theorem cmd_select_file_unknown_deselects :
  forall (X : Type) (C : Collaborators X) (s : card X),
  peek (cmd_APDU s) 2 <> 0x04 ->
  (peek (cmd_APDU s) 4 =? 2) && (peek (cmd_APDU s) 5 =? 0x2f)
    && (peek (cmd_APDU s) 6 =? 0x02) = false ->
  (peek (cmd_APDU s) 4 =? 2) && (peek (cmd_APDU s) 5 =? 0x3f)
    && (peek (cmd_APDU s) 6 =? 0x00) = false ->
  let s' := snd (cmd_select_file s) in
  file_selection s' = FILE_NONE /\
  response s' = [0x6a; 0x82] /\
  calls s' = calls s.
Proof.
  intros X C s Hp1 Hef Hmf s'. subst s'. apply Z.eqb_neq in Hp1.
  unfold cmd_select_file, bind, get_cmd_APDU.
  rewrite Hp1, Hef, Hmf.
  unfold set_file_selection, GPG_NO_FILE. cbv beta iota.
  rewrite write_status_response. repeat split.
Qed.

Lemma cmd_select_file_unknown_deselects_witness :
  let s := transport_delivers select_unknown 7
             (after select_df_openpgp factory_card) in
  let s' := snd (cmd_select_file s) in
  file_selection s = FILE_DF_OPENPGP /\
  file_selection s' = FILE_NONE /\
  response s' = [0x6a; 0x82] /\
  calls s' = [].
Proof.
  split; [reflexivity|].
  apply (cmd_select_file_unknown_deselects refx collaborators
           (transport_delivers select_unknown 7
              (after select_df_openpgp factory_card)));
    [vm_compute; discriminate | reflexivity | reflexivity].
Defined.

(** X11.  A command whose instruction byte is none of the eleven of the
    table is answered 6D 00; nothing is called, and neither the file
    selection nor the flags, the counters, the keystring records or the
    digital signature counter change. *)
Theorem unknown_instruction_changes_nothing :
  forall (X : Type) (C : Collaborators X) (apdu : list Z * Z) (s : card X),
    known_instruction (peek (fst apdu) 1) = false ->
    let s' := GPGthread_turn apdu s in
    response s' = [0x6d; 0x00] /\
    calls s' = [] /\
    same_but_response s s'.
Proof.
  intros X C apdu s H s'. subst s'. rewrite GPGthread_turn_unknown by exact H.
  unfold GPG_NO_INS. rewrite write_status_response.
  repeat split.
Qed.

Lemma unknown_instruction_changes_nothing_witness :
  let s := after select_df_openpgp (keyed_card false) in
  known_instruction (peek unknown_instruction 1) = false /\
  response (GPGthread_turn (unknown_instruction, 5) s) = [0x6d; 0x00] /\
  file_selection (GPGthread_turn (unknown_instruction, 5) s)
    = FILE_DF_OPENPGP.
Proof.
  intro s. split; [reflexivity|].
  destruct (unknown_instruction_changes_nothing refx collaborators
              (unknown_instruction, 5) s) as (R & _ & (F & _));
    [reflexivity|].
  split; [exact R | rewrite F; reflexivity].
Defined.

(** X12.  A READ BINARY answers with the AID when the last SELECT FILE
    before it was the one for 2F 02, whatever commands other than SELECT
    FILE came in between. *)
Theorem read_binary_after_select_ef_serial :
  forall (X : Type) (C : Collaborators X) (sel rd : list Z * Z)
         (between : list (list Z * Z)) (s : card X),
    peek (fst sel) 1 = INS_SELECT_FILE ->
    peek (fst sel) 2 <> 0x04 ->
    (peek (fst sel) 4 =? 2) && (peek (fst sel) 5 =? 0x2f)
      && (peek (fst sel) 6 =? 0x02) = true ->
    existsb is_select_file between = false ->
    peek (fst rd) 1 = INS_READ_BINARY ->
    peek (fst rd) 3 < 6 ->
    0 <= peek openpgpcard_aid 0 <= Z.of_nat (length openpgpcard_aid) ->
    response (GPGthread (sel :: between ++ [rd]) s)
    = 0x5a :: firstn (Z.to_nat (peek openpgpcard_aid 0)) openpgpcard_aid
           ++ [0x90; 0x00].
Proof.
  intros X C sel rd between s Hins Hp1 Hef Hbetween Hrd Hp2 Haid.
  change (GPGthread (sel :: between ++ [rd]) s)
    with (GPGthread (between ++ [rd]) (GPGthread_turn sel s)).
  rewrite GPGthread_app.
  set (s1 := GPGthread_turn sel s).
  assert (H1 : file_selection s1 = FILE_EF_SERIAL).
  { subst s1. rewrite GPGthread_turn_select by exact Hins.
    apply cmd_select_file_ef_serial; assumption. }
  set (s2 := GPGthread between s1).
  assert (H2 : file_selection s2 = FILE_EF_SERIAL).
  { subst s2. rewrite <- H1. clear H1. generalize s1.
    induction between as [|apdu rest IH]; intro s0; [reflexivity|].
    cbn [existsb] in Hbetween. apply orb_false_iff in Hbetween.
    destruct Hbetween as [Ha Hr].
    change (GPGthread (apdu :: rest) s0)
      with (GPGthread rest (GPGthread_turn apdu s0)).
    rewrite IH by exact Hr. apply GPGthread_turn_selection. exact Ha. }
  change (GPGthread [rd] s2) with (GPGthread_turn rd s2).
  rewrite GPGthread_turn_read_binary by exact Hrd.
  unfold cmd_read_binary, bind, get_cmd_APDU, get_file_selection.
  cbn [file_selection cmd_APDU transport_delivers fst snd].
  rewrite H2. change (FILE_EF_SERIAL =? FILE_EF_SERIAL) with true.
  replace (peek (fst rd) 3 >=? 6) with false
    by (symmetry; rewrite Z.geb_leb; apply Z.leb_gt; lia).
  cbv iota. apply read_binary_buffer. exact Haid.
Qed.

Lemma read_binary_after_select_ef_serial_witness :
  let between := map (fun a => (a, Z.of_nat (length a)))
                     [verify_pw1; get_data_5e; unknown_instruction] in
  (peek select_ef_serial 1 = INS_SELECT_FILE /\
   peek select_ef_serial 2 <> 0x04 /\
   existsb is_select_file between = false /\
   peek read_binary 1 = INS_READ_BINARY /\ peek read_binary 3 < 6) /\
  response (GPGthread ((select_ef_serial, 7) :: between ++ [(read_binary, 5)])
                      factory_card)
  = [0x5a; 0x06; 0xd2; 0x76; 0x00; 0x01; 0x24; 0x90; 0x00].
Proof.
  intro between.
  split; [repeat split; try reflexivity; vm_compute; discriminate|].
  rewrite (read_binary_after_select_ef_serial refx collaborators
             (select_ef_serial, 7) (read_binary, 5) between factory_card);
    try reflexivity; vm_compute; try discriminate.
  split; discriminate.
Defined.

(** ** The operations with a private key *)

(** Splits on the tests and on the results of the calls in the goal. *)
Ltac split_cases :=
  repeat
    (match goal with
     | |- context [let (_, _) := ?p in _] =>
         lazymatch p with
         | context [match _ with _ => _ end] => fail
         | context [if _ then _ else _] => fail
         | _ => destruct p as [? ?] eqn:?
         end
     | |- context [if ?b then _ else _] =>
         lazymatch b with
         | context [match _ with _ => _ end] => fail
         | context [if _ then _ else _] => fail
         | context [existsb] => fail
         | context [forallb] => fail
         | _ => destruct b eqn:?
         end
     end;
     cbn [fst snd negb andb orb calls wld file_selection
          digital_signature_counter record_call set_wld set_res cmd_APDU
          cmd_APDU_size auth_status pw_err_counter do_simple ext res_APDU
          res_APDU_size]).

(** Brings the outcome of the tests made so far into the goal. *)
Ltac use_tests :=
  repeat match goal with
         | H : negb _ = false |- _ => apply negb_false_iff in H
         | H : negb _ = true |- _ => apply negb_true_iff in H
         | H : ?b = _ |- context [?b] => rewrite H
         end.

Ltac open_all :=
  open_handler;
  unfold pw1_locked_or_not_authorized, check_status, passwd_locked,
    ext_call, ext_do, ext_ask, global, skip, ret, write_res_apdu,
    get_cmd_APDU, get_cmd_APDU_size, get_file_selection,
    gpg_increment_digital_signature_counter, bind;
  cbn [fst snd negb andb orb calls wld file_selection
       digital_signature_counter record_call set_wld set_res cmd_APDU
       cmd_APDU_size auth_status pw_err_counter do_simple ext res_APDU
       res_APDU_size].

Section PrivateKeyUse.
Context {X : Type} {C : Collaborators X}.

(** PSO calls an RSA primitive only when the flag of the operation is set,
    and for DECIPHER only when PW1 is not blocked. *)
Lemma cmd_pso_rsa (s : card X) :
  calls s = [] ->
  existsb is_rsa_call (calls (snd (cmd_pso s))) = true ->
  ((peek (cmd_APDU s) 2 =? 0x9e) && (peek (cmd_APDU s) 3 =? 0x9a))
  && ac_check_status AC_PSO_CDS_AUTHORIZED (wld s)
  || ((peek (cmd_APDU s) 2 =? 0x80) && (peek (cmd_APDU s) 3 =? 0x86))
     && (ac_check_status AC_PSO_OTHER_AUTHORIZED (wld s)
         && negb (gpg_passwd_locked PW_ERR_PW1 (wld s))) = true.
Proof.
  intro Hc. unfold cmd_pso. open_all. split_cases.
  all: rewrite ?Hc; cbn [app existsb is_rsa_call orb];
    intro H; try discriminate H.
  all: use_tests; reflexivity.
Qed.

Lemma cmd_internal_authenticate_rsa (s : card X) :
  calls s = [] ->
  existsb is_rsa_call (calls (snd (cmd_internal_authenticate s))) = true ->
  ((peek (cmd_APDU s) 2 =? 0x00) && (peek (cmd_APDU s) 3 =? 0x00))
  && (ac_check_status AC_PSO_OTHER_AUTHORIZED (wld s)
      && negb (gpg_passwd_locked PW_ERR_PW1 (wld s))) = true.
Proof.
  intro Hc. unfold cmd_internal_authenticate. open_all. split_cases.
  all: rewrite ?Hc; cbn [app existsb is_rsa_call orb];
    intro H; try discriminate H.
  all: use_tests; reflexivity.
Qed.

Lemma norsa_gpg_change_keystring who_old old_ks who_new new_ks :
  respects (adds_calls not_rsa)
           (gpg_change_keystring who_old old_ks who_new new_ks).
Proof.
  unfold gpg_change_keystring, gpg_change_keystring_body. adds_only.
Qed.

Lemma norsa_cmd_verify : respects (adds_calls not_rsa) cmd_verify.
Proof. unfold cmd_verify. adds_only. Qed.

Lemma norsa_cmd_change_password :
  respects (adds_calls not_rsa) cmd_change_password.
Proof.
  pose proof norsa_gpg_change_keystring.
  unfold cmd_change_password. adds_only.
Qed.

Lemma norsa_cmd_reset_user_password :
  respects (adds_calls not_rsa) cmd_reset_user_password.
Proof.
  pose proof norsa_gpg_change_keystring.
  unfold cmd_reset_user_password. adds_only.
Qed.

Lemma norsa_cmd_put_data : respects (adds_calls not_rsa) cmd_put_data.
Proof. unfold cmd_put_data. adds_only. Qed.

Lemma norsa_cmd_get_data : respects (adds_calls not_rsa) cmd_get_data.
Proof. unfold cmd_get_data. adds_only. Qed.

Lemma norsa_cmd_pgp_gakp : respects (adds_calls not_rsa) cmd_pgp_gakp.
Proof. unfold cmd_pgp_gakp. adds_only. Qed.

Lemma norsa_cmd_read_binary : respects (adds_calls not_rsa) cmd_read_binary.
Proof. unfold cmd_read_binary. adds_only. Qed.

Lemma norsa_cmd_select_file : respects (adds_calls not_rsa) cmd_select_file.
Proof. unfold cmd_select_file. adds_only. Qed.

Lemma norsa_GPG_NO_INS : respects (adds_calls not_rsa) (GPG_NO_INS (X := X)).
Proof. adds_only. Qed.

Lemma no_rsa_call (m : M X unit) (s : card X) :
  respects (adds_calls not_rsa) m ->
  calls s = [] ->
  existsb is_rsa_call (calls (snd (m s))) = false.
Proof.
  intros Hm Hc. destruct (Hm s) as (l & E & Hl). rewrite E, Hc.
  cbn [app]. clear E. induction l as [|c l IH]; [reflexivity|].
  cbn [forallb existsb] in *. apply andb_true_iff in Hl.
  destruct Hl as [Hc' Hl]. unfold not_rsa in Hc'.
  apply negb_true_iff in Hc'. rewrite Hc', IH by exact Hl. reflexivity.
Qed.

(** The dispatcher runs the handler of the instruction byte. *)
Lemma process_dispatch (s : card X) :
  exists h : M X unit,
    dispatches (peek (cmd_APDU s) 1) h /\ process_command_apdu s = h s.
Proof.
  unfold process_command_apdu, bind, get_cmd_APDU.
  cbv beta iota delta [find fst snd cmds].
  repeat match goal with
         | |- context [if ?a =? ?b then _ else _] =>
             destruct (Z.eqb_spec a b) as [<-|?]
         end;
    try (eexists; split; [constructor | reflexivity]).
  unfold known_instruction. cbn [existsb map fst cmds].
  repeat match goal with
         | N : ?i <> ?x |- _ =>
             first [ apply Z.eqb_neq in N; rewrite N
                   | apply not_eq_sym in N; apply Z.eqb_neq in N; rewrite N ];
             clear N
         end.
  reflexivity.
Qed.

Lemma GPGthread_turn_dispatch (apdu : list Z * Z) (s : card X) :
  exists h : M X unit,
    dispatches (peek (fst apdu) 1) h /\
    GPGthread_turn apdu s
    = snd (h (transport_delivers (fst apdu) (snd apdu) s)).
Proof.
  destruct (process_dispatch (transport_delivers (fst apdu) (snd apdu) s))
    as (h & D & E).
  exists h. split; [exact D|]. unfold GPGthread_turn. rewrite E. reflexivity.
Qed.
End PrivateKeyUse.

(** X13.  No command gets an RSA primitive called unless the card is
    authorized for it when the command arrives: [rsa_sign] or
    [rsa_decrypt] appear in the trace of a command only for a PSO:CDS with
    the PSO:CDS flag set, or for a PSO:DECIPHER or an INTERNAL
    AUTHENTICATE with the flag for the other operations set and PW1 not
    blocked. *)
Theorem rsa_needs_authorization :
  forall (X : Type) (C : Collaborators X) (apdu : list Z * Z) (s : card X),
    existsb is_rsa_call (calls (GPGthread_turn apdu s)) = true ->
    authorized_for_rsa apdu s = true.
Proof.
  intros X C apdu s.
  destruct (GPGthread_turn_dispatch apdu s) as (h & D & E). rewrite E.
  set (s0 := transport_delivers (fst apdu) (snd apdu) s).
  assert (Hc : calls s0 = []) by reflexivity.
  unfold authorized_for_rsa.
  change (wld s) with (wld s0).
  change (peek (fst apdu) 2) with (peek (cmd_APDU s0) 2).
  change (peek (fst apdu) 3) with (peek (cmd_APDU s0) 3).
  cbv zeta.
  remember (peek (fst apdu) 1) as ins eqn:Hins. clear E.
  destruct D as [| | | | | | | | | | | ins Hk].
  all: try (intro H;
            rewrite no_rsa_call in H
              by first [ exact Hc
                       | apply norsa_cmd_verify
                       | apply norsa_cmd_change_password
                       | apply norsa_cmd_reset_user_password
                       | apply norsa_cmd_pgp_gakp
                       | apply norsa_cmd_select_file
                       | apply norsa_cmd_read_binary
                       | apply norsa_cmd_get_data
                       | apply norsa_cmd_put_data
                       | apply norsa_GPG_NO_INS ];
            discriminate H).
  - intro H. apply (cmd_pso_rsa s0 Hc) in H.
    change (INS_PSO =? INS_PSO) with true.
    change (INS_PSO =? INS_INTERNAL_AUTHENTICATE) with false.
    cbn [andb orb]. rewrite orb_false_r, <- !andb_assoc.
    rewrite <- !andb_assoc in H. exact H.
  - intro H. apply (cmd_internal_authenticate_rsa s0 Hc) in H.
    change (INS_INTERNAL_AUTHENTICATE =? INS_PSO) with false.
    change (INS_INTERNAL_AUTHENTICATE =? INS_INTERNAL_AUTHENTICATE) with true.
    cbn [andb orb]. rewrite <- !andb_assoc.
    rewrite <- !andb_assoc in H. exact H.
Qed.

Lemma rsa_needs_authorization_witness :
  authorized_for_rsa (pso_cds, 43) (keyed_card false) = true.
Proof.
  apply (rsa_needs_authorization refx collaborators). reflexivity.
Defined.

(** ** The outcomes of PSO and INTERNAL AUTHENTICATE *)

(** The response after a status word was written over an empty body. *)
Ltac status_response :=
  unfold response;
  cbn [wld set_wld set_res res_APDU res_APDU_size Z.add Z.eqb];
  match goal with
  | |- context [poke (poke ?r _ _) _ _] => destruct r as [|? [|? ?]]
  end; reflexivity.

Ltac reduce_card :=
  cbn [fst snd negb andb orb calls wld file_selection
       digital_signature_counter record_call set_wld set_res cmd_APDU
       cmd_APDU_size auth_status pw_err_counter do_simple ext res_APDU
       res_APDU_size Z.eqb Pos.eqb].

Section Pso.
Context {X : Type} {C : Collaborators X}.

Lemma GPGthread_turn_pso (apdu : list Z * Z) (s : card X) :
  peek (fst apdu) 1 = INS_PSO ->
  GPGthread_turn apdu s
  = snd (cmd_pso (transport_delivers (fst apdu) (snd apdu) s)).
Proof.
  intro E. unfold GPGthread_turn, process_command_apdu, bind, get_cmd_APDU.
  cbn [cmd_APDU transport_delivers fst snd]. rewrite E. reflexivity.
Qed.

Lemma GPGthread_turn_internal_authenticate (apdu : list Z * Z) (s : card X) :
  peek (fst apdu) 1 = INS_INTERNAL_AUTHENTICATE ->
  GPGthread_turn apdu s
  = snd (cmd_internal_authenticate
           (transport_delivers (fst apdu) (snd apdu) s)).
Proof.
  intro E. unfold GPGthread_turn, process_command_apdu, bind, get_cmd_APDU.
  cbn [cmd_APDU transport_delivers fst snd]. rewrite E. reflexivity.
Qed.

(** PSO:CDS without the flag. *)
Lemma cmd_pso_cds_refused (s : card X) :
  peek (cmd_APDU s) 2 = 0x9e -> peek (cmd_APDU s) 3 = 0x9a ->
  ac_check_status AC_PSO_CDS_AUTHORIZED (wld s) = false ->
  response (snd (cmd_pso s)) = [0x69; 0x82] /\
  calls (snd (cmd_pso s))
  = calls s ++ [Call_ac_check_status AC_PSO_CDS_AUTHORIZED false] /\
  same_but_response s (snd (cmd_pso s)).
Proof.
  intros E2 E3 Ha. unfold cmd_pso. open_all. rewrite E2, E3.
  destruct (peek (cmd_APDU s) 4 =? 0); reduce_card; rewrite Ha; reduce_card;
    (split; [status_response | split; [reflexivity | repeat split]]).
Qed.

(** PSO:CDS with a signature that fails. *)
Lemma cmd_pso_cds_failed (s : card X) :
  calls s = [] ->
  peek (cmd_APDU s) 2 = 0x9e -> peek (cmd_APDU s) 3 = 0x9a ->
  existsb is_failed_rsa_sign (calls (snd (cmd_pso s))) = true ->
  response (snd (cmd_pso s)) = [0x6f; 0x00] /\
  ac_check_status AC_PSO_CDS_AUTHORIZED (wld (snd (cmd_pso s))) = false /\
  digital_signature_counter (snd (cmd_pso s)) = digital_signature_counter s /\
  file_selection (snd (cmd_pso s)) = file_selection s.
Proof.
  intros Hc E2 E3. unfold cmd_pso. open_all. rewrite E2, E3.
  destruct (peek (cmd_APDU s) 4 =? 0); reduce_card; split_cases.
  all: rewrite ?Hc.
  all: cbn [app existsb is_failed_rsa_sign orb]; intro H;
    try discriminate H.
  all: try (match goal with
            | E : (?r <? 0) = false |- _ => rewrite E in H; discriminate H
            end).
  all: split; [status_response | repeat split].
Qed.
End Pso.

(** X14.  A PSO:CDS whose signature fails is answered 6F 00 and withdraws
    the authorization for signatures, whatever the lifetime of PW1: the
    digital signature counter stays, and a PSO:CDS that follows is answered
    69 82 after the check of the flag alone, so no signature is tried
    again before a new VERIFY. *)
Theorem failed_signature_withdraws_authorization :
  forall (X : Type) (C : Collaborators X) (apdu next : list Z * Z)
         (s : card X),
    peek (fst apdu) 1 = INS_PSO ->
    peek (fst apdu) 2 = 0x9e -> peek (fst apdu) 3 = 0x9a ->
    peek (fst next) 1 = INS_PSO ->
    peek (fst next) 2 = 0x9e -> peek (fst next) 3 = 0x9a ->
    existsb is_failed_rsa_sign (calls (GPGthread_turn apdu s)) = true ->
    let s1 := GPGthread_turn apdu s in
    let s2 := GPGthread_turn next s1 in
    response s1 = [0x6f; 0x00] /\
    digital_signature_counter s1 = digital_signature_counter s /\
    response s2 = [0x69; 0x82] /\
    calls s2 = [Call_ac_check_status AC_PSO_CDS_AUTHORIZED false] /\
    same_but_response s1 s2.
Proof.
  intros X C apdu next s A1 A2 A3 N1 N2 N3 H s1 s2. subst s2 s1.
  rewrite (GPGthread_turn_pso next _ N1).
  rewrite (GPGthread_turn_pso apdu s A1) in *.
  destruct (cmd_pso_cds_failed
              (transport_delivers (fst apdu) (snd apdu) s)
              eq_refl A2 A3 H) as (R & F & D & _).
  split; [exact R|]. split; [exact D|].
  apply (cmd_pso_cds_refused
           (transport_delivers (fst next) (snd next) _) N2 N3 F).
Qed.

Lemma failed_signature_withdraws_authorization_witness :
  let s1 := GPGthread_turn (pso_cds, 43) rsa_failing_card in
  let s2 := GPGthread_turn (pso_cds, 43) s1 in
  response s1 = [0x6f; 0x00] /\
  digital_signature_counter s1 = digital_signature_counter rsa_failing_card /\
  response s2 = [0x69; 0x82] /\
  calls s2 = [Call_ac_check_status AC_PSO_CDS_AUTHORIZED false] /\
  same_but_response s1 s2.
Proof.
  apply failed_signature_withdraws_authorization; reflexivity.
Defined.

(** X15.  A PSO:CDS whose signature succeeds leaves the response buffer
    as [rsa_sign] left it, the handler adds no status word of its own; the
    digital signature counter goes up by one, and the authorization for
    signatures is withdrawn exactly when [gpg_get_pw1_lifetime] gives a
    value other than zero. *)
Theorem successful_signature_outcome :
  forall (X : Type) (C : Collaborators X) (apdu : list Z * Z) (s : card X),
    pso_cds_that_signs apdu s = true ->
    let s1 := GPGthread_turn apdu s in
    exists (r l : Z) (w1 : world X),
      rsa_sign (snd (extended_length_decoder (fst apdu)))
               (fst (extended_length_decoder (fst apdu))) (wld s) = (r, w1) /\
      l = gpg_get_pw1_lifetime w1 /\
      calls s1
      = [Call_ac_check_status AC_PSO_CDS_AUTHORIZED true;
         Call_rsa_sign (snd (extended_length_decoder (fst apdu)))
                       (fst (extended_length_decoder (fst apdu))) r;
         Call_gpg_get_pw1_lifetime l]
        ++ (if l =? 0 then [] else [Call_ac_reset_pso_cds])
        ++ [Call_gpg_increment_digital_signature_counter] /\
      wld s1 = (if l =? 0 then w1 else ac_reset_pso_cds w1) /\
      response s1 = firstn (Z.to_nat (res_APDU_size w1)) (res_APDU w1) /\
      digital_signature_counter s1 = digital_signature_counter s + 1.
Proof.
  intros X C [cmd size] s H s1. subst s1. unfold pso_cds_that_signs in H.
  cbn [fst snd] in *.
  apply andb_prop in H. destruct H as [H Hs].
  apply andb_prop in H. destruct H as [H E3].
  apply andb_prop in H. destruct H as [E1 E2].
  apply Z.eqb_eq in E1, E2, E3. revert Hs.
  rewrite (GPGthread_turn_pso (cmd, size) s E1).
  unfold cmd_pso, extended_length_decoder, transport_delivers. open_all.
  rewrite E2, E3.
  destruct (peek cmd 4 =? 0); reduce_card; split_cases.
  all: cbn [app existsb is_successful_rsa_sign orb]; intro H;
    try discriminate H.
  all: try (match goal with
            | E : (?r <? 0) = true |- _ =>
                apply Z.ltb_lt in E; rewrite orb_false_r in H;
                apply Z.leb_le in H; lia
            end).
  all: use_tests.
  all: match goal with
       | E : rsa_sign _ _ _ = (?r, ?w) |- _ =>
           exists r, (gpg_get_pw1_lifetime w), w
       end.
  all: match goal with
       | E : (_ =? 0) = _ |- _ => rewrite E
       end.
  all: repeat split; try assumption.
Qed.

Lemma successful_signature_outcome_witness :
  let s1 := GPGthread_turn (pso_cds, 43) (keyed_card false) in
  exists (r l : Z) (w1 : W),
    rsa_sign (snd (extended_length_decoder pso_cds))
             (fst (extended_length_decoder pso_cds))
             (wld (keyed_card false)) = (r, w1) /\
    l = gpg_get_pw1_lifetime w1 /\
    calls s1
    = [Call_ac_check_status AC_PSO_CDS_AUTHORIZED true;
       Call_rsa_sign (snd (extended_length_decoder pso_cds))
                     (fst (extended_length_decoder pso_cds)) r;
       Call_gpg_get_pw1_lifetime l]
      ++ (if l =? 0 then [] else [Call_ac_reset_pso_cds])
      ++ [Call_gpg_increment_digital_signature_counter] /\
    wld s1 = (if l =? 0 then w1 else ac_reset_pso_cds w1) /\
    response s1 = firstn (Z.to_nat (res_APDU_size w1)) (res_APDU w1) /\
    digital_signature_counter s1
    = digital_signature_counter (keyed_card false) + 1.
Proof.
  apply (successful_signature_outcome refx collaborators (pso_cds, 43)).
  reflexivity.
Defined.

(** X16.  An authorized PSO:CDS is signed only when the command is 43 or
    44 bytes long, the extended form around a 35 byte DigestInfo: with any
    other size, the 40 bytes of the short form among them, the answer is
    6F 00 after the check of the flag, [rsa_sign] is not called, and the
    authorization, the counters and the records stay as they are. *)
Theorem pso_cds_wrong_size_refused :
  forall (X : Type) (C : Collaborators X) (apdu : list Z * Z) (s : card X),
    peek (fst apdu) 1 = INS_PSO ->
    peek (fst apdu) 2 = 0x9e -> peek (fst apdu) 3 = 0x9a ->
    ac_check_status AC_PSO_CDS_AUTHORIZED (wld s) = true ->
    snd apdu <> 43 -> snd apdu <> 44 ->
    let s1 := GPGthread_turn apdu s in
    response s1 = [0x6f; 0x00] /\
    calls s1 = [Call_ac_check_status AC_PSO_CDS_AUTHORIZED true] /\
    same_but_response s s1.
Proof.
  intros X C [cmd size] s E1 E2 E3 Ha N1 N2 s1. subst s1.
  cbn [fst snd] in *.
  rewrite (GPGthread_turn_pso (cmd, size) s E1).
  unfold cmd_pso, transport_delivers. open_all. rewrite E2, E3.
  apply Z.eqb_neq in N1, N2.
  destruct (peek cmd 4 =? 0); reduce_card; rewrite Ha; reduce_card;
    change (8 + 35) with 43; change (43 + 1) with 44; rewrite N1, N2;
    reduce_card;
    (split; [status_response | split; [reflexivity | repeat split]]).
Qed.

Lemma pso_cds_wrong_size_refused_witness :
  let s1 := GPGthread_turn (pso_cds_short, 40) (keyed_card false) in
  response s1 = [0x6f; 0x00] /\
  calls s1 = [Call_ac_check_status AC_PSO_CDS_AUTHORIZED true] /\
  same_but_response (keyed_card false) s1.
Proof.
  apply (pso_cds_wrong_size_refused refx collaborators (pso_cds_short, 40));
    try reflexivity; cbn [snd]; lia.
Defined.

(** X17.  A PSO with P1, P2 other than 9E 9A and 80 86, and an INTERNAL
    AUTHENTICATE with P1, P2 other than 00 00, are answered 6F 00 without
    any call: no flag is checked, no key is loaded, and nothing but the
    response changes. *)
Theorem unsupported_key_operation_refused :
  forall (X : Type) (C : Collaborators X) (apdu : list Z * Z) (s : card X),
    unsupported_key_operation apdu = true ->
    let s1 := GPGthread_turn apdu s in
    response s1 = [0x6f; 0x00] /\ calls s1 = [] /\ same_but_response s s1.
Proof.
  intros X C [cmd size] s H s1. subst s1.
  unfold unsupported_key_operation in H. cbn [fst snd] in H.
  apply orb_prop in H. destruct H as [H|H].
  - apply andb_prop in H. destruct H as [H Hb].
    apply andb_prop in H. destruct H as [E1 Ha].
    apply Z.eqb_eq in E1. apply negb_true_iff in Ha, Hb.
    rewrite (GPGthread_turn_pso (cmd, size) s E1).
    unfold cmd_pso, transport_delivers. open_all.
    destruct (peek cmd 4 =? 0); reduce_card; rewrite Ha, Hb;
      (split; [status_response | split; [reflexivity | repeat split]]).
  - apply andb_prop in H. destruct H as [E1 Ha].
    apply Z.eqb_eq in E1. apply negb_true_iff in Ha.
    rewrite (GPGthread_turn_internal_authenticate (cmd, size) s E1).
    unfold cmd_internal_authenticate, transport_delivers. open_all.
    destruct (peek cmd 4 =? 0); reduce_card; rewrite Ha;
      (split; [status_response | split; [reflexivity | repeat split]]).
Qed.

Lemma unsupported_key_operation_refused_witness :
  let s1 := GPGthread_turn (pso_unknown, 5) (keyed_card false) in
  response s1 = [0x6f; 0x00] /\ calls s1 = [] /\
  same_but_response (keyed_card false) s1.
Proof.
  apply (unsupported_key_operation_refused refx collaborators
           (pso_unknown, 5)).
  reflexivity.
Defined.

Section OtherOperations.
Context {X : Type} {C : Collaborators X}.

(** PSO:DECIPHER and INTERNAL AUTHENTICATE without the flag. *)
Lemma other_operation_refused (apdu : list Z * Z) (s : card X) :
  other_key_operation apdu = true ->
  ac_check_status AC_PSO_OTHER_AUTHORIZED (wld s) = false ->
  response (GPGthread_turn apdu s) = [0x69; 0x82] /\
  existsb is_load_prvkey (calls (GPGthread_turn apdu s)) = false /\
  existsb is_rsa_call (calls (GPGthread_turn apdu s)) = false.
Proof.
  destruct apdu as [cmd size]. intros H Ha.
  unfold other_key_operation in H. cbn [fst snd] in H.
  apply orb_prop in H. destruct H as [H|H];
    apply andb_prop in H; destruct H as [H E3];
    apply andb_prop in H; destruct H as [E1 E2];
    apply Z.eqb_eq in E1.
  - rewrite (GPGthread_turn_pso (cmd, size) s E1).
    apply Z.eqb_eq in E2, E3.
    unfold cmd_pso, transport_delivers. open_all. rewrite E2, E3.
    destruct (peek cmd 4 =? 0); reduce_card;
      destruct (gpg_passwd_locked PW_ERR_PW1 (wld s)); reduce_card;
      rewrite ?Ha; reduce_card;
      (split; [status_response | split; reflexivity]).
  - rewrite (GPGthread_turn_internal_authenticate (cmd, size) s E1).
    unfold cmd_internal_authenticate, transport_delivers. open_all.
    rewrite E2, E3.
    destruct (peek cmd 4 =? 0); reduce_card;
      destruct (gpg_passwd_locked PW_ERR_PW1 (wld s)); reduce_card;
      rewrite ?Ha; reduce_card;
      (split; [status_response | split; reflexivity]).
Qed.

(** The flag after an RSA operation of PSO:DECIPHER or INTERNAL
    AUTHENTICATE, when the RSA primitives leave the flags alone. *)
Lemma other_operation_withdraws (apdu : list Z * Z) (s : card X) :
  (forall msg len w,
      auth_status (snd (rsa_sign msg len w)) = auth_status w) ->
  (forall msg len w,
      auth_status (snd (rsa_decrypt msg len w)) = auth_status w) ->
  other_key_operation apdu = true ->
  existsb is_rsa_call (calls (GPGthread_turn apdu s)) = true ->
  ac_check_status AC_PSO_OTHER_AUTHORIZED (wld (GPGthread_turn apdu s))
  = false.
Proof.
  destruct apdu as [cmd size]. intros Hsign Hdec H.
  unfold other_key_operation in H. cbn [fst snd] in H.
  apply orb_prop in H. destruct H as [H|H];
    apply andb_prop in H; destruct H as [H E3];
    apply andb_prop in H; destruct H as [E1 E2];
    apply Z.eqb_eq in E1.
  - rewrite (GPGthread_turn_pso (cmd, size) s E1).
    apply Z.eqb_eq in E2, E3.
    unfold cmd_pso, transport_delivers. open_all. rewrite E2, E3.
    destruct (peek cmd 4 =? 0); reduce_card; split_cases.
    all: cbn [app existsb is_rsa_call orb]; intro R; try discriminate R.
    all: unfold ac_check_status; cbn [auth_status set_res].
    all: match goal with
         | E : rsa_decrypt ?m ?l ?w = (_, ?w') |- _ =>
             replace w' with (snd (rsa_decrypt m l w)) by (rewrite E; reflexivity)
         end.
    all: rewrite Hdec; reflexivity.
  - rewrite (GPGthread_turn_internal_authenticate (cmd, size) s E1).
    unfold cmd_internal_authenticate, transport_delivers. open_all.
    rewrite E2, E3.
    destruct (peek cmd 4 =? 0); reduce_card; split_cases.
    all: cbn [app existsb is_rsa_call orb]; intro R; try discriminate R.
    all: unfold ac_check_status; cbn [auth_status set_res].
    all: match goal with
         | E : rsa_sign ?m ?l ?w = (_, ?w') |- _ =>
             replace w' with (snd (rsa_sign m l w)) by (rewrite E; reflexivity)
         end.
    all: rewrite Hsign; reflexivity.
Qed.
End OtherOperations.

(** X18.  When PSO:DECIPHER or INTERNAL AUTHENTICATE cannot load its key
    with the PW1 keystring that VERIFY left, the answer is 69 82, the
    failure is counted against PW1 like a wrong PIN, and no RSA primitive
    is called; the flags are as the load left them. *)
Theorem failed_key_load_counts_against_pw1 :
  forall (X : Type) (C : Collaborators X) (apdu : list Z * Z) (s : card X),
    other_key_operation apdu = true ->
    existsb is_failed_load_prvkey (calls (GPGthread_turn apdu s)) = true ->
    let s1 := GPGthread_turn apdu s in
    let ks := ptr_add (pw1_keystring (ext (wld s))) 1 in
    exists (r : Z) (w1 : world X),
      gpg_do_load_prvkey (key_of_operation apdu) BY_USER ks (wld s)
      = (r, w1) /\
      r < 0 /\
      calls s1
      = [Call_gpg_passwd_locked PW_ERR_PW1 false;
         Call_ac_check_status AC_PSO_OTHER_AUTHORIZED true;
         Call_gpg_do_load_prvkey (key_of_operation apdu) BY_USER ks r;
         Call_gpg_increment_pw_err_counter PW_ERR_PW1] /\
      response s1 = [0x69; 0x82] /\
      pw_err_counter (wld s1) PW_ERR_PW1
      = pw_err_counter w1 PW_ERR_PW1 + 1 /\
      auth_status (wld s1) = auth_status w1.
Proof.
  intros X C [cmd size] s H. unfold key_of_operation.
  unfold other_key_operation in H. cbn [fst snd] in *.
  apply orb_prop in H. destruct H as [H|H];
    apply andb_prop in H; destruct H as [H E3];
    apply andb_prop in H; destruct H as [E1 E2];
    rewrite ?E1; apply Z.eqb_eq in E1.
  - rewrite (GPGthread_turn_pso (cmd, size) s E1).
    apply Z.eqb_eq in E2, E3.
    unfold cmd_pso, transport_delivers. open_all. rewrite E2, E3.
    destruct (peek cmd 4 =? 0); reduce_card; split_cases.
    all: cbn [app existsb is_failed_load_prvkey orb]; intro R;
      try discriminate R.
    all: try (match goal with
              | E : (?r <? 0) = false |- _ => rewrite E in R; discriminate R
              end).
    all: use_tests.
    all: match goal with
         | E : gpg_do_load_prvkey _ _ _ _ = (?r, ?w) |- _ => exists r, w
         end.
    all: split; [reflexivity|]; split; [apply Z.ltb_lt; assumption|].
    all: split; [reflexivity|]; split; [status_response | split; reflexivity].
  - rewrite E1. change (INS_INTERNAL_AUTHENTICATE =? INS_PSO) with false.
    cbv iota.
    rewrite (GPGthread_turn_internal_authenticate (cmd, size) s E1).
    unfold cmd_internal_authenticate, transport_delivers. open_all.
    rewrite E2, E3.
    destruct (peek cmd 4 =? 0); reduce_card; split_cases.
    all: cbn [app existsb is_failed_load_prvkey orb]; intro R;
      try discriminate R.
    all: try (match goal with
              | E : (?r <? 0) = false |- _ => rewrite E in R; discriminate R
              end).
    all: use_tests.
    all: match goal with
         | E : gpg_do_load_prvkey _ _ _ _ = (?r, ?w) |- _ => exists r, w
         end.
    all: split; [reflexivity|]; split; [apply Z.ltb_lt; assumption|].
    all: split; [reflexivity|]; split; [status_response | split; reflexivity].
Qed.

Lemma failed_key_load_counts_against_pw1_witness :
  let apdu := (pso_decipher, 9) in
  let s := with_pso_other (unblocked wrong_keystring_card) in
  let s1 := GPGthread_turn apdu s in
  let ks := ptr_add (pw1_keystring (ext (wld s))) 1 in
  exists (r : Z) (w1 : W),
    gpg_do_load_prvkey (key_of_operation apdu) BY_USER ks (wld s)
    = (r, w1) /\
    r < 0 /\
    calls s1
    = [Call_gpg_passwd_locked PW_ERR_PW1 false;
       Call_ac_check_status AC_PSO_OTHER_AUTHORIZED true;
       Call_gpg_do_load_prvkey (key_of_operation apdu) BY_USER ks r;
       Call_gpg_increment_pw_err_counter PW_ERR_PW1] /\
    response s1 = [0x69; 0x82] /\
    pw_err_counter (wld s1) PW_ERR_PW1
    = pw_err_counter w1 PW_ERR_PW1 + 1 /\
    auth_status (wld s1) = auth_status w1.
Proof.
  apply (failed_key_load_counts_against_pw1 refx collaborators
           (pso_decipher, 9)); reflexivity.
Defined.

(** X19.  The authorization for PSO:DECIPHER and INTERNAL AUTHENTICATE is
    good for one operation: where the RSA primitives leave the flags
    alone, a command that got as far as the RSA operation leaves the flag
    cleared, whether the operation succeeded or not, and a PSO:DECIPHER or
    INTERNAL AUTHENTICATE that follows is answered 69 82 without a key
    load and without an RSA operation. *)
Theorem other_authorization_is_single_use :
  forall (X : Type) (C : Collaborators X) (apdu next : list Z * Z)
         (s : card X),
    (forall msg len w,
        auth_status (snd (rsa_sign msg len w)) = auth_status w) ->
    (forall msg len w,
        auth_status (snd (rsa_decrypt msg len w)) = auth_status w) ->
    other_key_operation apdu = true ->
    other_key_operation next = true ->
    existsb is_rsa_call (calls (GPGthread_turn apdu s)) = true ->
    let s1 := GPGthread_turn apdu s in
    let s2 := GPGthread_turn next s1 in
    ac_check_status AC_PSO_OTHER_AUTHORIZED (wld s1) = false /\
    response s2 = [0x69; 0x82] /\
    existsb is_load_prvkey (calls s2) = false /\
    existsb is_rsa_call (calls s2) = false.
Proof.
  intros X C apdu next s Hsign Hdec Ha Hn H s1 s2. subst s2 s1.
  pose proof (other_operation_withdraws apdu s Hsign Hdec Ha H) as F.
  split; [exact F|].
  exact (other_operation_refused next _ Hn F).
Qed.

Lemma ref_rsa_keeps_flags (msg : list Z) (len : Z) (w : W) :
  auth_status (snd (ref_rsa msg len w)) = auth_status w.
Proof. unfold ref_rsa. destruct (rsa_result (ext w) <? 0); reflexivity. Qed.

Lemma other_authorization_is_single_use_witness :
  let s1 := GPGthread_turn (internal_authenticate, 8)
                           (with_pso_other factory_card) in
  let s2 := GPGthread_turn (pso_decipher, 9) s1 in
  ac_check_status AC_PSO_OTHER_AUTHORIZED (wld s1) = false /\
  response s2 = [0x69; 0x82] /\
  existsb is_load_prvkey (calls s2) = false /\
  existsb is_rsa_call (calls s2) = false.
Proof.
  apply (other_authorization_is_single_use refx collaborators
           (internal_authenticate, 8) (pso_decipher, 9));
    try reflexivity; exact ref_rsa_keeps_flags.
Defined.

(** ** [gpg_change_keystring] *)

(** X20.  [gpg_change_keystring] goes through its six calls in order,
    a load and a wrap for the signing, the decryption and the
    authentication key, and stops at the first of them that fails: it
    then returns the value of the load that failed, or -2 for a wrap that
    failed, and makes no further call, so the wraps done before stay.
    When all six succeed it returns 1 if some key was loaded and 0 if
    there is none. *)
Theorem gpg_change_keystring_stops_at_first_failure :
  forall (X : Type) (C : Collaborators X) (who_old : Z) (old_ks : list Z)
         (who_new : Z) (new_ks : list Z) (s : card X),
    let r := fst (gpg_change_keystring who_old old_ks who_new new_ks s) in
    let s' := snd (gpg_change_keystring who_old old_ks who_new new_ks s) in
    exists l : list call,
      calls s' = calls s ++ l ++ [Return_gpg_change_keystring r] /\
      l = calls_made (key_call_plan who_old old_ks who_new new_ks)
                     (key_call_results l) /\
      let rs := key_call_results l in
      forallb (Z.leb 0) (removelast rs) = true /\
      if r <? 0
      then last rs 0 < 0 /\
           r = (if Nat.odd (length rs) then last rs 0 else -2)
      else length l = 6%nat /\
           forallb (Z.leb 0) rs = true /\
           r = (if existsb is_loaded_prvkey l then 1 else 0).
Proof.
  intros X C who_old old_ks who_new new_ks s. cbv zeta.
  unfold gpg_change_keystring, gpg_change_keystring_body. open_all.
  split_cases.
  all: rewrite <- ?app_assoc; cbn [app].
  all: match goal with
       | |- exists l, calls _ ++ ?t = _ /\ _ => exists (removelast t)
       end.
  all: cbn [removelast app].
  all: split; [reflexivity|]; split; [reflexivity|].
  all: cbn [key_call_results key_call_result removelast last length Nat.odd
            Nat.even negb forallb existsb is_loaded_prvkey andb orb].
  all: repeat match goal with
         | H : (?a <? 0) = false |- _ =>
             apply Z.ltb_ge in H; pose proof (proj2 (Z.leb_le 0 a) H);
             clear H
         | H : (?a <? 0) = true |- context [?a <? 0] => rewrite H
         | H : (?a >? 0) = _ |- _ => rewrite H
         end.
  all: repeat match goal with
         | H : (0 <=? ?a) = true |- _ => rewrite H; clear H
         end.
  all: cbn [andb orb Z.ltb Z.compare Z.add Z.eqb negb Pos.add Pos.succ].
  all: repeat split; try reflexivity; try lia.
  all: match goal with
       | H : (?a <? 0) = true |- ?a < 0 => apply Z.ltb_lt; exact H
       end.
Qed.

(** ** CHANGE REFERENCE DATA for the admin PIN *)

Section ChangePassword.
Context {X : Type} {C : Collaborators X}.

Lemma GPGthread_turn_change_password (apdu : list Z * Z) (s : card X) :
  peek (fst apdu) 1 = INS_CHANGE_REFERENCE_DATA ->
  GPGthread_turn apdu s
  = snd (cmd_change_password (transport_delivers (fst apdu) (snd apdu) s)).
Proof.
  intro E. unfold GPGthread_turn, process_command_apdu, bind, get_cmd_APDU.
  cbn [cmd_APDU transport_delivers fst snd]. rewrite E. reflexivity.
Qed.

Lemma GPGthread_turn_reset_user_password (apdu : list Z * Z) (s : card X) :
  peek (fst apdu) 1 = INS_RESET_RETRY_COUNTER ->
  GPGthread_turn apdu s
  = snd (cmd_reset_user_password
           (transport_delivers (fst apdu) (snd apdu) s)).
Proof.
  intro E. unfold GPGthread_turn, process_command_apdu, bind, get_cmd_APDU.
  cbn [cmd_APDU transport_delivers fst snd]. rewrite E. reflexivity.
Qed.

(** P2 = 0x81 is the one value that makes [who] the user. *)
Lemma who_is_user (p2 : Z) : (p2 - 0x80 =? BY_USER) = (p2 =? 0x81).
Proof.
  unfold BY_USER.
  destruct (Z.eqb_spec p2 0x81) as [->|N]; [reflexivity|].
  apply Z.eqb_neq. lia.
Qed.
End ChangePassword.

(** X21.  CHANGE REFERENCE DATA with any P2 other than 0x81 checks the
    start of the data against the admin PIN with [verify_admin_0]; when
    that fails the answer is 69 82, and 69 83 when the PIN is blocked, and
    nothing else is called: the admin PIN is not set and no key is
    touched. *)
Theorem change_admin_pin_refused :
  forall (X : Type) (C : Collaborators X) (apdu : list Z * Z) (s : card X),
    peek (fst apdu) 1 = INS_CHANGE_REFERENCE_DATA ->
    peek (fst apdu) 3 <> 0x81 ->
    let len := fst (extended_length_decoder (fst apdu)) in
    let pw := snd (extended_length_decoder (fst apdu)) in
    let n := fst (verify_admin_0 pw len (-1) (wld s)) in
    n <= 0 ->
    let s1 := GPGthread_turn apdu s in
    response s1 = (if n <? 0 then [0x69; 0x82] else [0x69; 0x83]) /\
    calls s1 = [Call_verify_admin_0 pw len (-1) n].
Proof.
  intros X C [cmd size] s E1 E3. cbn [fst snd] in *.
  rewrite (GPGthread_turn_change_password (cmd, size) s E1).
  unfold cmd_change_password, transport_delivers. cbn [fst snd].
  unfold bind, get_cmd_APDU. cbn [cmd_APDU fst snd].
  rewrite !change_password_decode, !who_is_user.
  apply Z.eqb_neq in E3. rewrite E3.
  destruct (extended_length_decoder cmd) as [len pw]. cbn [fst snd].
  open_all.
  destruct (verify_admin_0 pw len (-1) (wld s)) as [n w1]. cbn [fst snd].
  intro Hn.
  destruct (n <? 0) eqn:En; reduce_card.
  - split; [status_response | reflexivity].
  - assert (E0 : (n =? 0) = true)
      by (apply Z.eqb_eq; apply Z.ltb_ge in En; lia).
    rewrite E0. reduce_card. split; [status_response | reflexivity].
Qed.

Lemma change_admin_pin_refused_witness :
  let apdu := (change_pw3, 21) in
  let s := with_wrong_admin_pin factory_card in
  let len := fst (extended_length_decoder (fst apdu)) in
  let pw := snd (extended_length_decoder (fst apdu)) in
  let n := fst (verify_admin_0 pw len (-1) (wld s)) in
  let s1 := GPGthread_turn apdu s in
  response s1 = (if n <? 0 then [0x69; 0x82] else [0x69; 0x83]) /\
  calls s1 = [Call_verify_admin_0 pw len (-1) n].
Proof.
  apply (change_admin_pin_refused refx collaborators (change_pw3, 21));
    [reflexivity | vm_compute; discriminate | vm_compute; discriminate].
Defined.

(** Closes a branch in which a test on numbers came out as it cannot. *)
Ltac impossible_test :=
  exfalso;
  match goal with
  | H : (?a <? ?b) = _ |- _ => vm_compute in H; discriminate H
  | H : (?a =? ?b) = _ |- _ => vm_compute in H; discriminate H
  | H : (?a >? ?b) = _ |- _ => vm_compute in H; discriminate H
  | H : false = true |- _ => discriminate H
  | H : true = false |- _ => discriminate H
  end.

(** X22.  CHANGE REFERENCE DATA with a P2 other than 0x81 and the right
    admin PIN sets the new admin PIN with [gpg_set_pw3] before the keys are
    wrapped anew, and wraps them under the role P2 - 0x80 whatever P2 is.
    When [gpg_change_keystring] then fails the answer is 69 82, or 65 81
    below -2, and the admin PIN stays set; when it succeeds the admin
    counter is reset and the answer is 90 00.  No keystring record is
    written in either case. *)
Theorem change_admin_pin_sets_pin_before_keys :
  forall (X : Type) (C : Collaborators X) (apdu : list Z * Z) (s : card X),
    peek (fst apdu) 1 = INS_CHANGE_REFERENCE_DATA ->
    peek (fst apdu) 3 <> 0x81 ->
    let len := fst (extended_length_decoder (fst apdu)) in
    let pw := snd (extended_length_decoder (fst apdu)) in
    let n := fst (verify_admin_0 pw len (-1) (wld s)) in
    0 < n ->
    let who := peek (fst apdu) 3 - 0x80 in
    let s1 := GPGthread_turn apdu s in
    exists (r r1 : Z) (rest : list call),
      calls s1
      = Call_verify_admin_0 pw len (-1) n
        :: Call_gpg_set_pw3 (ptr_add pw n) (len - n)
        :: Call_gpg_do_load_prvkey GPG_KEY_FOR_SIGNING who (sha1 pw n) r1
        :: rest /\
      change_keystring_result rest = Some r /\
      response s1
      = (if r <? -2 then [0x65; 0x81]
         else if r <? 0 then [0x69; 0x82] else [0x90; 0x00]) /\
      last rest (Return_gpg_change_keystring r)
      = (if r <? 0 then Return_gpg_change_keystring r
         else Call_gpg_reset_pw_err_counter PW_ERR_PW3) /\
      existsb is_write_simple (calls s1) = false.
Proof.
  intros X C [cmd size] s E1 E3. cbn [fst snd] in *.
  rewrite (GPGthread_turn_change_password (cmd, size) s E1).
  unfold cmd_change_password, transport_delivers. cbn [fst snd].
  unfold bind, get_cmd_APDU. cbn [cmd_APDU fst snd].
  rewrite !change_password_decode, !who_is_user.
  apply Z.eqb_neq in E3. rewrite E3.
  destruct (extended_length_decoder cmd) as [len pw]. cbn [fst snd].
  unfold gpg_change_keystring, gpg_change_keystring_body. open_all.
  reduce_card.
  destruct (verify_admin_0 pw len (-1) (wld s)) as [n w1]. cbn [fst snd].
  intro Hn.
  assert (En : (n <? 0) = false) by (apply Z.ltb_ge; lia).
  assert (E0 : (n =? 0) = false) by (apply Z.eqb_neq; lia).
  rewrite En, E0. reduce_card. split_cases.
  all: try solve [impossible_test].
  all: try solve [exfalso;
                  match goal with
                  | H : _ && false = true |- _ =>
                      rewrite andb_false_r in H; discriminate H
                  end].
  all: do 3 eexists; split; [reflexivity|].
  all: cbn [change_keystring_result]; split; [reflexivity|].
  all: use_tests; cbn [last existsb is_write_simple orb].
  all: try match goal with
         | H : (?z <? 0) = true |- context [?z <? 0] => rewrite H
         end.
  all: split; [status_response | split; reflexivity].
Qed.

Lemma change_admin_pin_sets_pin_before_keys_witness :
  let apdu := (change_p2_82, 21) in
  let s := keyed_card true in
  let len := fst (extended_length_decoder (fst apdu)) in
  let pw := snd (extended_length_decoder (fst apdu)) in
  let n := fst (verify_admin_0 pw len (-1) (wld s)) in
  let who := peek (fst apdu) 3 - 0x80 in
  let s1 := GPGthread_turn apdu s in
  exists (r r1 : Z) (rest : list call),
    calls s1
    = Call_verify_admin_0 pw len (-1) n
      :: Call_gpg_set_pw3 (ptr_add pw n) (len - n)
      :: Call_gpg_do_load_prvkey GPG_KEY_FOR_SIGNING who (sha1 pw n) r1
      :: rest /\
    change_keystring_result rest = Some r /\
    response s1
    = (if r <? -2 then [0x65; 0x81]
       else if r <? 0 then [0x69; 0x82] else [0x90; 0x00]) /\
    last rest (Return_gpg_change_keystring r)
    = (if r <? 0 then Return_gpg_change_keystring r
       else Call_gpg_reset_pw_err_counter PW_ERR_PW3) /\
    existsb is_write_simple (calls s1) = false.
Proof.
  apply (change_admin_pin_sets_pin_before_keys refx collaborators
           (change_p2_82, 21));
    [reflexivity | vm_compute; discriminate | reflexivity].
Defined.

(** X23.  While no PW1 keystring record is stored, a CHANGE REFERENCE
    DATA for PW1 whose data are shorter than the six bytes of the factory
    PIN is answered 69 82 after the record was looked up: no key is
    touched, nothing is stored and no counter moves. *)
Theorem change_pw1_shorter_than_factory_pin :
  forall (X : Type) (C : Collaborators X) (apdu : list Z * Z) (s : card X),
    peek (fst apdu) 1 = INS_CHANGE_REFERENCE_DATA ->
    peek (fst apdu) 3 = 0x81 ->
    gpg_do_read_simple NR_DO_KEYSTRING_PW1 (wld s) = None ->
    fst (extended_length_decoder (fst apdu)) < 6 ->
    let s1 := GPGthread_turn apdu s in
    response s1 = [0x69; 0x82] /\
    calls s1 = [Call_gpg_do_read_simple NR_DO_KEYSTRING_PW1 None] /\
    same_but_response s s1.
Proof.
  intros X C [cmd size] s E1 E3 Hr. cbn [fst snd] in *.
  rewrite (GPGthread_turn_change_password (cmd, size) s E1).
  unfold cmd_change_password, transport_delivers. cbn [fst snd].
  unfold bind, get_cmd_APDU. cbn [cmd_APDU fst snd].
  rewrite !change_password_decode, !who_is_user, E3.
  change (129 =? 129) with true.
  destruct (extended_length_decoder cmd) as [len pw]. cbn [fst snd].
  intro Hl. open_all. reduce_card. rewrite Hr.
  assert (El : (len <? strlen OPENPGP_CARD_INITIAL_PW1) = true)
    by (apply Z.ltb_lt; exact Hl).
  rewrite El. reduce_card.
  split; [status_response | split; [reflexivity | repeat split]].
Qed.

Lemma change_pw1_shorter_than_factory_pin_witness :
  let s1 := GPGthread_turn (change_pw1_short, 7) factory_card in
  response s1 = [0x69; 0x82] /\
  calls s1 = [Call_gpg_do_read_simple NR_DO_KEYSTRING_PW1 None] /\
  same_but_response factory_card s1.
Proof.
  apply (change_pw1_shorter_than_factory_pin refx collaborators
           (change_pw1_short, 7)); reflexivity.
Defined.

(** ** RESET RETRY COUNTER *)

(** Uses that [gpg_change_keystring] gives 0 and changes nothing on a card
    without private keys. *)
Ltac change_keystring_without_keys H0 :=
  match goal with
  | |- context [gpg_change_keystring ?a ?b ?c ?d ?s] =>
      let s1 := fresh "s" in
      let E := fresh "E" in
      let Hsel := fresh "Hsel" in
      let Hds := fresh "Hds" in
      let Hw := fresh "Hw" in
      let l := fresh "l" in
      let Hl := fresh "Hl" in
      let Hn := fresh "Hn" in
      destruct (gpg_change_keystring_calls a b c d s) as (l & Hl & _ & Hn);
      destruct (gpg_change_keystring_no_keys a b c d s H0)
        as (s1 & E & (_ & _ & Hsel & Hds & Hw));
      rewrite !E; rewrite E in Hl; cbn [snd calls record_call app] in Hl;
      cbn [wld record_call file_selection digital_signature_counter]
        in Hsel, Hds, Hw
  end.

(** X24.  RESET RETRY COUNTER by reset code is refused before any key is
    touched when the reset code is blocked, with 69 83, and when no reset
    code is stored, with 69 82; the record is looked up first in both
    cases, and the failure is not counted: flags, counters and records
    stay as they are. *)
Theorem reset_code_blocked_or_absent :
  forall (X : Type) (C : Collaborators X) (apdu : list Z * Z) (s : card X),
    peek (fst apdu) 1 = INS_RESET_RETRY_COUNTER ->
    peek (fst apdu) 2 = 0x00 ->
    gpg_passwd_locked PW_ERR_RC (wld s) = true
    \/ gpg_do_read_simple NR_DO_KEYSTRING_RC (wld s) = None ->
    let s1 := GPGthread_turn apdu s in
    response s1
    = (if gpg_passwd_locked PW_ERR_RC (wld s)
       then [0x69; 0x83] else [0x69; 0x82]) /\
    calls s1
    = [Call_gpg_do_read_simple NR_DO_KEYSTRING_RC
         (gpg_do_read_simple NR_DO_KEYSTRING_RC (wld s));
       Call_gpg_passwd_locked PW_ERR_RC
         (gpg_passwd_locked PW_ERR_RC (wld s))] /\
    same_but_response s s1.
Proof.
  intros X C [cmd size] s E1 E2 H. cbn [fst snd] in *.
  rewrite (GPGthread_turn_reset_user_password (cmd, size) s E1).
  unfold cmd_reset_user_password, transport_delivers. cbn [fst snd].
  unfold bind, get_cmd_APDU. cbn [cmd_APDU fst snd].
  rewrite !change_password_decode, !E2. change (0 =? 0) with true.
  destruct (extended_length_decoder cmd) as [len pw].
  open_all. reduce_card.
  destruct (gpg_passwd_locked PW_ERR_RC (wld s)) eqn:El; reduce_card.
  - split; [status_response | split; [reflexivity | repeat split]].
  - destruct H as [H|H]; [discriminate H|]. rewrite H. reduce_card.
    split; [status_response | split; [reflexivity | repeat split]].
Qed.

Lemma reset_code_blocked_or_absent_witness :
  let s1 := GPGthread_turn (reset_by_rc, 18) factory_card in
  response s1
  = (if gpg_passwd_locked PW_ERR_RC (wld factory_card)
     then [0x69; 0x83] else [0x69; 0x82]) /\
  calls s1
  = [Call_gpg_do_read_simple NR_DO_KEYSTRING_RC
       (gpg_do_read_simple NR_DO_KEYSTRING_RC (wld factory_card));
     Call_gpg_passwd_locked PW_ERR_RC
       (gpg_passwd_locked PW_ERR_RC (wld factory_card))] /\
  same_but_response factory_card s1.
Proof.
  apply (reset_code_blocked_or_absent refx collaborators (reset_by_rc, 18));
    [reflexivity | reflexivity | right; reflexivity].
Defined.

(** X25.  On a card without private keys RESET RETRY COUNTER by reset code
    checks the code itself: the SHA-1 image of the first [ks_rc[0]] bytes
    of the data is compared with the 20 bytes stored behind the length.
    If they differ the answer is 69 82, the failure is counted against the
    reset code and no record is written; if they agree the PW1 record
    [len | SHA1 (new PIN)] is stored, the PSO:CDS flag is cleared, both
    counters are reset and the answer is 90 00. *)
Theorem reset_by_code_without_keys :
  forall (X : Type) (C : Collaborators X) (apdu : list Z * Z) (s : card X)
         (ks_rc : list Z),
    peek (fst apdu) 1 = INS_RESET_RETRY_COUNTER ->
    peek (fst apdu) 2 = 0x00 ->
    gpg_passwd_locked PW_ERR_RC (wld s) = false ->
    gpg_do_read_simple NR_DO_KEYSTRING_RC (wld s) = Some ks_rc ->
    no_prvkeys (wld s) ->
    let len := fst (extended_length_decoder (fst apdu)) in
    let pw := snd (extended_length_decoder (fst apdu)) in
    let n := peek ks_rc 0 in
    let new_ks0 := u8 (len - n) :: sha1 (ptr_add pw n) (len - n) in
    let s1 := GPGthread_turn apdu s in
    if memcmp_eq (ptr_add ks_rc 1) (sha1 pw n) KEYSTRING_MD_SIZE
    then
      response s1 = [0x90; 0x00] /\
      gpg_do_read_simple NR_DO_KEYSTRING_PW1 (wld s1)
      = Some (firstn 21 new_ks0) /\
      ac_check_status AC_PSO_CDS_AUTHORIZED (wld s1) = false /\
      pw_err_counter (wld s1) PW_ERR_RC = 0 /\
      pw_err_counter (wld s1) PW_ERR_PW1 = 0
    else
      response s1 = [0x69; 0x82] /\
      existsb is_write_simple (calls s1) = false /\
      pw_err_counter (wld s1) PW_ERR_RC
      = pw_err_counter (wld s) PW_ERR_RC + 1 /\
      pw_err_counter (wld s1) PW_ERR_PW1 = pw_err_counter (wld s) PW_ERR_PW1 /\
      do_simple (wld s1) = do_simple (wld s) /\
      auth_status (wld s1) = auth_status (wld s).
Proof.
  intros X C [cmd size] s ks_rc E1 E2 El Hr H0. cbn [fst snd] in *.
  rewrite (GPGthread_turn_reset_user_password (cmd, size) s E1).
  unfold cmd_reset_user_password, transport_delivers. cbn [fst snd].
  unfold bind, get_cmd_APDU. cbn [cmd_APDU fst snd].
  rewrite !change_password_decode, !E2. change (0 =? 0) with true.
  destruct (extended_length_decoder cmd) as [len pw]. cbn [fst snd].
  unfold read_simple, passwd_locked, ext_ask. cbn [wld record_call].
  rewrite El, Hr. cbv iota beta.
  change_keystring_without_keys H0.
  cbn [Z.ltb Z.eqb Z.compare].
  destruct (memcmp_eq (ptr_add ks_rc 1) (sha1 pw (peek ks_rc 0))
                      KEYSTRING_MD_SIZE);
    cbn [negb]; open_all; reduce_card; rewrite ?Hw.
  - split; [status_response | repeat split].
  - split; [status_response|].
    split; [|repeat split].
    rewrite Hl, existsb_app. cbn [existsb is_write_simple orb]. rewrite Hn. reflexivity.
Qed.

Lemma factory_ext_has_no_prvkeys (w : W) :
  ext w = factory_ext -> no_prvkeys w.
Proof.
  intro E. split.
  - intros kk who ks. cbn. unfold ref_load_prvkey. rewrite E. reflexivity.
  - intros kk who_old old_ks who_new new_ks. exists 0. split; [lia|].
    cbn. unfold ref_chks_prvkey. rewrite E. reflexivity.
Qed.

Lemma reset_by_code_without_keys_witness :
  let apdu := (reset_by_wrong_rc, 18) in
  let s := rc_card in
  let ks_rc := 4 :: ref_sha1 pin_rc12 4 in
  let len := fst (extended_length_decoder (fst apdu)) in
  let pw := snd (extended_length_decoder (fst apdu)) in
  let n := peek ks_rc 0 in
  let new_ks0 := u8 (len - n) :: sha1 (ptr_add pw n) (len - n) in
  let s1 := GPGthread_turn apdu s in
  if memcmp_eq (ptr_add ks_rc 1) (sha1 pw n) KEYSTRING_MD_SIZE
  then
    response s1 = [0x90; 0x00] /\
    gpg_do_read_simple NR_DO_KEYSTRING_PW1 (wld s1)
    = Some (firstn 21 new_ks0) /\
    ac_check_status AC_PSO_CDS_AUTHORIZED (wld s1) = false /\
    pw_err_counter (wld s1) PW_ERR_RC = 0 /\
    pw_err_counter (wld s1) PW_ERR_PW1 = 0
  else
    response s1 = [0x69; 0x82] /\
    existsb is_write_simple (calls s1) = false /\
    pw_err_counter (wld s1) PW_ERR_RC
    = pw_err_counter (wld s) PW_ERR_RC + 1 /\
    pw_err_counter (wld s1) PW_ERR_PW1 = pw_err_counter (wld s) PW_ERR_PW1 /\
    do_simple (wld s1) = do_simple (wld s) /\
    auth_status (wld s1) = auth_status (wld s).
Proof.
  apply (reset_by_code_without_keys refx collaborators
           (reset_by_wrong_rc, 18) (rc_card));
    try reflexivity.
  apply factory_ext_has_no_prvkeys. reflexivity.
Defined.

(** X26.  RESET RETRY COUNTER with any P1 other than 0x00 is the reset by
    the admin: without the admin authorization it is answered 69 82 after
    the check of the flag alone, and flags, counters and records stay as
    they are. *)
Theorem reset_by_admin_needs_authorization :
  forall (X : Type) (C : Collaborators X) (apdu : list Z * Z) (s : card X),
    peek (fst apdu) 1 = INS_RESET_RETRY_COUNTER ->
    peek (fst apdu) 2 <> 0x00 ->
    ac_check_status AC_ADMIN_AUTHORIZED (wld s) = false ->
    let s1 := GPGthread_turn apdu s in
    response s1 = [0x69; 0x82] /\
    calls s1 = [Call_ac_check_status AC_ADMIN_AUTHORIZED false] /\
    same_but_response s s1.
Proof.
  intros X C [cmd size] s E1 E2 Ha. cbn [fst snd] in *.
  rewrite (GPGthread_turn_reset_user_password (cmd, size) s E1).
  unfold cmd_reset_user_password, transport_delivers. cbn [fst snd].
  unfold bind, get_cmd_APDU. cbn [cmd_APDU fst snd].
  apply Z.eqb_neq in E2. rewrite !change_password_decode, !E2.
  destruct (extended_length_decoder cmd) as [len pw].
  open_all. reduce_card. rewrite Ha. reduce_card.
  split; [status_response | split; [reflexivity | repeat split]].
Qed.

Lemma reset_by_admin_needs_authorization_witness :
  let s1 := GPGthread_turn (reset_by_admin, 14) factory_card in
  response s1 = [0x69; 0x82] /\
  calls s1 = [Call_ac_check_status AC_ADMIN_AUTHORIZED false] /\
  same_but_response factory_card s1.
Proof.
  apply (reset_by_admin_needs_authorization refx collaborators
           (reset_by_admin, 14));
    [reflexivity | vm_compute; discriminate | reflexivity].
Defined.

(** X27.  RESET RETRY COUNTER by the authorized admin on a card without
    private keys takes all the data as the new PW1: the record
    [len | SHA1 (new PIN)] is stored, the PSO:CDS flag is cleared, the PW1
    counter is reset and the answer is 90 00.  The counter of the reset
    code is left as it is. *)
Theorem reset_by_admin_without_keys :
  forall (X : Type) (C : Collaborators X) (apdu : list Z * Z) (s : card X),
    peek (fst apdu) 1 = INS_RESET_RETRY_COUNTER ->
    peek (fst apdu) 2 <> 0x00 ->
    ac_check_status AC_ADMIN_AUTHORIZED (wld s) = true ->
    no_prvkeys (wld s) ->
    let len := fst (extended_length_decoder (fst apdu)) in
    let pw := snd (extended_length_decoder (fst apdu)) in
    let s1 := GPGthread_turn apdu s in
    response s1 = [0x90; 0x00] /\
    gpg_do_read_simple NR_DO_KEYSTRING_PW1 (wld s1)
    = Some (firstn 21 (u8 len :: sha1 pw len)) /\
    ac_check_status AC_PSO_CDS_AUTHORIZED (wld s1) = false /\
    pw_err_counter (wld s1) PW_ERR_PW1 = 0 /\
    pw_err_counter (wld s1) PW_ERR_RC = pw_err_counter (wld s) PW_ERR_RC.
Proof.
  intros X C [cmd size] s E1 E2 Ha H0. cbn [fst snd] in *.
  rewrite (GPGthread_turn_reset_user_password (cmd, size) s E1).
  unfold cmd_reset_user_password, transport_delivers. cbn [fst snd].
  unfold bind, get_cmd_APDU. cbn [cmd_APDU fst snd].
  apply Z.eqb_neq in E2. rewrite !change_password_decode, !E2.
  destruct (extended_length_decoder cmd) as [len pw]. cbn [fst snd].
  unfold global, check_status, ext_ask. cbn [wld record_call fst snd].
  rewrite Ha. cbn [negb].
  change_keystring_without_keys H0.
  cbn [Z.ltb Z.eqb Z.compare]. open_all. reduce_card. rewrite ?Hw.
  split; [status_response | repeat split].
Qed.

Lemma reset_by_admin_without_keys_witness :
  let apdu := (reset_by_admin, 14) in
  let s := with_admin rc_card in
  let len := fst (extended_length_decoder (fst apdu)) in
  let pw := snd (extended_length_decoder (fst apdu)) in
  let s1 := GPGthread_turn apdu s in
  response s1 = [0x90; 0x00] /\
  gpg_do_read_simple NR_DO_KEYSTRING_PW1 (wld s1)
  = Some (firstn 21 (u8 len :: sha1 pw len)) /\
  ac_check_status AC_PSO_CDS_AUTHORIZED (wld s1) = false /\
  pw_err_counter (wld s1) PW_ERR_PW1 = 0 /\
  pw_err_counter (wld s1) PW_ERR_RC = pw_err_counter (wld s) PW_ERR_RC.
Proof.
  apply (reset_by_admin_without_keys refx collaborators (reset_by_admin, 14)
           (with_admin rc_card));
    [reflexivity | vm_compute; discriminate | reflexivity
    | apply factory_ext_has_no_prvkeys; reflexivity].
Defined.

(** X28.  Once a PW1 keystring record is stored, CHANGE REFERENCE DATA
    for PW1 makes no check of Lc against the length [n] that the record
    gives for the old PIN.  On a card without private keys the command is
    answered 90 00 for every Lc, below [n] too: the record stored has the
    length byte [(Lc - n) mod 256] and the SHA-1 image that [sha1] gives
    for the bytes behind offset [n] and the length [Lc - n]. *)
Theorem change_pw1_no_length_check_with_record :
  forall (X : Type) (C : Collaborators X) (apdu : list Z * Z) (s : card X)
         (pk : list Z),
    peek (fst apdu) 1 = INS_CHANGE_REFERENCE_DATA ->
    peek (fst apdu) 3 = 0x81 ->
    gpg_do_read_simple NR_DO_KEYSTRING_PW1 (wld s) = Some pk ->
    no_prvkeys (wld s) ->
    let len := fst (extended_length_decoder (fst apdu)) in
    let pw := snd (extended_length_decoder (fst apdu)) in
    let n := peek pk 0 in
    let s1 := GPGthread_turn apdu s in
    response s1 = [0x90; 0x00] /\
    gpg_do_read_simple NR_DO_KEYSTRING_PW1 (wld s1)
    = Some (firstn 21 (u8 (len - n) :: sha1 (ptr_add pw n) (len - n))) /\
    ac_check_status AC_PSO_CDS_AUTHORIZED (wld s1) = false /\
    pw_err_counter (wld s1) PW_ERR_PW1 = 0.
Proof.
  intros X C [cmd size] s pk E1 E3 Hr H0. cbn [fst snd] in *.
  rewrite (GPGthread_turn_change_password (cmd, size) s E1).
  unfold cmd_change_password, transport_delivers. cbn [fst snd].
  unfold bind, get_cmd_APDU. cbn [cmd_APDU fst snd].
  rewrite !change_password_decode, !who_is_user, E3.
  change (129 =? 129) with true.
  destruct (extended_length_decoder cmd) as [len pw]. cbn [fst snd].
  unfold read_simple, ext_ask, ret. cbn [wld record_call fst snd].
  rewrite Hr. cbv iota beta.
  change_keystring_without_keys H0.
  cbn [Z.ltb Z.eqb Z.gtb Z.compare andb]. open_all. reduce_card.
  rewrite ?Hw.
  split; [status_response | repeat split].
Qed.

Lemma change_pw1_no_length_check_with_record_witness :
  let apdu := (change_pw1_short, 7) in
  let s := rc_card in
  let pk := 6 :: ref_sha1 pin_123456 6 in
  let len := fst (extended_length_decoder (fst apdu)) in
  let pw := snd (extended_length_decoder (fst apdu)) in
  let n := peek pk 0 in
  let s1 := GPGthread_turn apdu s in
  (len = 2 /\ n = 6) /\
  response s1 = [0x90; 0x00] /\
  gpg_do_read_simple NR_DO_KEYSTRING_PW1 (wld s1)
  = Some (firstn 21 (u8 (len - n) :: sha1 (ptr_add pw n) (len - n))) /\
  ac_check_status AC_PSO_CDS_AUTHORIZED (wld s1) = false /\
  pw_err_counter (wld s1) PW_ERR_PW1 = 0.
Proof.
  split; [split; reflexivity|].
  apply (change_pw1_no_length_check_with_record refx collaborators
           (change_pw1_short, 7) rc_card);
    [reflexivity | reflexivity | reflexivity
    | apply factory_ext_has_no_prvkeys; reflexivity].
Defined.

(** ** The digital signature counter *)

Section CounterIncrements.
Context {X : Type} {C : Collaborators X}.

Lemma noinc_gpg_change_keystring who_old old_ks who_new new_ks :
  respects (adds_calls not_counter_increment)
           (gpg_change_keystring who_old old_ks who_new new_ks).
Proof.
  unfold gpg_change_keystring, gpg_change_keystring_body. adds_only.
Qed.

Lemma noinc_cmd_verify :
  respects (adds_calls not_counter_increment) cmd_verify.
Proof. unfold cmd_verify. adds_only. Qed.

Lemma noinc_cmd_change_password :
  respects (adds_calls not_counter_increment) cmd_change_password.
Proof.
  pose proof noinc_gpg_change_keystring.
  unfold cmd_change_password. adds_only.
Qed.

Lemma noinc_cmd_reset_user_password :
  respects (adds_calls not_counter_increment) cmd_reset_user_password.
Proof.
  pose proof noinc_gpg_change_keystring.
  unfold cmd_reset_user_password. adds_only.
Qed.

Lemma noinc_cmd_put_data :
  respects (adds_calls not_counter_increment) cmd_put_data.
Proof. unfold cmd_put_data. adds_only. Qed.

Lemma noinc_cmd_get_data :
  respects (adds_calls not_counter_increment) cmd_get_data.
Proof. unfold cmd_get_data. adds_only. Qed.

Lemma noinc_cmd_pgp_gakp :
  respects (adds_calls not_counter_increment) cmd_pgp_gakp.
Proof. unfold cmd_pgp_gakp. adds_only. Qed.

Lemma noinc_cmd_read_binary :
  respects (adds_calls not_counter_increment) cmd_read_binary.
Proof. unfold cmd_read_binary. adds_only. Qed.

Lemma noinc_cmd_select_file :
  respects (adds_calls not_counter_increment) cmd_select_file.
Proof. unfold cmd_select_file. adds_only. Qed.

Lemma noinc_cmd_internal_authenticate :
  respects (adds_calls not_counter_increment) cmd_internal_authenticate.
Proof.
  unfold cmd_internal_authenticate, pw1_locked_or_not_authorized. adds_only.
Qed.

Lemma noinc_GPG_NO_INS :
  respects (adds_calls not_counter_increment) (GPG_NO_INS (X := X)).
Proof. adds_only. Qed.

(** A handler that adds no call of the increment to an empty trace
    and keeps the counter. *)
Lemma no_increment (m : M X unit) (s : card X) :
  respects (adds_calls not_counter_increment) m ->
  keeps_counter m ->
  calls s = [] ->
  digital_signature_counter (snd (m s)) = digital_signature_counter s + 0 /\
  length (filter is_counter_increment (calls (snd (m s)))) = 0%nat.
Proof.
  intros Hm Hk Hc. split; [rewrite Z.add_0_r; apply Hk|].
  destruct (Hm s) as (l & E & Hl). rewrite E, Hc. cbn [app]. clear E.
  induction l as [|c l IH]; [reflexivity|].
  cbn [forallb filter] in *. apply andb_true_iff in Hl.
  destruct Hl as [Hc' Hl]. unfold not_counter_increment in Hc'.
  apply negb_true_iff in Hc'. rewrite Hc'. apply IH. exact Hl.
Qed.

(** PSO: the counter moves by one, with one call of the increment, when
    the command is a PSO:CDS that is let through to [rsa_sign] and
    [rsa_sign] succeeds on its data; otherwise the counter stays and the
    increment is not called.  The trace shows a successful [rsa_sign] in
    the first case only. *)
Lemma cmd_pso_signs (s : card X) :
  calls s = [] ->
  let cmd := cmd_APDU s in
  let signs :=
    (peek cmd 2 =? 0x9e) && (peek cmd 3 =? 0x9a)
    && ac_check_status AC_PSO_CDS_AUTHORIZED (wld s)
    && ((cmd_APDU_size s =? 43) || (cmd_APDU_size s =? 44))
    && (0 <=? fst (rsa_sign (snd (extended_length_decoder cmd))
                            (fst (extended_length_decoder cmd)) (wld s))) in
  digital_signature_counter (snd (cmd_pso s))
  = digital_signature_counter s + (if signs then 1 else 0) /\
  length (filter is_counter_increment (calls (snd (cmd_pso s))))
  = (if signs then 1 else 0)%nat /\
  (peek cmd 2 =? 0x9e) && (peek cmd 3 =? 0x9a)
  && existsb is_successful_rsa_sign (calls (snd (cmd_pso s))) = signs.
Proof.
  intro Hc. cbv zeta.
  replace ((cmd_APDU_size s =? 43) || (cmd_APDU_size s =? 44))
    with (negb (negb (cmd_APDU_size s =? 8 + 35)
                && negb (cmd_APDU_size s =? 8 + 35 + 1)))
    by (rewrite negb_andb, !negb_involutive; reflexivity).
  rewrite (Z.leb_antisym _ 0).
  match goal with
  | |- context [if ?b then 1 else 0] => remember b as signs eqn:Hs
  end.
  change (if signs then 1 else 0) with (Z.b2z signs).
  change (if signs then 1%nat else 0%nat) with (Nat.b2n signs).
  unfold cmd_pso. open_all.
  unfold extended_length_decoder in Hs.
  destruct (peek (cmd_APDU s) 4 =? 0); cbn [fst snd] in Hs; reduce_card;
    split_cases.
  all: subst signs; rewrite ?Hc.
  all: cbn [app filter is_counter_increment existsb is_successful_rsa_sign
            length orb].
  all: use_tests; cbn [fst snd andb orb negb].
  all: rewrite ?(Z.leb_antisym _ 0).
  all: use_tests; cbn [fst snd andb orb negb].
  all: cbn [Z.b2z Nat.b2n]; rewrite ?Z.add_0_r.
  all: repeat split; lia.
Qed.
End CounterIncrements.

Section SignatureCounterTurns.
Context {X : Type} {C : Collaborators X}.

Lemma not_pso_of_unknown (ins : Z) :
  known_instruction ins = false -> (ins =? INS_PSO) = false.
Proof.
  unfold known_instruction. cbn [existsb]. intro H.
  repeat (apply orb_false_iff in H; destruct H as [? H]). assumption.
Qed.

(** One command: the counter moves by one, and the increment is called
    once, for a PSO:CDS whose [rsa_sign] succeeds; for every other command
    the counter stays and the increment is not called.  The trace of the
    command shows a successful [rsa_sign] of a PSO:CDS in the first case
    only. *)
Lemma GPGthread_turn_signs (apdu : list Z * Z) (s : card X) :
  digital_signature_counter (GPGthread_turn apdu s)
  = digital_signature_counter s + (if pso_cds_signs apdu s then 1 else 0) /\
  length (filter is_counter_increment (calls (GPGthread_turn apdu s)))
  = (if pso_cds_signs apdu s then 1 else 0)%nat /\
  pso_cds_that_signs apdu s = pso_cds_signs apdu s.
Proof.
  unfold pso_cds_that_signs, pso_cds_signs. cbv zeta.
  destruct (GPGthread_turn_dispatch apdu s) as (h & D & E). rewrite E.
  remember (peek (fst apdu) 1) as ins eqn:Hins.
  set (s0 := transport_delivers (fst apdu) (snd apdu) s).
  assert (Hc : calls s0 = []) by reflexivity.
  change (digital_signature_counter s) with (digital_signature_counter s0).
  change (wld s) with (wld s0).
  change (snd apdu) with (cmd_APDU_size s0).
  change (fst apdu) with (cmd_APDU s0).
  clearbody s0. clear E Hins.
  destruct D as [| | | | | | | | | | | ins' Hk].
  3: { change (INS_PSO =? INS_PSO) with true. cbn [andb].
       rewrite <- !andb_assoc. rewrite !andb_assoc.
       apply (cmd_pso_signs s0 Hc). }
  all: try (rewrite (not_pso_of_unknown _ Hk)).
  all: match goal with
       | |- context [?a =? INS_PSO] =>
           replace (a =? INS_PSO) with false by reflexivity
       | _ => idtac
       end.
  all: cbn [andb].
  all: split; [|split; [|reflexivity]].
  all: first [ apply no_increment | apply (proj2 (no_increment _ s0 _ _ Hc)) ];
    try exact Hc.
  all: auto using noinc_cmd_verify, noinc_cmd_change_password,
         noinc_cmd_reset_user_password, noinc_cmd_pgp_gakp,
         noinc_cmd_internal_authenticate, noinc_cmd_select_file,
         noinc_cmd_read_binary, noinc_cmd_get_data, noinc_cmd_put_data,
         noinc_GPG_NO_INS, keeps_cmd_verify, keeps_cmd_change_password,
         keeps_cmd_reset_user_password, keeps_cmd_pgp_gakp,
         keeps_cmd_internal_authenticate, keeps_cmd_select_file,
         keeps_cmd_read_binary, keeps_cmd_get_data, keeps_cmd_put_data.
  all: unfold GPG_NO_INS; apply keeps_write_res_apdu.
Qed.

Lemma successful_signatures_nonneg (session : list (list Z * Z))
    (s : card X) :
  0 <= successful_signatures session s.
Proof.
  revert s. induction session as [|apdu rest IH]; intro s; cbn.
  - lia.
  - specialize (IH (GPGthread_turn apdu s)).
    destruct (pso_cds_signs apdu s); lia.
Qed.

Lemma GPGthread_counter (session : list (list Z * Z)) (s : card X) :
  digital_signature_counter (GPGthread session s)
  = digital_signature_counter s + successful_signatures session s.
Proof.
  revert s. induction session as [|apdu rest IH]; intro s.
  - cbn. lia.
  - change (GPGthread (apdu :: rest) s)
      with (GPGthread rest (GPGthread_turn apdu s)).
    rewrite IH. destruct (GPGthread_turn_signs apdu s) as (E & _).
    rewrite E. cbn [successful_signatures]. lia.
Qed.
End SignatureCounterTurns.

(** C6.  Whatever the commands of a session are, a command moves the
    digital signature counter by one, through one call of
    [gpg_increment_digital_signature_counter], when it is a PSO:CDS whose
    [rsa_sign], applied to the data of the command in the state in which
    the command arrives, succeeds; in every other command the increment is
    not called and the counter stays.  After a session the counter has
    grown by the number of such commands, and it is never less than it was
    at an earlier point of the session.  The trace of a command shows a
    successful [rsa_sign] of a PSO:CDS in exactly these commands. *)
Theorem signature_counter_counts_signatures :
  forall (X : Type) (C : Collaborators X)
         (session later : list (list Z * Z)) (apdu : list Z * Z)
         (s : card X),
    digital_signature_counter (GPGthread_turn apdu s)
      = digital_signature_counter s
        + (if pso_cds_signs apdu s then 1 else 0) /\
    length (filter is_counter_increment (calls (GPGthread_turn apdu s)))
      = (if pso_cds_signs apdu s then 1 else 0)%nat /\
    pso_cds_that_signs apdu s = pso_cds_signs apdu s /\
    digital_signature_counter (GPGthread session s)
      = digital_signature_counter s + successful_signatures session s /\
    digital_signature_counter (GPGthread session s)
      <= digital_signature_counter (GPGthread (session ++ later) s).
Proof.
  intros X C session later apdu s.
  destruct (GPGthread_turn_signs apdu s) as (Hcount & Hcalls & Htrace).
  split; [exact Hcount|]. split; [exact Hcalls|]. split; [exact Htrace|].
  split; [apply GPGthread_counter|].
  rewrite GPGthread_app, (GPGthread_counter later).
  pose proof (successful_signatures_nonneg later (GPGthread session s)).
  lia.
Qed.

(** Scenario C of the spec on the reference card: VERIFY of PW1, then a
    PSO:CDS, with a VERIFY, a GET DATA and an INTERNAL AUTHENTICATE (which
    signs as well) around it; the counter goes from 0 to 1.  A PSO:CDS on
    a card whose [rsa_sign] fails, and one in the short form, which is not
    let through to [rsa_sign], leave the counter as it is. *)
Example signature_counter_scenario :
  let session :=
    map (fun a => (a, Z.of_nat (length a)))
        [verify_pw1; get_data_5e; pso_cds; verify_pw1_other;
         internal_authenticate; generate_key] in
  successful_signatures session factory_card = 1 /\
  digital_signature_counter (GPGthread session factory_card) = 1 /\
  response (GPGthread_turn (pso_cds, 43)
              (GPGthread_turn (verify_pw1, 11) factory_card))
    = repeat 0xab 35 ++ [0x90; 0x00] /\
  map (fun c => existsb is_successful_rsa_sign
                  (calls (GPGthread_turn (internal_authenticate, 8)
                            (GPGthread_turn (verify_pw1_other, 11) c))))
      [factory_card] = [true] /\
  pso_cds_signs (pso_cds, 43) rsa_failing_card = false /\
  digital_signature_counter (GPGthread_turn (pso_cds, 43) rsa_failing_card)
  = digital_signature_counter rsa_failing_card /\
  pso_cds_signs (pso_cds_short, 40) (keyed_card false) = false /\
  pso_cds_signs (pso_cds, 43) (keyed_card false) = true.
Proof. repeat split. Qed.

(** ** The extended length rule in the handlers *)

(** Closes a branch in which two tests of the same value disagree. *)
Ltac tests_disagree :=
  exfalso;
  repeat match goal with
         | H : negb _ = false |- _ => apply negb_false_iff in H
         | H : negb _ = true |- _ => apply negb_true_iff in H
         end;
  repeat match goal with
         | H : ?b = true, H' : context [?b] |- _ => rewrite H in H'
         | H : ?b = false, H' : context [?b] |- _ => rewrite H in H'
         end;
  cbn [andb orb negb] in *;
  congruence.

(** Splits on the tests, on the results of the calls and on the records
    looked up in the goal. *)
Ltac split_all :=
  split_cases;
  repeat (match goal with
          | |- context [match ?x with Some _ => _ | None => _ end] =>
              lazymatch x with
              | context [match _ with _ => _ end] => fail
              | context [if _ then _ else _] => fail
              | _ => destruct x eqn:?
              end
          end;
          reduce_card; split_cases).

(** The same, the tests first. *)
Ltac split_tests :=
  repeat
    (match goal with
     | |- context [if ?b then _ else _] =>
         lazymatch b with
         | context [match _ with _ => _ end] => fail
         | context [if _ then _ else _] => fail
         | context [existsb] => fail
         | context [forallb] => fail
         | _ => destruct b eqn:?
         end
     | |- context [match ?x with Some _ => _ | None => _ end] =>
         lazymatch x with
         | context [match _ with _ => _ end] => fail
         | context [if _ then _ else _] => fail
         | _ => destruct x eqn:?
         end
     | |- context [let (_, _) := ?p in _] =>
         lazymatch p with
         | context [match _ with _ => _ end] => fail
         | context [if _ then _ else _] => fail
         | _ => destruct p as [? ?] eqn:?
         end
     end;
     reduce_card).

(** The trace in the goal begins with the calls on the right. *)
Ltac first_calls_found :=
  repeat match goal with
         | H : (_, _) = (_, _) |- _ => injection H as ? ?; subst
         | H : ?b = ?b |- _ => clear H
         end;
  use_tests; cbn [fst snd app negb andb orb];
  rewrite <- ?app_assoc; cbn [app];
  first [ eexists; reflexivity
        | exists []; rewrite ?app_nil_r; reflexivity ].

Section ExtendedLength.
Context {X : Type} {C : Collaborators X}.

Lemma cmd_verify_first_calls (s : card X) :
  calls (snd (cmd_verify s)) = calls s ++ verify_first_calls s.
Proof.
  unfold cmd_verify, verify_first_calls, verify_primitive, verify_call,
    extended_length_decoder, bind, get_cmd_APDU.
  destruct (peek (cmd_APDU s) 4 =? 0); cbn [fst snd];
    destruct (peek (cmd_APDU s) 3 =? 129);
    try destruct (peek (cmd_APDU s) 3 =? 130);
    unfold ext_call;
    match goal with
    | |- context [?f ?p ?l (wld s)] => destruct (f p l (wld s)) as [r w]
    end;
    cbn [fst snd];
    (destruct (r <? 0); [|destruct (r =? 0)]);
    reflexivity.
Qed.

Lemma cmd_change_password_first_calls (s : card X) :
  exists rest,
    calls (snd (cmd_change_password s))
    = calls s ++ change_password_first_calls s ++ rest.
Proof.
  unfold cmd_change_password, change_password_first_calls,
    expected_pw1_length, first_key_calls.
  unfold bind at 1, get_cmd_APDU at 1.
  rewrite change_password_decode, who_is_user.
  destruct (extended_length_decoder (cmd_APDU s)) as [lc data].
  cbn [fst snd].
  destruct (Z.eqb_spec (peek (cmd_APDU s) 3) 129) as [E|N].
  - rewrite E. change (129 - 128) with BY_USER.
    unfold gpg_change_keystring, gpg_change_keystring_body. open_all.
    reduce_card. split_tests.
    all: try solve [impossible_test].
    all: try solve [tests_disagree].
    all: first_calls_found.
  - unfold gpg_change_keystring, gpg_change_keystring_body. open_all.
    reduce_card. split_tests.
    all: try solve [impossible_test].
    all: try solve [tests_disagree].
    all: first_calls_found.
Qed.

Lemma cmd_reset_user_password_first_calls (s : card X) :
  exists rest,
    calls (snd (cmd_reset_user_password s))
    = calls s ++ reset_user_password_first_calls s ++ rest.
Proof.
  unfold cmd_reset_user_password, reset_user_password_first_calls,
    first_key_calls.
  unfold bind at 1, get_cmd_APDU at 1.
  rewrite change_password_decode.
  destruct (extended_length_decoder (cmd_APDU s)) as [lc data].
  cbn [fst snd].
  unfold gpg_change_keystring, gpg_change_keystring_body. open_all.
  reduce_card. split_tests.
  all: try solve [impossible_test].
  all: try solve [tests_disagree].
  all: first_calls_found.
Qed.

Lemma cmd_pso_first_calls (s : card X) :
  exists rest,
    calls (snd (cmd_pso s)) = calls s ++ pso_first_calls s ++ rest.
Proof.
  unfold cmd_pso, pso_first_calls, other_operation_first_calls,
    extended_length_decoder.
  replace ((cmd_APDU_size s =? 43) || (cmd_APDU_size s =? 44))
    with (negb (negb (cmd_APDU_size s =? 8 + 35)
                && negb (cmd_APDU_size s =? 8 + 35 + 1)))
    by (rewrite negb_andb, !negb_involutive; reflexivity).
  open_all.
  destruct (peek (cmd_APDU s) 4 =? 0); reduce_card;
    rewrite ?ptr_add_ptr_add by lia;
    change (5 + 1) with 6; change (7 + 1) with 8;
    split_tests.
  all: try solve [impossible_test].
  all: try solve [tests_disagree].
  all: first_calls_found.
Qed.

Lemma cmd_internal_authenticate_first_calls (s : card X) :
  exists rest,
    calls (snd (cmd_internal_authenticate s))
    = calls s ++ internal_authenticate_first_calls s ++ rest.
Proof.
  unfold cmd_internal_authenticate, internal_authenticate_first_calls,
    other_operation_first_calls, extended_length_decoder.
  open_all.
  destruct (peek (cmd_APDU s) 4 =? 0); reduce_card; split_tests.
  all: try solve [impossible_test].
  all: try solve [tests_disagree].
  all: first_calls_found.
Qed.
End ExtendedLength.

(** Takes two cards with the same operands apart. *)
Ltac same_cards s1 s2 H :=
  destruct s1 as [c1 n1 f1 d1 l1 w1], s2 as [c2 n2 f2 d2 l2 w2];
  unfold same_operands in H;
  cbn [cmd_APDU cmd_APDU_size file_selection digital_signature_counter
       calls wld] in H;
  destruct H as (E2 & E3 & Ed & -> & -> & -> & ->).

(** Both cards have gone through the same steps. *)
Ltac same_steps :=
  unfold same_outcome; open_all; reduce_card; split_all;
  try solve [impossible_test];
  try solve [tests_disagree];
  repeat match goal with
         | H : (_, _) = (_, _) |- _ => injection H as ? ?; subst
         end;
  repeat split; reflexivity.

Section SameOperands.
Context {X : Type} {C : Collaborators X}.

Lemma cmd_verify_by_operands (s1 s2 : card X) :
  same_operands s1 s2 ->
  same_outcome (snd (cmd_verify s1)) (snd (cmd_verify s2)).
Proof.
  intro H. same_cards s1 s2 H.
  unfold cmd_verify, bind at 1 3, get_cmd_APDU. cbn [cmd_APDU fst snd].
  rewrite E3. unfold extended_length_decoder in Ed.
  pose proof (f_equal fst Ed) as El. pose proof (f_equal snd Ed) as Ep.
  clear Ed.
  destruct (peek c1 4 =? 0), (peek c2 4 =? 0); cbn [fst snd] in El, Ep;
    rewrite El, Ep; same_steps.
Qed.

Lemma cmd_change_password_by_operands (s1 s2 : card X) :
  same_operands s1 s2 ->
  same_outcome (snd (cmd_change_password s1))
               (snd (cmd_change_password s2)).
Proof.
  intro H. same_cards s1 s2 H.
  unfold cmd_change_password, bind, get_cmd_APDU.
  cbn [cmd_APDU fst snd].
  rewrite !change_password_decode, E3, Ed.
  destruct (extended_length_decoder c1) as [lc data].
  unfold gpg_change_keystring, gpg_change_keystring_body.
  same_steps.
Qed.

Lemma cmd_reset_user_password_by_operands (s1 s2 : card X) :
  same_operands s1 s2 ->
  same_outcome (snd (cmd_reset_user_password s1))
               (snd (cmd_reset_user_password s2)).
Proof.
  intro H. same_cards s1 s2 H.
  unfold cmd_reset_user_password, bind, get_cmd_APDU.
  cbn [cmd_APDU fst snd].
  rewrite !change_password_decode, E2, Ed.
  destruct (extended_length_decoder c1) as [lc data].
  unfold gpg_change_keystring, gpg_change_keystring_body.
  same_steps.
Qed.

Lemma cmd_pso_by_operands (s1 s2 : card X) :
  same_operands s1 s2 ->
  cmd_APDU_size s2 = cmd_APDU_size s1 ->
  same_outcome (snd (cmd_pso s1)) (snd (cmd_pso s2)).
Proof.
  intros H Hn. same_cards s1 s2 H. cbn [cmd_APDU_size] in Hn. subst n2.
  unfold cmd_pso, bind, get_cmd_APDU. cbn [cmd_APDU fst snd].
  rewrite E2, E3. unfold extended_length_decoder in Ed.
  pose proof (f_equal fst Ed) as El. pose proof (f_equal snd Ed) as Ep.
  clear Ed.
  destruct (peek c1 4 =? 0), (peek c2 4 =? 0); cbn [fst snd] in El, Ep;
    cbv iota beta;
    rewrite <- ?(ptr_add_ptr_add c1 5 1), <- ?(ptr_add_ptr_add c1 7 1),
      <- ?(ptr_add_ptr_add c2 5 1), <- ?(ptr_add_ptr_add c2 7 1) by lia;
    rewrite El, Ep; same_steps.
Qed.

Lemma cmd_internal_authenticate_by_operands (s1 s2 : card X) :
  same_operands s1 s2 ->
  same_outcome (snd (cmd_internal_authenticate s1))
               (snd (cmd_internal_authenticate s2)).
Proof.
  intro H. same_cards s1 s2 H.
  unfold cmd_internal_authenticate, bind, get_cmd_APDU.
  cbn [cmd_APDU fst snd].
  rewrite E2, E3. unfold extended_length_decoder in Ed.
  pose proof (f_equal fst Ed) as El. pose proof (f_equal snd Ed) as Ep.
  clear Ed.
  destruct (peek c1 4 =? 0), (peek c2 4 =? 0); cbn [fst snd] in El, Ep;
    rewrite El, Ep; same_steps.
Qed.
End SameOperands.

(** C4, amended.  PUT DATA never looks at [cmd_APDU[4]]: the store is
    handed the data from offset 5 on and [cmd_APDU_size - 5] as their
    length, unless that is 256 or more, when the data are those from
    offset 7 on and the length is [cmd_APDU_size - 7].  VERIFY, CHANGE
    REFERENCE DATA, RESET RETRY COUNTER, PSO and INTERNAL AUTHENTICATE do
    follow the rule of the extended length decoder: each begins with the
    calls that are given the Lc and the data of the rule, with the values
    that the functions called return in the state of the card, and two
    commands with the same P1, P2, Lc and data by the rule are processed
    alike (for PSO, which tests the size of the command, when they have
    the same size). *)
Theorem cmd_put_data_extended_by_size :
  forall (X : Type) (C : Collaborators X) (s : card X),
    calls (snd (cmd_put_data s))
      = calls s ++ [Call_gpg_do_put_data (tag_of (cmd_APDU s))
                      (if cmd_APDU_size s - 5 >=? 256
                       then ptr_add (cmd_APDU s) 7 else ptr_add (cmd_APDU s) 5)
                      (if cmd_APDU_size s - 5 >=? 256
                       then cmd_APDU_size s - 7 else cmd_APDU_size s - 5)] /\
    calls (snd (cmd_verify s)) = calls s ++ verify_first_calls s /\
    (exists rest,
        calls (snd (cmd_change_password s))
        = calls s ++ change_password_first_calls s ++ rest) /\
    (exists rest,
        calls (snd (cmd_reset_user_password s))
        = calls s ++ reset_user_password_first_calls s ++ rest) /\
    (exists rest,
        calls (snd (cmd_pso s)) = calls s ++ pso_first_calls s ++ rest) /\
    (exists rest,
        calls (snd (cmd_internal_authenticate s))
        = calls s ++ internal_authenticate_first_calls s ++ rest) /\
    (forall s2 : card X,
        same_operands s s2 ->
        same_outcome (snd (cmd_verify s)) (snd (cmd_verify s2)) /\
        same_outcome (snd (cmd_change_password s))
                     (snd (cmd_change_password s2)) /\
        same_outcome (snd (cmd_reset_user_password s))
                     (snd (cmd_reset_user_password s2)) /\
        same_outcome (snd (cmd_internal_authenticate s))
                     (snd (cmd_internal_authenticate s2)) /\
        (cmd_APDU_size s2 = cmd_APDU_size s ->
         same_outcome (snd (cmd_pso s)) (snd (cmd_pso s2)))).
Proof.
  intros X C s.
  split.
  { destruct (cmd_put_data_always_delegates s) as (H & _).
    rewrite H. unfold put_data_arguments.
    destruct (cmd_APDU_size s - 5 >=? 256); reflexivity. }
  split; [apply cmd_verify_first_calls|].
  split; [apply cmd_change_password_first_calls|].
  split; [apply cmd_reset_user_password_first_calls|].
  split; [apply cmd_pso_first_calls|].
  split; [apply cmd_internal_authenticate_first_calls|].
  intros s2 H.
  split; [apply cmd_verify_by_operands, H|].
  split; [apply cmd_change_password_by_operands, H|].
  split; [apply cmd_reset_user_password_by_operands, H|].
  split; [apply cmd_internal_authenticate_by_operands, H|].
  intro Hn. apply cmd_pso_by_operands; assumption.
Qed.

(** VERIFY of PW1 in the short and in the extended form, CHANGE REFERENCE
    DATA and INTERNAL AUTHENTICATE in both forms: the same calls on the
    same data, and the same card afterwards. *)
Example extended_form_is_processed_as_short_form :
  let short := transport_delivers verify_pw1 11 factory_card in
  let extended := transport_delivers verify_pw1_extended 13 factory_card in
  same_operands short extended /\
  verify_first_calls extended
  = [Call_verify_pso_cds [0x31; 0x32; 0x33; 0x34; 0x35; 0x36] 6 1] /\
  calls (snd (cmd_verify extended)) = verify_first_calls short /\
  same_outcome (snd (cmd_verify short)) (snd (cmd_verify extended)) /\
  (let short :=
     transport_delivers change_pw1 17 (keyed_card false) in
   let extended :=
     transport_delivers change_pw1_extended 19 (keyed_card false) in
   same_operands short extended /\
   same_outcome (snd (cmd_change_password short))
                (snd (cmd_change_password extended)) /\
   response (snd (cmd_change_password extended)) = [0x90; 0x00]) /\
  (let short :=
     transport_delivers internal_authenticate 8
                        (with_pso_other factory_card) in
   let extended :=
     transport_delivers internal_authenticate_extended 10
                        (with_pso_other factory_card) in
   same_operands short extended /\
   same_outcome (snd (cmd_internal_authenticate short))
                (snd (cmd_internal_authenticate extended)) /\
   response (snd (cmd_internal_authenticate extended))
   = [0x01; 0x02; 0x03; 0x90; 0x00]).
Proof. repeat split. Qed.
